(** * The pageout control plane of [usr/src/uts/common/os/vm_pageout.c]

    A shallow embedding of the threshold calculator ([setupclock]), the
    scheduler ([schedpaging]), the per-page decider ([checkpage]), the
    asynchronous request pool ([pageout] / [queue_io_request]) and the
    deadman ([pageout_deadman]), together with the properties the
    specification states about them.

    C integers are integers of [Z] with the wrap-around written where the
    C arithmetic is performed: [pgcnt_t] and [ulong_t] are 64-bit unsigned,
    [spgcnt_t] and [hrtime_t] 64-bit signed, [uint_t] 32-bit unsigned. *)

From Stdlib Require Import ZArith List Bool Lia.
Import ListNotations.
Open Scope Z_scope.

(** ** Machine arithmetic *)

Definition u64 (x : Z) : Z := x mod 2 ^ 64.
Definition u32 (x : Z) : Z := x mod 2 ^ 32.
Definition s64 (x : Z) : Z := (x + 2 ^ 63) mod 2 ^ 64 - 2 ^ 63.

(** What a call of the kernel code comes to: it returns, it traps on a
    division by zero, or the loop budget of the model ran out. *)
Inductive outcome (A : Type) : Type :=
| Done (a : A)
| Trap
| OutOfFuel.
Arguments Done {A} a.
Arguments Trap {A}.
Arguments OutOfFuel {A}.

(** Modelled from the spec: the macros [MIN] and [MAX]. *)
Definition MIN (a b : Z) : Z := if a <? b then a else b.
Definition MAX (a b : Z) : Z := if a >? b then a else b.

(** Modelled from the spec: the macro [nz] is not in this file; the spec
    writes it [max(lotsfree,1)], the value itself unless it is zero. *)
Definition nz (x : Z) : Z := if x =? 0 then 1 else x.

(** Modelled from the spec: [NANOSEC], nanoseconds in a second. *)
Definition NANOSEC : Z := 1000000000.

Definition MEGABYTES : Z := 1024 * 1024.
Definition LOTSFREE_MIN_DEFAULT : Z := 16 * MEGABYTES.
Definition LOTSFREE_MAX_DEFAULT : Z := 2048 * MEGABYTES.
Definition MAX_PSCAN_THREADS : Z := 16.
Definition SCHEDPAGING_HZ : Z := 4.
Definition MIN_PO_SHARE : Z := 8.
Definition MAX_PO_SHARE : Z := Z.shiftl MIN_PO_SHARE 24.

(** [static int loopfraction = 2], never assigned. *)
Definition loopfraction : Z := 2.

(** ** Data *)

(** [struct clockinit]: the operator's values, kept from the first call. *)
Record clockinit_t : Type := mkClockinit {
  ci_init : bool;
  ci_lotsfree_min : Z;
  ci_lotsfree_max : Z;
  ci_lotsfree : Z;
  ci_desfree : Z;
  ci_minfree : Z;
  ci_throttlefree : Z;
  ci_pageout_reserve : Z;
  ci_maxpgio : Z;
  ci_maxfastscan : Z;
  ci_fastscan : Z;
  ci_slowscan : Z;
  ci_handspreadpages : Z
}.

(** The paging globals that [setupclock] assigns. *)
Record paging : Type := mkPaging {
  looppages : Z;
  lotsfree_max : Z;
  lotsfree_min : Z;
  lotsfree : Z;
  desfree : Z;
  minfree : Z;
  throttlefree : Z;
  pageout_reserve : Z;
  maxpgio : Z;
  maxfastscan : Z;
  fastscan : Z;
  slowscan : Z;
  handspreadpages : Z
}.

(** The scanner pool globals, shared by [setupclock] and [schedpaging]. *)
Record scanners : Type := mkScanners {
  pscan_region_sz : Z;
  des_page_scanners : Z;
  n_page_scanners : Z;
  reset_hands : list bool
}.

(** Tunables that this file reads and never assigns. *)
Record tunables : Type := mkTunables {
  lotsfree_fraction : Z;          (* uint_t, 64 *)
  pageout_threshold_style : Z;    (* uint_t, 0 *)
  maxslowscan : Z;                (* pgcnt_t, 100 *)
  min_percent_cpu : Z;            (* int, 4 *)
  max_percent_cpu : Z;            (* int, 80 *)
  pageout_sample_lim : Z;         (* uint_t, 4 *)
  zone_pageout_nsec : Z           (* hrtime_t, 0 *)
}.

Definition default_tunables : tunables :=
  mkTunables 64 0 100 4 80 4 0.

Record clockstate : Type := mkClock {
  cs_init : clockinit_t;
  cs_paging : paging;
  cs_scan : scanners
}.

(** The state of a freshly loaded kernel: every global is zero. *)
Definition clockinit0 : clockinit_t :=
  mkClockinit false 0 0 0 0 0 0 0 0 0 0 0 0.
Definition paging0 : paging := mkPaging 0 0 0 0 0 0 0 0 0 0 0 0 0.
Definition scanners0 : scanners :=
  mkScanners 0 0 0 (repeat false (Z.to_nat MAX_PSCAN_THREADS)).
Definition clockstate0 : clockstate := mkClock clockinit0 paging0 scanners0.

(** [a[i] = v] on an array held as a list. *)
Fixpoint array_set {A : Type} (l : list A) (i : nat) (v : A) : list A :=
  match l, i with
  | [], _ => []
  | _ :: t, O => v :: t
  | h :: t, S j => h :: array_set t j v
  end.

(** ** The threshold calculator *)

Definition clamp (value minimum maximum : Z) : Z :=
  if value <? minimum then minimum
  else if value >? maximum then maximum
  else value.

Definition tune (initval initval_ceiling defval : Z) : Z :=
  if (initval =? 0) || (initval >=? initval_ceiling) then defval
  else initval.

Section Platform.

(** Taken as parameters: [PAGESHIFT] (the page size is [2 ^ PAGESHIFT]) and
    [DISKRPM] come from the platform headers. *)
Variable PAGESHIFT : Z.
Variable DISKRPM : Z.

(** Modelled from the spec: [btop], bytes to pages. *)
Definition btop (x : Z) : Z := Z.shiftr x PAGESHIFT.

(** Modelled from the spec: [MAXHANDSPREADPAGES], the pages covering 64 MiB. *)
Definition MAXHANDSPREADPAGES : Z := btop (64 * MEGABYTES).

(** The first call keeps the operator's values. *)
Definition clockinit_snapshot (pg : paging) : clockinit_t :=
  mkClockinit true
    (lotsfree_min pg) (lotsfree_max pg) (lotsfree pg) (desfree pg)
    (minfree pg) (throttlefree pg) (pageout_reserve pg) (maxpgio pg)
    (maxfastscan pg) (fastscan pg) (slowscan pg) (handspreadpages pg).

(** [for (i = 1; tmp < total_pages; i++) tmp += sz;] *)
Fixpoint count_regions (fuel : nat) (sz total_pages tmp i : Z) : outcome Z :=
  if tmp <? total_pages then
    match fuel with
    | O => OutOfFuel
    | S fuel' =>
        count_regions fuel' sz total_pages (u64 (tmp + sz)) (u32 (i + 1))
    end
  else Done i.

(** The region size recorded in [pscan_region_sz]: 64GB in pages, or
    twice [handspreadpages] when 64GB is smaller than that, and no more
    than [total_pages]. *)
Definition region_size (total_pages hsp : Z) : Z :=
  let sz := btop (64 * 1073741824) in
  let sz := if sz <? hsp then u64 (Z.shiftl hsp 1) else sz in
  if sz >? total_pages then total_pages else sz.

(** The thresholds of [setupclock], from [lotsfree_max] down to
    [handspreadpages], computed from the snapshot [ci]. *)
Definition setupclock_thresholds (tn : tunables)
    (total_pages pageout_new_spread : Z) (ci : clockinit_t) : paging :=
  let half := pageout_threshold_style tn =? 1 in
  let looppages := total_pages in
  let lotsfree_max :=
    tune (ci_lotsfree_max ci) looppages (btop LOTSFREE_MAX_DEFAULT) in
  let lotsfree_min :=
    tune (ci_lotsfree_min ci) lotsfree_max (btop LOTSFREE_MIN_DEFAULT) in
  let lotsfree :=
    tune (ci_lotsfree ci) looppages
      (clamp (looppages / lotsfree_fraction tn) lotsfree_min lotsfree_max) in
  let desfree := tune (ci_desfree ci) lotsfree (lotsfree / 2) in
  let minfree :=
    tune (ci_minfree ci) desfree
      (if half then desfree / 2 else u64 (3 * desfree) / 4) in
  let throttlefree := tune (ci_throttlefree ci) desfree minfree in
  let pageout_reserve :=
    tune (ci_pageout_reserve ci) throttlefree
      (if half then throttlefree / 2 else u64 (3 * throttlefree) / 4) in
  let maxpgio :=
    if ci_maxpgio ci =? 0 then Z.quot (DISKRPM * 2) 3 else ci_maxpgio ci in
  let maxfastscan :=
    if ci_maxfastscan ci =? 0 then
      if negb (pageout_new_spread =? 0) then pageout_new_spread
      else MAXHANDSPREADPAGES
    else ci_maxfastscan ci in
  let fastscan :=
    if ci_fastscan ci =? 0 then MIN (looppages / loopfraction) maxfastscan
    else ci_fastscan ci in
  let fastscan :=
    if fastscan >? looppages / loopfraction then looppages / loopfraction
    else fastscan in
  let slowscan :=
    if ci_slowscan ci =? 0 then MIN (fastscan / 10) (maxslowscan tn)
    else ci_slowscan ci in
  let slowscan :=
    if slowscan >? fastscan / 2 then fastscan / 2 else slowscan in
  let handspreadpages :=
    if ci_handspreadpages ci =? 0 then fastscan
    else ci_handspreadpages ci in
  let handspreadpages :=
    if handspreadpages >=? looppages then u64 (looppages - 1)
    else handspreadpages in
  mkPaging looppages lotsfree_max lotsfree_min lotsfree desfree minfree
    throttlefree pageout_reserve maxpgio maxfastscan fastscan slowscan
    handspreadpages.

(** [setupclock]: the snapshot on the first call, the thresholds, then the
    scanner pool.  The division by [lotsfree_fraction] traps when that
    tunable is zero. *)
Definition setupclock (tn : tunables) (total_pages pageout_new_spread : Z)
    (fuel : nat) (st : clockstate) : outcome clockstate :=
  let '(ci, recalc) :=
    if negb (ci_init (cs_init st))
    then (clockinit_snapshot (cs_paging st), false)
    else (cs_init st, true) in
  if lotsfree_fraction tn =? 0 then Trap else
  let pg := setupclock_thresholds tn total_pages pageout_new_spread ci in
  if negb recalc then
    Done (mkClock ci pg
            (mkScanners total_pages 1 1
               (array_set (reset_hands (cs_scan st)) 0 true)))
  else
    let sz := region_size total_pages (handspreadpages pg) in
    match count_regions fuel sz total_pages sz 1 with
    | Done i =>
        let i := if i >? MAX_PSCAN_THREADS then MAX_PSCAN_THREADS else i in
        Done (mkClock ci pg
                (mkScanners sz i (n_page_scanners (cs_scan st))
                   (reset_hands (cs_scan st))))
    | Trap => Trap
    | OutOfFuel => OutOfFuel
    end.

(** The calls of [setupclock] in a system's life, one after the other: each
    with the page count, the spread measured so far and its loop budget. *)
Fixpoint setupclock_run (tn : tunables) (calls : list (Z * Z * nat))
    (st : clockstate) : outcome clockstate :=
  match calls with
  | [] => Done st
  | (total_pages, pageout_new_spread, fuel) :: rest =>
      match setupclock tn total_pages pageout_new_spread fuel st with
      | Done st' => setupclock_run tn rest st'
      | Trap => Trap
      | OutOfFuel => OutOfFuel
      end
  end.

End Platform.

(** [pageout_scanner] sets the per-wakeup time bounds before its loop;
    [NANOSEC] is a [long long], the arithmetic is signed. *)
Definition min_pageout_nsec_of (tn : tunables) : Z :=
  MAX 1 (Z.quot (Z.quot (NANOSEC * min_percent_cpu tn) 100) SCHEDPAGING_HZ).
Definition max_pageout_nsec_of (tn : tunables) : Z :=
  MAX (min_pageout_nsec_of tn)
      (Z.quot (Z.quot (NANOSEC * max_percent_cpu tn) 100) SCHEDPAGING_HZ).

(** ** Well-formed states: every global holds a value of its C type *)

Definition u64b (x : Z) : bool := (0 <=? x) && (x <? 2 ^ 64).
Definition u32b (x : Z) : bool := (0 <=? x) && (x <? 2 ^ 32).

Definition clockinit_wf (ci : clockinit_t) : bool :=
  u64b (ci_lotsfree_min ci) && u64b (ci_lotsfree_max ci) &&
  u64b (ci_lotsfree ci) && u64b (ci_desfree ci) && u64b (ci_minfree ci) &&
  u64b (ci_throttlefree ci) && u64b (ci_pageout_reserve ci) &&
  u64b (ci_maxpgio ci) && u64b (ci_maxfastscan ci) && u64b (ci_fastscan ci) &&
  u64b (ci_slowscan ci) && u64b (ci_handspreadpages ci).

Definition tunables_wf (tn : tunables) : bool :=
  u32b (lotsfree_fraction tn) && negb (lotsfree_fraction tn =? 0) &&
  u32b (pageout_threshold_style tn) && u64b (maxslowscan tn) &&
  u32b (pageout_sample_lim tn).

(** The snapshot [setupclock] works from: the one kept from the first call,
    or the one the first call takes. *)
Definition effective_clockinit (st : clockstate) : clockinit_t :=
  if ci_init (cs_init st) then cs_init st
  else clockinit_snapshot (cs_paging st).

(** A platform with pages of 2 bytes to 16 MiB, and a page count whose
    byte count fits the 64-bit address space. *)
Definition legal_platform (PAGESHIFT : Z) : Prop := 1 <= PAGESHIFT <= 24.
Definition legal_pages (PAGESHIFT T : Z) : Prop :=
  0 <= T /\ T * 2 ^ PAGESHIFT < 2 ^ 64.

(** [(a + b - 1) / b], the quotient rounded up. *)
Definition ceil_div (a b : Z) : Z := (a + b - 1) / b.

(** [des_page_scanners] is cut at [MAX_PSCAN_THREADS]. *)
Definition cap_scanners (i : Z) : Z :=
  if i >? MAX_PSCAN_THREADS then MAX_PSCAN_THREADS else i.

(** The region size as the spec words it: the larger of 64 GiB in pages and
    twice [handspreadpages], clamped down to [total_pages]. *)
Definition spec_region_size (PAGESHIFT total_pages hsp : Z) : Z :=
  Z.min (Z.max (btop PAGESHIFT (64 * 1073741824)) (2 * hsp)) total_pages.

(** The thresholds, each written from the snapshot [ci] and from the
    thresholds derived before it. *)
Definition derived (PAGESHIFT DISKRPM : Z) (tn : tunables) (T spread : Z)
    (ci : clockinit_t) (pg : paging) : Prop :=
  let half := pageout_threshold_style tn =? 1 in
  looppages pg = T /\
  lotsfree_max pg =
    tune (ci_lotsfree_max ci) T (btop PAGESHIFT LOTSFREE_MAX_DEFAULT) /\
  lotsfree_min pg =
    tune (ci_lotsfree_min ci) (lotsfree_max pg)
      (btop PAGESHIFT LOTSFREE_MIN_DEFAULT) /\
  lotsfree pg =
    tune (ci_lotsfree ci) T
      (clamp (T / lotsfree_fraction tn) (lotsfree_min pg) (lotsfree_max pg)) /\
  desfree pg = tune (ci_desfree ci) (lotsfree pg) (lotsfree pg / 2) /\
  minfree pg =
    tune (ci_minfree ci) (desfree pg)
      (if half then desfree pg / 2 else u64 (3 * desfree pg) / 4) /\
  throttlefree pg = tune (ci_throttlefree ci) (desfree pg) (minfree pg) /\
  pageout_reserve pg =
    tune (ci_pageout_reserve ci) (throttlefree pg)
      (if half then throttlefree pg / 2
       else u64 (3 * throttlefree pg) / 4) /\
  maxpgio pg =
    (if ci_maxpgio ci =? 0 then Z.quot (DISKRPM * 2) 3 else ci_maxpgio ci) /\
  maxfastscan pg =
    (if ci_maxfastscan ci =? 0 then
       if negb (spread =? 0) then spread else MAXHANDSPREADPAGES PAGESHIFT
     else ci_maxfastscan ci) /\
  fastscan pg =
    (let f := if ci_fastscan ci =? 0
              then MIN (T / loopfraction) (maxfastscan pg)
              else ci_fastscan ci in
     if f >? T / loopfraction then T / loopfraction else f) /\
  slowscan pg =
    (let s := if ci_slowscan ci =? 0
              then MIN (fastscan pg / 10) (maxslowscan tn)
              else ci_slowscan ci in
     if s >? fastscan pg / 2 then fastscan pg / 2 else s) /\
  handspreadpages pg =
    (let h := if ci_handspreadpages ci =? 0 then fastscan pg
              else ci_handspreadpages ci in
     if h >=? T then u64 (T - 1) else h).

(** An operator value [v] under a ceiling: kept when it is nonzero and
    below the ceiling, replaced by the default otherwise. *)
Definition honoured (v ceiling dflt effective : Z) : Prop :=
  (v <> 0 -> v < ceiling -> effective = v) /\
  (v = 0 \/ ceiling <= v -> effective = dflt).

(** An operator value [v] under a cap: kept when it is nonzero and not above
    the cap, cut to the cap when above it; the default, cut the same way,
    when it is zero. *)
Definition capped (v cap dflt effective : Z) : Prop :=
  (v <> 0 -> v <= cap -> effective = v) /\
  (v <> 0 -> cap < v -> effective = cap) /\
  (v = 0 -> effective = Z.min dflt cap).

(** What the thresholds [pg] of a call owe to the operator's values [ci]:
    [tune] for seven of them, any nonzero value for [maxpgio] and
    [maxfastscan], the value cut to a cap for [fastscan], [slowscan] and
    [handspreadpages]. *)
Definition overrides_honoured (PAGESHIFT DISKRPM : Z) (tn : tunables)
    (T spread : Z) (ci : clockinit_t) (pg : paging) : Prop :=
  let half := pageout_threshold_style tn =? 1 in
  (honoured (ci_lotsfree_max ci) T (btop PAGESHIFT LOTSFREE_MAX_DEFAULT)
     (lotsfree_max pg) /\
   honoured (ci_lotsfree_min ci) (lotsfree_max pg)
     (btop PAGESHIFT LOTSFREE_MIN_DEFAULT) (lotsfree_min pg) /\
   honoured (ci_lotsfree ci) T
     (clamp (T / lotsfree_fraction tn) (lotsfree_min pg) (lotsfree_max pg))
     (lotsfree pg) /\
   honoured (ci_desfree ci) (lotsfree pg) (lotsfree pg / 2) (desfree pg) /\
   honoured (ci_minfree ci) (desfree pg)
     (if half then desfree pg / 2 else u64 (3 * desfree pg) / 4)
     (minfree pg) /\
   honoured (ci_throttlefree ci) (desfree pg) (minfree pg)
     (throttlefree pg) /\
   honoured (ci_pageout_reserve ci) (throttlefree pg)
     (if half then throttlefree pg / 2 else u64 (3 * throttlefree pg) / 4)
     (pageout_reserve pg)) /\
  ((ci_maxpgio ci <> 0 -> maxpgio pg = ci_maxpgio ci) /\
   (ci_maxpgio ci = 0 -> maxpgio pg = Z.quot (DISKRPM * 2) 3) /\
   (ci_maxfastscan ci <> 0 -> maxfastscan pg = ci_maxfastscan ci) /\
   (ci_maxfastscan ci = 0 ->
    maxfastscan pg =
      if spread =? 0 then MAXHANDSPREADPAGES PAGESHIFT else spread)) /\
  (capped (ci_fastscan ci) (T / 2) (Z.min (T / 2) (maxfastscan pg))
     (fastscan pg) /\
   capped (ci_slowscan ci) (fastscan pg / 2)
     (Z.min (fastscan pg / 10) (maxslowscan tn)) (slowscan pg) /\
   (ci_handspreadpages ci <> 0 -> ci_handspreadpages ci < T ->
    handspreadpages pg = ci_handspreadpages ci) /\
   (ci_handspreadpages ci <> 0 -> T <= ci_handspreadpages ci ->
    handspreadpages pg = u64 (T - 1)) /\
   (ci_handspreadpages ci = 0 ->
    handspreadpages pg =
      if fastscan pg >=? T then u64 (T - 1) else fastscan pg)).

(** ** Scenarios for the threshold calculator *)

(** A kernel whose operator set [desfree], [throttlefree] and [fastscan]
    before the first call (zero: not set). *)
Definition patched (desfree_v throttlefree_v fastscan_v : Z) : clockstate :=
  mkClock clockinit0
    (mkPaging 0 0 0 0 desfree_v 0 throttlefree_v 0 0 0 fastscan_v 0 0)
    scanners0.

(** A kernel past its first call, the operator having set
    [handspreadpages] (zero: not set). *)
Definition recalculating (hsp : Z) : clockstate :=
  mkClock (mkClockinit true 0 0 0 0 0 0 0 0 0 0 0 hsp) paging0
    (mkScanners 0 1 1 (repeat false (Z.to_nat MAX_PSCAN_THREADS))).

(** ** The pool of asynchronous putpage requests *)

(** What the code reads of a vnode: its identity, whether [v_flag] has
    [VVMEXEC], and what [IS_SWAPFSVP] answers. *)
Record vnode : Type := mkVnode {
  v_id : Z;
  v_vvmexec : bool;
  v_swapfs : bool
}.

Inductive bflag : Type := B_ASYNC | B_FREE.
Inductive cred : Type := kcred.

(** [struct async_reqs]; [a_next] is the order of the list that holds the
    request.  [a_flags] holds the flags that are or-ed together. *)
Record async_reqs : Type := mkReq {
  a_vp : option vnode;
  a_off : Z;
  a_len : Z;
  a_flags : list bflag;
  a_cred : option cred
}.

(** A request as [kmem_zalloc] returns it. *)
Definition zeroed_req : async_reqs := mkReq None 0 0 [] None.

Record pool : Type := mkPool {
  req_freelist : list async_reqs;     (* available req structs *)
  push_list : list async_reqs;        (* pending reqs *)
  pageout_pushing : bool;
  pageout_pushcount : Z;              (* uint64_t *)
  pushes : Z;                         (* pgcnt_t *)
  push_list_size : Z                  (* ulong_t *)
}.

(** [static int async_list_size = 256], never assigned. *)
Definition async_list_size : Z := 256.

(** The start of [pageout]: [n] zeroed requests, [push_req[i].a_next]
    pointing at [push_req[i + 1]], all of them on the freelist. *)
Definition pageout_init (n : Z) : pool :=
  mkPool (repeat zeroed_req (Z.to_nat n)) [] false 0 0 0.

(** What the pageout thread does while it holds [push_lock] at the top of
    its loop: it waits ([None]) while there is nothing pending or the
    pushes of this tick are used up, else it takes the head request. *)
Definition pageout_take (max_pushes : Z) (pl : pool)
  : option (async_reqs * pool) :=
  match push_list pl with
  | [] => None
  | arg :: rest =>
      if pushes pl >? max_pushes then None
      else Some (arg,
                 mkPool (req_freelist pl) rest true (pageout_pushcount pl)
                   (pushes pl) (push_list_size pl))
  end.

(** The wake-up from [cv_wait] inside that loop. *)
Definition pageout_wakeup (pl : pool) : pool :=
  mkPool (req_freelist pl) (push_list pl) (pageout_pushing pl)
    (pageout_pushcount pl) 0 (push_list_size pl).

(** The rest of the loop body, once [VOP_PUTPAGE] has returned
    [putpage_rv]: count the push, give the request back. *)
Definition pageout_done (putpage_rv : Z) (arg : async_reqs) (pl : pool)
  : pool :=
  let pushes' := if putpage_rv =? 0 then u64 (pushes pl + 1) else pushes pl in
  mkPool (arg :: req_freelist pl) (push_list pl) false
    (u64 (pageout_pushcount pl + 1)) pushes' (u64 (push_list_size pl - 1)).

Inductive pool_event : Type :=
| EvSignalPush.            (* cv_signal(&push_cv) *)

Section Queue.

Variable PAGESHIFT : Z.

(** Modelled from the spec: [PAGESIZE], the bytes of a page. *)
Definition PAGESIZE : Z := Z.shiftl 1 PAGESHIFT.

Definition queue_io_request (vp : vnode) (off : Z) (pl : pool)
  : Z * pool * list pool_event :=
  match req_freelist pl with
  | [] => (0, pl, [])
  | _ :: freelist' =>
      let arg := mkReq (Some vp) off PAGESIZE [B_ASYNC; B_FREE] (Some kcred) in
      (1,
       mkPool freelist' (arg :: push_list pl) (pageout_pushing pl)
         (pageout_pushcount pl) (pushes pl) (u64 (push_list_size pl + 1)),
       match freelist' with [] => [EvSignalPush] | _ => [] end)
  end.

End Queue.

(** [cv_signal_pageout]: signal the pusher when something is pending. *)
Definition cv_signal_pageout (pl : pool) : list pool_event :=
  match push_list pl with
  | [] => []
  | _ => [EvSignalPush]
  end.

Definition is_some {A : Type} (o : option A) : bool :=
  match o with Some _ => true | None => false end.

(** The pool together with the request the pageout thread holds while it is
    in [VOP_PUTPAGE]. *)
Record pusher : Type := mkPusher {
  pu_pool : pool;
  pu_arg : option async_reqs
}.

(** The steps that take and release [push_lock]. *)
Inductive pool_step (PAGESHIFT max_pushes : Z) : pusher -> pusher -> Prop :=
| step_queue (pl : pool) (a : option async_reqs) (vp : vnode) (off : Z) :
    pool_step PAGESHIFT max_pushes (mkPusher pl a)
      (mkPusher (snd (fst (queue_io_request PAGESHIFT vp off pl))) a)
| step_wakeup (pl : pool) :
    pageout_take max_pushes pl = None ->
    pool_step PAGESHIFT max_pushes (mkPusher pl None)
      (mkPusher (pageout_wakeup pl) None)
| step_take (pl pl' : pool) (arg : async_reqs) :
    pageout_take max_pushes pl = Some (arg, pl') ->
    pool_step PAGESHIFT max_pushes (mkPusher pl None) (mkPusher pl' (Some arg))
| step_done (pl : pool) (arg : async_reqs) (rv : Z) :
    pool_step PAGESHIFT max_pushes (mkPusher pl (Some arg))
      (mkPusher (pageout_done rv arg pl) None).

(** The states the pool goes through, [push_lock] not held. *)
Inductive pool_reachable (PAGESHIFT max_pushes n : Z) : pusher -> Prop :=
| reach_init : pool_reachable PAGESHIFT max_pushes n
                 (mkPusher (pageout_init n) None)
| reach_step (s s' : pusher) :
    pool_reachable PAGESHIFT max_pushes n s ->
    pool_step PAGESHIFT max_pushes s s' ->
    pool_reachable PAGESHIFT max_pushes n s'.

Definition in_flight (pl : pool) : Z := if pageout_pushing pl then 1 else 0.

(** The count the pool keeps: pending, free and in flight add up to [n], and
    a request is in flight exactly while the pageout thread holds one. *)
Definition pool_balanced (n : Z) (s : pusher) : Prop :=
  Z.of_nat (length (push_list (pu_pool s)))
  + Z.of_nat (length (req_freelist (pu_pool s)))
  + in_flight (pu_pool s) = n /\
  pageout_pushing (pu_pool s) = is_some (pu_arg s).


(** ** The deadman *)

Record deadman : Type := mkDeadman {
  pageout_stucktime : Z;          (* uint_t *)
  pageout_pushcount_seen : Z      (* uint64_t *)
}.

Inductive deadman_result : Type :=
| Panic (seconds freemem : Z)
| Return (d : deadman).

Definition pageout_deadman (panicstr : bool) (pageout_deadman_seconds : Z)
    (freemem : Z) (pl : pool) (d : deadman) : deadman_result :=
  let reset := Return (mkDeadman 0 (pageout_pushcount pl)) in
  if panicstr then Return d
  else if pageout_deadman_seconds =? 0 then Return d
  else if negb (pageout_pushing pl) then reset
  else if negb (pageout_pushcount pl =? pageout_pushcount_seen d) then reset
  else
    let stucktime := u32 (pageout_stucktime d + 1) in
    if stucktime >=? pageout_deadman_seconds then
      Panic pageout_deadman_seconds freemem
    else Return (mkDeadman stucktime (pageout_pushcount_seen d)).

(** What the deadman sees at one check. *)
Record observation : Type := mkObs {
  ob_pushing : bool;
  ob_pushcount : Z
}.

Definition pool_of (o : observation) : pool :=
  mkPool [] [] (ob_pushing o) (ob_pushcount o) 0 0.

(** One check a second, until a panic: the number of the check that
    panicked, or the state after the last one. *)
Fixpoint deadman_run (seconds freemem : Z) (obs : list observation)
    (d : deadman) (k : nat) : nat + deadman :=
  match obs with
  | [] => inr d
  | o :: rest =>
      match pageout_deadman false seconds freemem (pool_of o) d with
      | Panic _ _ => inl (S k)
      | Return d' => deadman_run seconds freemem rest d' (S k)
      end
  end.

(** The deadman by the spec's words: the number of checks in a row, up to
    the latest, at which a push was in flight with [push_count] as it was at
    the check before ([prev] at the first). *)
Fixpoint stuck_streak (prev : Z) (obs : list observation) (streak : nat)
  : nat :=
  match obs with
  | [] => streak
  | o :: rest =>
      if ob_pushing o && (ob_pushcount o =? prev)
      then stuck_streak (ob_pushcount o) rest (S streak)
      else stuck_streak (ob_pushcount o) rest 0
  end.

(** [push_count] at the latest check. *)
Fixpoint last_count (prev : Z) (obs : list observation) : Z :=
  match obs with
  | [] => prev
  | o :: rest => last_count (ob_pushcount o) rest
  end.

(** A push stuck on one request, and a pusher that completes one request
    between any two checks. *)
Definition stuck_checks (c : Z) (k : nat) : list observation :=
  repeat (mkObs true c) k.
Definition busy_checks (c : Z) (k : nat) : list observation :=
  map (fun i => mkObs true (c + Z.of_nat i)) (seq 1 k).

(** ** Scenarios for the pool *)

Definition test_vnode : vnode := mkVnode 7 false false.

(** ** The scheduler *)

(** What [schedpaging] reads of the rest of the kernel at a tick. *)
Record sched_input : Type := mkInput {
  freemem : Z;               (* pgcnt_t *)
  needfree : Z;              (* pgcnt_t *)
  deficit : Z;               (* pgcnt_t *)
  kmem_reapahead : Z;        (* pgcnt_t *)
  kcage_on : bool;
  kcage_freemem : Z;
  kcage_desfree : Z;
  kcage_needfree : Z;
  zone_num_over_cap : Z;     (* uint_t *)
  total_pages : Z;           (* pgcnt_t *)
  kmem_avail : Z;
  hz : Z
}.

(** The sampling state written by scanner 0. *)
Record calibration : Type := mkCalibration {
  pageout_sample_cnt : Z;    (* uint_t *)
  pageout_sample_pages : Z;  (* pgcnt_t *)
  pageout_sample_etime : Z;  (* hrtime_t *)
  pageout_rate : Z;          (* hrrate_t *)
  pageout_new_spread : Z     (* pgcnt_t *)
}.

(** [PAGE_SCAN_STARTUP] *)
Definition PAGE_SCAN_STARTUP (tn : tunables) (cal : calibration) : bool :=
  pageout_sample_cnt cal <? pageout_sample_lim tn.

(** The globals [schedpaging] publishes, and the two time bounds it reads. *)
Record schedstate : Type := mkSched {
  nscan : Z;                 (* pgcnt_t *)
  desscan : Z;               (* pgcnt_t *)
  pageout_nsec : Z;          (* hrtime_t *)
  min_pageout_nsec : Z;      (* hrtime_t *)
  max_pageout_nsec : Z;      (* hrtime_t *)
  zones_over : bool;
  low_mem_scan : Z;          (* uint64_t *)
  zone_cap_scan : Z;         (* uint64_t *)
  po_share : Z               (* ulong_t *)
}.

Inductive sched_event : Type :=
| EvKmemReap
| EvSegPreap
| EvCageoutWakeup
| EvLwpCreate (inst : Z)
| EvProbeWakeLow
| EvProbeWakeZone
| EvWakeScanner              (* WAKE_PAGEOUT_SCANNER() *)
| EvPool (e : pool_event)
| EvMemavailBroadcast
| EvTimeout (ticks : Z).

(** [vavail] as the tick computes it, a [spgcnt_t]. *)
Definition sched_vavail (inp : sched_input) (cal : calibration) (pg : paging)
  : Z :=
  let vavail := s64 (freemem inp - deficit inp) in
  let vavail :=
    if negb (pageout_new_spread cal =? 0) then s64 (vavail - needfree inp)
    else vavail in
  let vavail := if vavail <? 0 then 0 else vavail in
  if u64 vavail >? lotsfree pg then s64 (lotsfree pg) else vavail.

(** [desscan] as the tick first computes it. *)
Definition sched_desscan (inp : sched_input) (cal : calibration) (pg : paging)
    (vavail : Z) : Z :=
  if (needfree inp >? 0) && (pageout_new_spread cal =? 0) then
    fastscan pg / SCHEDPAGING_HZ
  else
    let slowstmp := s64 (slowscan pg * vavail) in
    let faststmp := s64 (fastscan pg * (lotsfree pg - vavail)) in
    let result :=
      s64 (u64 (slowstmp + faststmp) / nz (lotsfree pg) / SCHEDPAGING_HZ) in
    u64 result.

(** [pageout_nsec] as the tick first computes it. *)
Definition sched_nsec (cal : calibration) (pg : paging) (ss : schedstate)
    (vavail : Z) : Z :=
  if pageout_new_spread cal =? 0 then max_pageout_nsec ss
  else
    s64 (min_pageout_nsec ss +
         u64 (u64 (lotsfree pg - vavail) *
              u64 (max_pageout_nsec ss - min_pageout_nsec ss))
         / nz (lotsfree pg)).

(** The scanner pool brought in line with [des_page_scanners]. *)
Definition sched_resize (inp : sched_input) (cal : calibration) (pg : paging)
    (sc : scanners) : outcome (scanners * list sched_event) :=
  if negb (pageout_new_spread cal =? 0) &&
     negb (des_page_scanners sc =? n_page_scanners sc) then
    let curr_nscan := n_page_scanners sc in
    if handspreadpages pg =? 0 then Trap else
    let max := total_pages inp / handspreadpages pg in
    let des := des_page_scanners sc in
    let des := if des >? max then u32 max else des in
    let des :=
      if des >? MAX_PSCAN_THREADS then MAX_PSCAN_THREADS
      else if des =? 0 then 1 else des in
    let hands :=
      fold_left (fun a i => array_set a i true)
        (seq 0 (Z.to_nat MAX_PSCAN_THREADS)) (reset_hands sc) in
    let created :=
      if des >? curr_nscan then
        map (fun k => EvLwpCreate (curr_nscan + Z.of_nat k))
          (seq 0 (Z.to_nat (des - curr_nscan)))
      else [] in
    Done (mkScanners (pscan_region_sz sc) des des hands, created)
  else Done (sc, []).

Definition schedpaging (tn : tunables) (inp : sched_input)
    (cal : calibration) (pg : paging) (pl : pool) (ss : schedstate)
    (sc : scanners)
  : outcome (schedstate * scanners * list sched_event) :=
  let low := u64 (lotsfree pg + needfree inp) in
  let ev1 :=
    if freemem inp <? u64 (low + kmem_reapahead inp) then [EvKmemReap]
    else [] in
  let ev2 := if freemem inp <? low then [EvSegPreap] else [] in
  let ev3 :=
    if kcage_on inp &&
       ((kcage_freemem inp <? kcage_desfree inp) ||
        negb (kcage_needfree inp =? 0))
    then [EvCageoutWakeup] else [] in
  let nscan' := 0 in
  let vavail := sched_vavail inp cal pg in
  let desscan' := sched_desscan inp cal pg vavail in
  let pageout_nsec' := sched_nsec cal pg ss vavail in
  match sched_resize inp cal pg sc with
  | Trap => Trap
  | OutOfFuel => OutOfFuel
  | Done (sc', ev4) =>
      let pre := ev1 ++ ev2 ++ ev3 ++ ev4 in
      let post :=
        (if kmem_avail inp >? 0 then [EvMemavailBroadcast] else []) ++
        [EvTimeout (Z.quot (hz inp) SCHEDPAGING_HZ)] in
      let startup := PAGE_SCAN_STARTUP tn cal in
      if (freemem inp <? low) || startup then
        let low_mem_scan' :=
          if negb startup then u64 (low_mem_scan ss + 1)
          else low_mem_scan ss in
        Done (mkSched nscan' desscan' pageout_nsec' (min_pageout_nsec ss)
                (max_pageout_nsec ss) false low_mem_scan' (zone_cap_scan ss)
                (po_share ss),
              sc', pre ++ [EvProbeWakeLow; EvWakeScanner] ++ post)
      else if zone_num_over_cap inp >? 0 then
        let nsec :=
          if negb (zone_pageout_nsec tn =? 0) then zone_pageout_nsec tn
          else max_pageout_nsec ss in
        Done (mkSched nscan' (total_pages inp) nsec (min_pageout_nsec ss)
                (max_pageout_nsec ss) true (low_mem_scan ss)
                (u64 (zone_cap_scan ss + 1)) (po_share ss),
              sc', pre ++ [EvProbeWakeZone; EvWakeScanner] ++ post)
      else
        let po_share' :=
          if po_share ss >? MIN_PO_SHARE then Z.shiftr (po_share ss) 1
          else po_share ss in
        Done (mkSched nscan' desscan' pageout_nsec' (min_pageout_nsec ss)
                (max_pageout_nsec ss) false (low_mem_scan ss)
                (zone_cap_scan ss) po_share',
              sc', pre ++ map EvPool (cv_signal_pageout pl) ++ post)
  end.

(** The tick takes the branch for zones over their cap. *)
Definition zone_scan (tn : tunables) (inp : sched_input) (cal : calibration)
    (pg : paging) : bool :=
  negb ((freemem inp <? u64 (lotsfree pg + needfree inp)) ||
        PAGE_SCAN_STARTUP tn cal) &&
  (zone_num_over_cap inp >? 0).

(** [vavail] and [desscan] as the spec words them, over the integers. *)
Definition spec_vavail (inp : sched_input) (cal : calibration) (pg : paging)
  : Z :=
  let calibrated := negb (pageout_new_spread cal =? 0) in
  clamp (freemem inp - deficit inp -
         (if calibrated then needfree inp else 0)) 0 (lotsfree pg).

Definition spec_desscan (pg : paging) (vavail : Z) : Z :=
  (slowscan pg * vavail + fastscan pg * (lotsfree pg - vavail))
  / Z.max (lotsfree pg) 1 / 4.

(** Page counts for which the 64-bit arithmetic of the tick is exact. *)
Definition pages_in_range (inp : sched_input) (pg : paging) : bool :=
  (0 <=? freemem inp) && (freemem inp <? 2 ^ 62) &&
  (0 <=? deficit inp) && (deficit inp <? 2 ^ 62) &&
  (0 <=? needfree inp) && (needfree inp <? 2 ^ 62) &&
  (0 <=? lotsfree pg) && (lotsfree pg <? 2 ^ 62) &&
  (0 <=? slowscan pg) && (0 <=? fastscan pg) &&
  (Z.max (slowscan pg) (fastscan pg) * lotsfree pg <? 2 ^ 63).

(** Time bounds for which it is exact. *)
Definition nsec_in_range (pg : paging) (ss : schedstate) : bool :=
  (0 <=? min_pageout_nsec ss) &&
  (min_pageout_nsec ss <=? max_pageout_nsec ss) &&
  (max_pageout_nsec ss <? 2 ^ 63) &&
  (lotsfree pg * (max_pageout_nsec ss - min_pageout_nsec ss) <? 2 ^ 64).

(** ** Scenarios for the scheduler *)

(** The thresholds of the spec's scenario S3. *)
Definition s3_paging : paging :=
  mkPaging 262144 524288 4096 4000 2000 1500 1500 1125 40 200000 5000 500
    5000.

Definition s3_input (freemem_v zones : Z) : sched_input :=
  mkInput freemem_v 0 0 0 false 0 0 0 zones 262144 0 100.

Definition calibrated : calibration := mkCalibration 4 10000000 5000000000
  2000000 200000.

Definition s3_sched : schedstate :=
  mkSched 0 0 0 10000000 200000000 false 0 0 MIN_PO_SHARE.

Definition one_scanner : scanners :=
  mkScanners 262144 1 1 (repeat false (Z.to_nat MAX_PSCAN_THREADS)).

(** A machine of [2^42] pages whose operator patched [lotsfree] to [2^40]
    pages and [fastscan] to [2^30], before the boot call of [setupclock]
    and after it. *)
Definition huge_boot : clockstate :=
  mkClock clockinit0
    (mkPaging 0 0 0 (2 ^ 40) 0 0 0 0 0 0 (2 ^ 30) 0 0) scanners0.

Definition huge_paging : paging :=
  mkPaging (2 ^ 42) 524288 4096 (2 ^ 40) (2 ^ 39) (3 * 2 ^ 37) (3 * 2 ^ 37)
    (9 * 2 ^ 35) 4800 16384 (2 ^ 30) 100 (2 ^ 30).

Definition huge_input (freemem_v : Z) : sched_input :=
  mkInput freemem_v 0 0 0 false 0 0 0 0 (2 ^ 42) 0 100.

(** ** The per-page decider *)

Inductive pageout_hand_t : Type := POH_FRONT | POH_BACK.

Inductive checkpage_result_t : Type :=
| CKP_INELIGIBLE
| CKP_NOT_FREED
| CKP_FREED.

Inductive syncflag : Type :=
| HAT_SYNC_ZERORM
| HAT_SYNC_DONTZERO
| HAT_SYNC_STOPON_REF
| HAT_SYNC_STOPON_SHARED.

Inductive zpo_stat : Type := ZPO_DIRTY | ZPO_FS | ZPO_ANON | ZPO_ANONDIRTY.
Inductive vm_stat : Type := dfree | execfree | fsfree | anonfree.

(** The page layer, the HAT layer and the zone data as [checkpage] uses
    them.  A value of [page] is the page at hand together with whatever else
    of the machine the answers depend on; the calls that can change an
    answer return the new value. *)
Class Host (page : Type) : Type := {
  P_REF : Z;
  P_MOD : Z;
  ALL_ZONES : Z;
  PP_ISKAS : page -> bool;
  PAGE_LOCKED : page -> bool;
  PP_ISFREE : page -> bool;
  p_lckcnt : page -> Z;
  p_cowcnt : page -> Z;
  p_szc : page -> Z;
  p_zoneid : page -> Z;
  p_vnode : page -> option vnode;
  p_offset : page -> Z;
  zpers_over : page -> Z -> Z;           (* zone_pdata[zid].zpers_over *)
  hat_page_checkshare : page -> Z -> bool;
  page_trylock : page -> bool * page;    (* page_trylock(pp, SE_EXCL) *)
  page_unlock : page -> page;
  hat_pagesync : page -> list syncflag -> Z * page;
  hat_clrref : page -> page;
  page_try_demote_pages : page -> bool * page;
  hat_page_getattr : page -> Z -> Z;
  hat_pageunload : page -> page;         (* HAT_FORCE_PGUNLOAD *)
  VN_DISPOSE : page -> page              (* B_FREE, kcred *)
}.

(** The calls [checkpage] makes, in order, with what they returned. *)
Inductive ckp_event : Type :=
| CkTrylock (ok : bool)
| CkUnlock
| CkPagesync (flags : list syncflag) (attrs : Z)
| CkProbeIsref (hand : pageout_hand_t)
| CkClrref
| CkDemote (ok : bool)
| CkGetattr (attrs : Z)
| CkVnHold (vp : vnode)
| CkVnRele (vp : vnode)
| CkQueue (vp : vnode) (off : Z) (rv : Z)
| CkPool (e : pool_event)
| CkProbeFree (hand : pageout_hand_t)
| CkPageunload
| CkDispose
| CkCpuStat (s : vm_stat)
| CkZoneStat (zid : Z) (s : zpo_stat).

Definition has_attr (ppattr bit : Z) : bool := negb (Z.land ppattr bit =? 0).

Section Checkpage.

Context {page : Type} {host : Host page}.
Variable PAGESHIFT : Z.

Definition ckp_return : Type :=
  (checkpage_result_t * page * pool * list ckp_event)%type.

(** From the test for a dirty page to the end of the function; [recheck]
    stands for the jump back to the label of that name. *)
Definition checkpage_dirty_or_free
    (recheck : Z -> page -> pool -> list ckp_event -> outcome ckp_return)
    (whichhand : pageout_hand_t) (isfs isexec : bool) (zid ppattr : Z)
    (pp : page) (pl : pool) (tr : list ckp_event) : outcome ckp_return :=
  match has_attr ppattr P_MOD, p_vnode pp with
  | true, Some vp =>
      let offset := p_offset pp in
      let pp := page_unlock pp in
      let '(rv, pl, evs) := queue_io_request PAGESHIFT vp offset pl in
      let tr :=
        tr ++ [CkVnHold vp; CkUnlock; CkQueue vp offset rv]
           ++ map CkPool evs in
      if rv =? 0 then Done (CKP_NOT_FREED, pp, pl, tr ++ [CkVnRele vp])
      else
        Done (CKP_FREED, pp, pl,
              tr ++ [CkZoneStat zid
                       (if isfs then ZPO_DIRTY else ZPO_ANONDIRTY)])
  | _, _ =>
      let pp := hat_pageunload pp in
      let ppattr := hat_page_getattr pp (Z.lor P_MOD P_REF) in
      let tr :=
        tr ++ [CkProbeFree whichhand; CkPageunload; CkGetattr ppattr] in
      if has_attr ppattr P_REF ||
         (has_attr ppattr P_MOD && is_some (p_vnode pp)) then
        recheck ppattr pp pl tr
      else
        Done (CKP_FREED, VN_DISPOSE pp, pl,
              tr ++ [CkDispose; CkCpuStat dfree] ++
              (if isfs then
                 [CkCpuStat (if isexec then execfree else fsfree);
                  CkZoneStat zid ZPO_FS]
               else [CkCpuStat anonfree; CkZoneStat zid ZPO_ANON]))
  end.

(** From the label [recheck] to the end of the function; one unit of
    [fuel] for every arrival at the label. *)
Fixpoint checkpage_recheck (fuel : nat) (whichhand : pageout_hand_t)
    (isfs isexec : bool) (zid ppattr : Z) (pp : page) (pl : pool)
    (tr : list ckp_event) : outcome ckp_return :=
  match fuel with
  | O => OutOfFuel
  | S fuel' =>
      if has_attr ppattr P_REF then
        let tr := tr ++ [CkProbeIsref whichhand] in
        match whichhand with
        | POH_FRONT =>
            Done (CKP_NOT_FREED, page_unlock (hat_clrref pp), pl,
                  tr ++ [CkClrref; CkUnlock])
        | POH_BACK =>
            Done (CKP_NOT_FREED, page_unlock pp, pl, tr ++ [CkUnlock])
        end
      else
        let recheck := checkpage_recheck fuel' whichhand isfs isexec zid in
        if negb (p_szc pp =? 0) then
          let '(ok, pp) := page_try_demote_pages pp in
          if negb ok then
            Done (CKP_INELIGIBLE, page_unlock pp, pl,
                  tr ++ [CkDemote false; CkUnlock])
          else
            let ppattr := hat_page_getattr pp (Z.lor P_MOD P_REF) in
            checkpage_dirty_or_free recheck whichhand isfs isexec zid ppattr
              pp pl (tr ++ [CkDemote true; CkGetattr ppattr])
        else
          checkpage_dirty_or_free recheck whichhand isfs isexec zid ppattr
            pp pl tr
  end.

Definition checkpage (fuel : nat) (zones_over : bool) (po_share : Z)
    (pp : page) (whichhand : pageout_hand_t) (pl : pool)
  : outcome ckp_return :=
  if PP_ISKAS pp || PAGE_LOCKED pp || PP_ISFREE pp ||
     negb (p_lckcnt pp =? 0) || negb (p_cowcnt pp =? 0) ||
     hat_page_checkshare pp po_share then
    Done (CKP_INELIGIBLE, pp, pl, [])
  else
    let '(ok, pp) := page_trylock pp in
    if negb ok then Done (CKP_INELIGIBLE, pp, pl, [CkTrylock false])
    else if PP_ISFREE pp then
      Done (CKP_INELIGIBLE, page_unlock pp, pl, [CkTrylock true; CkUnlock])
    else if negb (p_lckcnt pp =? 0) || negb (p_cowcnt pp =? 0) then
      Done (CKP_INELIGIBLE, page_unlock pp, pl, [CkTrylock true; CkUnlock])
    else if zones_over &&
            ((p_zoneid pp =? ALL_ZONES) ||
             (zpers_over pp (p_zoneid pp) =? 0)) then
      Done (CKP_INELIGIBLE, page_unlock pp, pl, [CkTrylock true; CkUnlock])
    else
      let zid := if zones_over then p_zoneid pp else ALL_ZONES in
      let isexec :=
        match p_vnode pp with Some vp => v_vvmexec vp | None => false end in
      let isfs :=
        match p_vnode pp with
        | Some vp => negb (v_swapfs vp)
        | None => false
        end in
      let pagesync_flag :=
        match whichhand with
        | POH_FRONT => [HAT_SYNC_ZERORM]
        | POH_BACK =>
            [HAT_SYNC_DONTZERO; HAT_SYNC_STOPON_REF; HAT_SYNC_STOPON_SHARED]
        end in
      let '(ppattr, pp) := hat_pagesync pp pagesync_flag in
      checkpage_recheck fuel whichhand isfs isexec zid ppattr pp pl
        [CkTrylock true; CkPagesync pagesync_flag ppattr].

(** What the code relies on while it holds the page: a demotion that
    succeeds leaves a small page (the code asserts it), and unloading the
    mappings does not make the page large. *)
Definition szc_stable : Prop :=
  (forall pp pp', page_try_demote_pages pp = (true, pp') -> p_szc pp' = 0) /\
  (forall pp, p_szc pp = 0 -> p_szc (hat_pageunload pp) = 0).

End Checkpage.

(** How often an event occurs in a trace. *)
Definition is_unlock (e : ckp_event) : bool :=
  match e with CkUnlock => true | _ => false end.
Definition is_dispose (e : ckp_event) : bool :=
  match e with CkDispose => true | _ => false end.
Definition is_clrref (e : ckp_event) : bool :=
  match e with CkClrref => true | _ => false end.
Definition is_hold (e : ckp_event) : bool :=
  match e with CkVnHold _ => true | _ => false end.
Definition is_rele (e : ckp_event) : bool :=
  match e with CkVnRele _ => true | _ => false end.
Definition is_locked_ok (e : ckp_event) : bool :=
  match e with CkTrylock true => true | _ => false end.

Definition count (f : ckp_event -> bool) (tr : list ckp_event) : nat :=
  length (filter f tr).

(** The lock balance of a trace: locks taken and not yet given back, either
    by [page_unlock] or by [VN_DISPOSE]. *)
Definition locks_held (tr : list ckp_event) : Z :=
  Z.of_nat (count is_locked_ok tr)
  - Z.of_nat (count is_unlock tr) - Z.of_nat (count is_dispose tr).

(** The calls between the label [recheck] and the end that neither give
    the lock back nor touch a vnode. *)
Definition neutral (e : ckp_event) : bool :=
  match e with
  | CkDemote true | CkGetattr _ | CkProbeFree _ | CkPageunload => true
  | _ => false
  end.

Definition is_stat (e : ckp_event) : bool :=
  match e with CkCpuStat _ | CkZoneStat _ _ => true | _ => false end.

(** The ways [checkpage] ends once it holds the page and has its
    attributes: the result, the pool it leaves and the last calls.  [pl] is
    the pool it found. *)
Inductive ckp_ending (PAGESHIFT : Z) (hand : pageout_hand_t) (pl : pool)
  : checkpage_result_t -> pool -> list ckp_event -> Prop :=
| end_ref_front :
    hand = POH_FRONT ->
    ckp_ending PAGESHIFT hand pl CKP_NOT_FREED pl
      [CkProbeIsref hand; CkClrref; CkUnlock]
| end_ref_back :
    hand = POH_BACK ->
    ckp_ending PAGESHIFT hand pl CKP_NOT_FREED pl
      [CkProbeIsref hand; CkUnlock]
| end_demote_failed :
    ckp_ending PAGESHIFT hand pl CKP_INELIGIBLE pl [CkDemote false; CkUnlock]
| end_queue_full (vp : vnode) (off : Z) :
    queue_io_request PAGESHIFT vp off pl = (0, pl, []) ->
    ckp_ending PAGESHIFT hand pl CKP_NOT_FREED pl
      [CkVnHold vp; CkUnlock; CkQueue vp off 0; CkVnRele vp]
| end_queued (vp : vnode) (off : Z) (pl' : pool) (evs : list pool_event)
    (zid : Z) (s : zpo_stat) :
    queue_io_request PAGESHIFT vp off pl = (1, pl', evs) ->
    ckp_ending PAGESHIFT hand pl CKP_FREED pl'
      ([CkVnHold vp; CkUnlock; CkQueue vp off 1] ++ map CkPool evs ++
       [CkZoneStat zid s])
| end_freed (stats : list ckp_event) :
    forallb is_stat stats = true ->
    ckp_ending PAGESHIFT hand pl CKP_FREED pl (CkDispose :: stats).

(** A trace that continues [tr0] with neutral calls and one of the
    endings. *)
Definition continues (PAGESHIFT : Z) (hand : pageout_hand_t) (pl : pool)
    (tr0 : list ckp_event) (r : checkpage_result_t) (pl' : pool)
    (tr : list ckp_event) : Prop :=
  exists mid fin,
    tr = tr0 ++ mid ++ fin /\ forallb neutral mid = true /\
    ckp_ending PAGESHIFT hand pl r pl' fin.

(** ** A page for testing: a record of the fields, the reference and
    modify bits as the page structure holds them ([p_nrm]), and the bits the
    hardware will report at the next unloads of its mappings.  The sync
    returns the bits of the page structure. *)
Record test_page : Type := mkTestPage {
  tp_kas : bool;
  tp_free : bool;
  tp_selock : bool;
  tp_lckcnt : Z;
  tp_cowcnt : Z;
  tp_share : Z;
  tp_szc : Z;
  tp_demotable : bool;
  tp_zoneid : Z;
  tp_zone_over : bool;
  tp_vnode : option vnode;
  tp_offset : Z;
  tp_nrm : Z;
  tp_hw : list Z
}.

Definition tp_set_lock (b : bool) (p : test_page) : test_page :=
  mkTestPage (tp_kas p) (tp_free p) b (tp_lckcnt p) (tp_cowcnt p)
    (tp_share p) (tp_szc p) (tp_demotable p) (tp_zoneid p) (tp_zone_over p)
    (tp_vnode p) (tp_offset p) (tp_nrm p) (tp_hw p).

Definition tp_set_nrm (a : Z) (p : test_page) : test_page :=
  mkTestPage (tp_kas p) (tp_free p) (tp_selock p) (tp_lckcnt p) (tp_cowcnt p)
    (tp_share p) (tp_szc p) (tp_demotable p) (tp_zoneid p) (tp_zone_over p)
    (tp_vnode p) (tp_offset p) a (tp_hw p).

(** The mappings go away and the hardware bits are folded into the page. *)
Definition tp_unload (szc : Z) (p : test_page) : test_page :=
  match tp_hw p with
  | [] =>
      mkTestPage (tp_kas p) (tp_free p) (tp_selock p) (tp_lckcnt p)
        (tp_cowcnt p) (tp_share p) szc (tp_demotable p) (tp_zoneid p)
        (tp_zone_over p) (tp_vnode p) (tp_offset p) (tp_nrm p) []
  | bits :: hw =>
      mkTestPage (tp_kas p) (tp_free p) (tp_selock p) (tp_lckcnt p)
        (tp_cowcnt p) (tp_share p) szc (tp_demotable p) (tp_zoneid p)
        (tp_zone_over p) (tp_vnode p) (tp_offset p)
        (Z.lor (tp_nrm p) bits) hw
  end.

Definition tp_dispose (p : test_page) : test_page :=
  mkTestPage (tp_kas p) true false (tp_lckcnt p) (tp_cowcnt p)
    (tp_share p) (tp_szc p) (tp_demotable p) (tp_zoneid p) (tp_zone_over p)
    None (tp_offset p) (tp_nrm p) (tp_hw p).

#[export] Instance test_host : Host test_page := {
  P_REF := 2;
  P_MOD := 1;
  ALL_ZONES := -1;
  PP_ISKAS := tp_kas;
  PAGE_LOCKED := tp_selock;
  PP_ISFREE := tp_free;
  p_lckcnt := tp_lckcnt;
  p_cowcnt := tp_cowcnt;
  p_szc := tp_szc;
  p_zoneid := tp_zoneid;
  p_vnode := tp_vnode;
  p_offset := tp_offset;
  zpers_over := fun p _ => if tp_zone_over p then 1 else 0;
  hat_page_checkshare := fun p sh => tp_share p >? sh;
  page_trylock := fun p =>
    if tp_selock p then (false, p) else (true, tp_set_lock true p);
  page_unlock := tp_set_lock false;
  hat_pagesync := fun p _ => (tp_nrm p, p);
  hat_clrref := fun p => tp_set_nrm (Z.land (tp_nrm p) 1) p;
  page_try_demote_pages := fun p =>
    if tp_demotable p then (true, tp_unload 0 p) else (false, p);
  hat_page_getattr := fun p mask => Z.land (tp_nrm p) mask;
  hat_pageunload := fun p => tp_unload (tp_szc p) p;
  VN_DISPOSE := tp_dispose
}.

(** An anonymous test page: unlocked, mapped once, small, clean. *)
Definition plain_page : test_page :=
  mkTestPage false false false 0 0 1 0 true 0 false None 0 0 [].

Definition with_vnode (vp : vnode) (off : Z) (p : test_page) : test_page :=
  mkTestPage (tp_kas p) (tp_free p) (tp_selock p) (tp_lckcnt p) (tp_cowcnt p)
    (tp_share p) (tp_szc p) (tp_demotable p) (tp_zoneid p) (tp_zone_over p)
    (Some vp) off (tp_nrm p) (tp_hw p).

Definition with_bits (nrm : Z) (hw : list Z) (p : test_page) : test_page :=
  mkTestPage (tp_kas p) (tp_free p) (tp_selock p) (tp_lckcnt p) (tp_cowcnt p)
    (tp_share p) (tp_szc p) (tp_demotable p) (tp_zoneid p) (tp_zone_over p)
    (tp_vnode p) (tp_offset p) nrm hw.

Definition with_szc (szc : Z) (p : test_page) : test_page :=
  mkTestPage (tp_kas p) (tp_free p) (tp_selock p) (tp_lckcnt p) (tp_cowcnt p)
    (tp_share p) szc (tp_demotable p) (tp_zoneid p) (tp_zone_over p)
    (tp_vnode p) (tp_offset p) (tp_nrm p) (tp_hw p).

(** ** Scenarios for the decider *)

(** A large dirty page of a file: no bit set when the hands look at it; the
    demotion unloads its mappings and brings in the reference and the
    modify bit. *)
Definition large_dirty_page : test_page :=
  with_szc 1 (with_bits 0 [3] (with_vnode test_vnode 4096 plain_page)).

(** A small dirty page of a file. *)
Definition dirty_page : test_page :=
  with_bits 1 [] (with_vnode test_vnode 4096 plain_page).

(** A page that was referenced. *)
Definition referenced_page : test_page := with_bits 2 [] plain_page.


(** ** Further vocabulary for the calculator, the scheduler and the pool *)

(** The operator left the seven memory thresholds alone. *)
Definition thresholds_unset (ci : clockinit_t) : bool :=
  (ci_lotsfree_min ci =? 0) && (ci_lotsfree_max ci =? 0) &&
  (ci_lotsfree ci =? 0) && (ci_desfree ci =? 0) && (ci_minfree ci =? 0) &&
  (ci_throttlefree ci =? 0) && (ci_pageout_reserve ci =? 0).

(** The operator left the scan rates and the hand spread alone. *)
Definition rates_unset (ci : clockinit_t) : bool :=
  (ci_maxfastscan ci =? 0) && (ci_fastscan ci =? 0) &&
  (ci_handspreadpages ci =? 0).

(** The same tick with another amount of free memory. *)
Definition with_freemem (f : Z) (inp : sched_input) : sched_input :=
  mkInput f (needfree inp) (deficit inp) (kmem_reapahead inp) (kcage_on inp)
    (kcage_freemem inp) (kcage_desfree inp) (kcage_needfree inp)
    (zone_num_over_cap inp) (total_pages inp) (kmem_avail inp) (hz inp).

(** The scanner instances a tick started, in order. *)
Definition lwp_created (ev : list sched_event) : list Z :=
  flat_map (fun e => match e with EvLwpCreate i => [i] | _ => [] end) ev.

Definition is_wake (e : sched_event) : bool :=
  match e with EvWakeScanner => true | _ => false end.
Definition is_push_signal (e : sched_event) : bool :=
  match e with EvPool EvSignalPush => true | _ => false end.

(** The tick finds memory short: [freemem < lotsfree + needfree]. *)
Definition memory_low (inp : sched_input) (pg : paging) : bool :=
  freemem inp <? u64 (lotsfree pg + needfree inp).

(** The tick has to resize the scanner pool. *)
Definition resize_due (cal : calibration) (sc : scanners) : bool :=
  negb (pageout_new_spread cal =? 0) &&
  negb (des_page_scanners sc =? n_page_scanners sc).

(** The values [po_share] takes when it starts at [MIN_PO_SHARE]: that
    value doubled up to 24 times. *)
Definition po_share_ladder (x : Z) : Prop :=
  exists k, 0 <= k <= 24 /\ x = MIN_PO_SHARE * 2 ^ k.

(** [max_pushes] as [pageout] sets it before its loop. *)
Definition pageout_max_pushes (pg : paging) : Z :=
  maxpgio pg / SCHEDPAGING_HZ.

(** A step of the pool in which the pageout thread gives a request back. *)
Definition completes (s s' : pusher) : nat :=
  if is_some (pu_arg s) && negb (is_some (pu_arg s')) then 1%nat else 0%nat.

(** Steps of the pool one after the other, with the number of requests
    given back on the way. *)
Inductive pool_run (PAGESHIFT max_pushes : Z) : pusher -> nat -> pusher -> Prop :=
| run_stay (s : pusher) : pool_run PAGESHIFT max_pushes s 0 s
| run_step (s s' s'' : pusher) (k : nat) :
    pool_run PAGESHIFT max_pushes s k s' ->
    pool_step PAGESHIFT max_pushes s' s'' ->
    pool_run PAGESHIFT max_pushes s (k + completes s' s'') s''.


(** ** Further vocabulary for the decider *)

Definition is_unload (e : ckp_event) : bool :=
  match e with CkPageunload => true | _ => false end.
Definition is_demote (e : ckp_event) : bool :=
  match e with CkDemote _ => true | _ => false end.
Definition is_sync (e : ckp_event) : bool :=
  match e with CkPagesync _ _ => true | _ => false end.
Definition is_queue (e : ckp_event) : bool :=
  match e with CkQueue _ _ _ => true | _ => false end.
Definition is_queued (e : ckp_event) : bool :=
  match e with CkQueue _ _ rv => negb (rv =? 0) | _ => false end.

(** The flags each hand gives to [hat_pagesync]. *)
Definition sync_flags (hand : pageout_hand_t) : list syncflag :=
  match hand with
  | POH_FRONT => [HAT_SYNC_ZERORM]
  | POH_BACK =>
      [HAT_SYNC_DONTZERO; HAT_SYNC_STOPON_REF; HAT_SYNC_STOPON_SHARED]
  end.

Section Candidate.

Context {page : Type} {host : Host page}.

(** The tests [checkpage] makes before it takes the lock. *)
Definition skipped_unlocked (po_share : Z) (pp : page) : bool :=
  PP_ISKAS pp || PAGE_LOCKED pp || PP_ISFREE pp ||
  negb (p_lckcnt pp =? 0) || negb (p_cowcnt pp =? 0) ||
  hat_page_checkshare pp po_share.

(** The tests it makes again, or only, once it holds the lock. *)
Definition skipped_locked (zones_over : bool) (pp : page) : bool :=
  PP_ISFREE pp || negb (p_lckcnt pp =? 0) || negb (p_cowcnt pp =? 0) ||
  (zones_over &&
   ((p_zoneid pp =? ALL_ZONES) || (zpers_over pp (p_zoneid pp) =? 0))).

End Candidate.

(** ** The scanner *)

Definition PAGES_POLL_MASK : Z := 1023.

(** The page array, the clock and the free-memory counters as
    [pageout_scanner] uses them.  A hand is a [pref], a [struct page *];
    [page_at] is the machine as [checkpage] sees it from a page and
    [put_page] the machine after the call.  [gethrtime] gives the time and
    the machine after the reading; [freemem] and [needfree] are read from
    the machine each time the code reads them. *)
Class Memory (world pref page : Type) : Type := {
  page_first : pref;
  page_next : pref -> pref;
  page_nextn : pref -> Z -> pref;
  same_page : pref -> pref -> bool;      (* fronthand == page_first() *)
  page_at : world -> pref -> page;
  put_page : world -> pref -> page -> world;
  gethrtime : world -> Z * world;
  cur_freemem : world -> Z;
  cur_needfree : world -> Z
}.

(** The globals of this file that a scanner reads or writes. *)
Record kernel : Type := mkKernel {
  k_clock : clockstate;
  k_cal : calibration;
  k_sched : schedstate;
  k_pool : pool;
  pageout_timeouts : Z                   (* uint64_t *)
}.

Definition set_clock (st : clockstate) (k : kernel) : kernel :=
  mkKernel st (k_cal k) (k_sched k) (k_pool k) (pageout_timeouts k).
Definition set_cal (cal : calibration) (k : kernel) : kernel :=
  mkKernel (k_clock k) cal (k_sched k) (k_pool k) (pageout_timeouts k).
Definition set_sched (ss : schedstate) (k : kernel) : kernel :=
  mkKernel (k_clock k) (k_cal k) ss (k_pool k) (pageout_timeouts k).
Definition set_pool (pl : pool) (k : kernel) : kernel :=
  mkKernel (k_clock k) (k_cal k) (k_sched k) pl (pageout_timeouts k).
Definition set_timeouts (n : Z) (k : kernel) : kernel :=
  mkKernel (k_clock k) (k_cal k) (k_sched k) (k_pool k) n.

Definition set_po_share (x : Z) (ss : schedstate) : schedstate :=
  mkSched (nscan ss) (desscan ss) (pageout_nsec ss) (min_pageout_nsec ss)
    (max_pageout_nsec ss) (zones_over ss) (low_mem_scan ss)
    (zone_cap_scan ss) x.
Definition set_nscan (x : Z) (ss : schedstate) : schedstate :=
  mkSched x (desscan ss) (pageout_nsec ss) (min_pageout_nsec ss)
    (max_pageout_nsec ss) (zones_over ss) (low_mem_scan ss)
    (zone_cap_scan ss) (po_share ss).

(** [reset_hands[inst] = b] *)
Definition set_reset_hand (inst : Z) (b : bool) (st : clockstate)
  : clockstate :=
  mkClock (cs_init st) (cs_paging st)
    (mkScanners (pscan_region_sz (cs_scan st))
       (des_page_scanners (cs_scan st)) (n_page_scanners (cs_scan st))
       (array_set (reset_hands (cs_scan st)) (Z.to_nat inst) b)).

(** The locals of a scanner thread that live from one wake-up to the
    next. *)
Record hands (pref : Type) : Type := mkHands {
  fronthand : pref;
  backhand : pref;
  iter : Z                               (* uint_t *)
}.
Arguments mkHands {pref} _ _ _.
Arguments fronthand {pref} _.
Arguments backhand {pref} _.
Arguments iter {pref} _.

(** What a scanner does that others can see: the calls of [checkpage]
    with their result and their trace, and the ways out of the loop. *)
Inductive scan_event (pref : Type) : Type :=
| ScCheck (pp : pref) (hand : pageout_hand_t) (rv : checkpage_result_t)
    (tr : list ckp_event)
| ScBudget                               (* pageout__timeout *)
| ScWrap                                 (* pageout__wrap__front *)
| ScGiveUp
| ScPool (e : pool_event).
Arguments ScCheck {pref} _ _ _ _.
Arguments ScBudget {pref}.
Arguments ScWrap {pref}.
Arguments ScGiveUp {pref}.
Arguments ScPool {pref} _.

(** The variables of the scan loop. *)
Record scan_vars (world pref : Type) : Type := mkVars {
  sv_hands : hands pref;
  sv_count : Z;                          (* uint_t count *)
  sv_pcount : Z;                         (* pgcnt_t *)
  sv_nscan_cnt : Z;                      (* pgcnt_t *)
  sv_kernel : kernel;
  sv_world : world;
  sv_trace : list (scan_event pref)
}.
Arguments mkVars {world pref} _ _ _ _ _ _ _.
Arguments sv_hands {world pref} _.
Arguments sv_count {world pref} _.
Arguments sv_pcount {world pref} _.
Arguments sv_nscan_cnt {world pref} _.
Arguments sv_kernel {world pref} _.
Arguments sv_world {world pref} _.
Arguments sv_trace {world pref} _.

Inductive loop_ctl (A : Type) : Type :=
| Continue (a : A)
| Break (a : A).
Arguments Continue {A} a.
Arguments Break {A} a.

(** How a wake-up of a scanner ends: back at the wait, with the thread
    gone, or in a [VERIFY] that failed. *)
Inductive scan_end (A : Type) : Type :=
| Rescan (a : A)
| LwpExit (a : A)
| VerifyFailed.
Arguments Rescan {A} a.
Arguments LwpExit {A} a.
Arguments VerifyFailed {A}.

Definition is_freed (r : checkpage_result_t) : bool :=
  match r with CKP_FREED => true | _ => false end.
Definition is_ineligible (r : checkpage_result_t) : bool :=
  match r with CKP_INELIGIBLE => true | _ => false end.

Section Scanner.

Context {world pref page : Type} {host : Host page}
  {mem : Memory world pref page}.
Variable PAGESHIFT : Z.
Variable DISKRPM : Z.

(** [freemem < lotsfree + needfree], as the scanner reads it. *)
Definition memory_short (k : kernel) (w : world) : bool :=
  cur_freemem w <? u64 (lotsfree (cs_paging (k_clock k)) + cur_needfree w).

(** The condition of the scan loop. *)
Definition scan_wanted (tn : tunables) (nscan_limit : Z)
    (v : scan_vars world pref) : bool :=
  (sv_nscan_cnt v <? nscan_limit) &&
  (zones_over (k_sched (sv_kernel v)) ||
   memory_short (sv_kernel v) (sv_world v) ||
   PAGE_SCAN_STARTUP tn (k_cal (sv_kernel v))).

(** The body of the scan loop: the check of the time budget, the two
    calls of [checkpage], the step of the hands and what is done when the
    front hand is back at the first page.  The remainder by
    [pageout_reset_cnt] traps when that tunable is zero. *)
Definition scan_body (ckfuel : nat) (pageout_reset_cnt inst sample_start : Z)
    (v : scan_vars world pref) : outcome (loop_ctl (scan_vars world pref)) :=
  let k := sv_kernel v in
  let ss := k_sched k in
  let '(over, w) :=
    if Z.land (sv_pcount v) PAGES_POLL_MASK =? PAGES_POLL_MASK then
      let '(now, w) := gethrtime (sv_world v) in
      (s64 (now - sample_start) >=? pageout_nsec ss, w)
    else (false, sv_world v) in
  if over then
    let k :=
      if zones_over ss then k
      else set_timeouts (u64 (pageout_timeouts k + 1)) k in
    Done (Break (mkVars (sv_hands v) (sv_count v) (sv_pcount v)
                   (sv_nscan_cnt v) k w (sv_trace v ++ [ScBudget])))
  else
    let fh := fronthand (sv_hands v) in
    let bh := backhand (sv_hands v) in
    match checkpage PAGESHIFT ckfuel (zones_over ss) (po_share ss)
            (page_at w fh) POH_FRONT (k_pool k) with
    | Done (rvfront, pp, pl, tr1) =>
        let w := put_page w fh pp in
        let count := if is_freed rvfront then 0 else sv_count v in
        match checkpage PAGESHIFT ckfuel (zones_over ss) (po_share ss)
                (page_at w bh) POH_BACK pl with
        | Done (rvback, pp, pl, tr2) =>
            let w := put_page w bh pp in
            let count := if is_freed rvback then 0 else count in
            let pcount := u64 (sv_pcount v + 1) in
            let nscan_cnt :=
              if negb (is_ineligible rvfront) || negb (is_ineligible rvback)
              then u64 (sv_nscan_cnt v + 1) else sv_nscan_cnt v in
            let trace :=
              sv_trace v ++ [ScCheck fh POH_FRONT rvfront tr1;
                             ScCheck bh POH_BACK rvback tr2] in
            let k := set_pool pl k in
            let bh := page_next bh in
            let fh := page_next fh in
            if same_page fh page_first then
              let iter := u32 (iter (sv_hands v) + 1) in
              if pageout_reset_cnt =? 0 then Trap else
              let k :=
                if iter mod pageout_reset_cnt =? 0
                then set_clock (set_reset_hand inst true (k_clock k)) k
                else k in
              let trace := trace ++ [ScWrap] in
              if memory_short k w then
                let count := u32 (count + 1) in
                if count >? 1 then
                  if po_share (k_sched k) <? MAX_PO_SHARE then
                    let k :=
                      set_sched
                        (set_po_share
                           (u64 (Z.shiftl (po_share (k_sched k)) 1))
                           (k_sched k)) k in
                    Done (Continue (mkVars (mkHands fh bh iter) count pcount
                                      nscan_cnt k w trace))
                  else
                    Done (Break (mkVars (mkHands fh bh iter) count pcount
                                   nscan_cnt k w (trace ++ [ScGiveUp])))
                else
                  Done (Continue (mkVars (mkHands fh bh iter) count pcount
                                    nscan_cnt k w trace))
              else
                Done (Continue (mkVars (mkHands fh bh iter) count pcount
                                  nscan_cnt k w trace))
            else
              Done (Continue (mkVars (mkHands fh bh (iter (sv_hands v)))
                                count pcount nscan_cnt k w trace))
        | Trap => Trap
        | OutOfFuel => OutOfFuel
        end
    | Trap => Trap
    | OutOfFuel => OutOfFuel
    end.

(** The scan loop; one unit of [fuel] for every round. *)
Fixpoint scan_pages (fuel ckfuel : nat) (tn : tunables)
    (pageout_reset_cnt inst nscan_limit sample_start : Z)
    (v : scan_vars world pref) : outcome (scan_vars world pref) :=
  if scan_wanted tn nscan_limit v then
    match fuel with
    | O => OutOfFuel
    | S fuel' =>
        match scan_body ckfuel pageout_reset_cnt inst sample_start v with
        | Done (Continue v') =>
            scan_pages fuel' ckfuel tn pageout_reset_cnt inst nscan_limit
              sample_start v'
        | Done (Break v') => Done v'
        | Trap => Trap
        | OutOfFuel => OutOfFuel
        end
    end
  else Done v.

(** The start of a wake-up: when the reset flag of the instance is set,
    the flag is cleared and the thread exits if it is no longer wanted, or
    puts its hands at its place on the clock face.  The division by
    [n_page_scanners] traps when that is zero. *)
Definition scanner_reset (total_pages inst : Z) (h : hands pref) (k : kernel)
  : outcome (scan_end (hands pref * kernel)) :=
  let sc := cs_scan (k_clock k) in
  if nth (Z.to_nat inst) (reset_hands sc) false then
    if n_page_scanners sc =? 0 then Trap else
    let offset := total_pages / n_page_scanners sc in
    let k := set_clock (set_reset_hand inst false (k_clock k)) k in
    if inst >=? n_page_scanners sc then
      if inst =? 0 then Done VerifyFailed else Done (LwpExit (h, k))
    else
      let first := page_first in
      let bh := page_nextn first (u64 (offset * inst)) in
      let hsp := handspreadpages (cs_paging (k_clock k)) in
      let fh :=
        if hsp >=? total_pages then page_nextn bh (u64 (total_pages - 1))
        else page_nextn bh hsp in
      Done (Rescan (mkHands fh bh (iter h), k))
  else Done (Rescan (h, k)).

(** The sampling at the end of a wake-up; [None] when a [VERIFY] fails.
    The product of the pages by [NANOSEC] and the quotient are signed
    64-bit; the division traps when no time was measured. *)
Definition scanner_sample (tn : tunables) (total_pages inst : Z)
    (clkfuel : nat) (pcount elapsed : Z) (k : kernel)
  : outcome (option kernel) :=
  let cal := k_cal k in
  if PAGE_SCAN_STARTUP tn cal then
    if negb (inst =? 0) then Done None else
    Done (Some
            (set_cal
               (mkCalibration (u32 (pageout_sample_cnt cal + 1))
                  (u64 (pageout_sample_pages cal + pcount))
                  (s64 (pageout_sample_etime cal + elapsed))
                  (pageout_rate cal) (pageout_new_spread cal)) k))
  else if pageout_new_spread cal =? 0 then
    if negb (inst =? 0) then Done None else
    if pageout_sample_etime cal =? 0 then Trap else
    let rate :=
      s64 (Z.quot (s64 (s64 (pageout_sample_pages cal) * NANOSEC))
             (pageout_sample_etime cal)) in
    let spread := u64 (Z.quot rate 10) in
    match setupclock PAGESHIFT DISKRPM tn total_pages spread clkfuel
            (k_clock k) with
    | Done st =>
        Done (Some
                (set_clock st
                   (set_cal
                      (mkCalibration (pageout_sample_cnt cal)
                         (pageout_sample_pages cal)
                         (pageout_sample_etime cal) rate spread) k)))
    | Trap => Trap
    | OutOfFuel => OutOfFuel
    end
  else Done (Some k).

(** One wake-up of the scanner instance [inst], from the return of
    [cv_wait] to the next wait: the reset of the hands, the scan loop, the
    account of the pages scanned, the sampling, and the signal to the
    pageout thread that opens the next round.  The statistics and the
    probes are left out. *)
Definition pageout_scanner_cycle (tn : tunables)
    (dopageout pageout_reset_cnt total_pages inst : Z)
    (fuel ckfuel clkfuel : nat) (h : hands pref) (k : kernel) (w : world)
  : outcome (scan_end (hands pref * kernel * world * list (scan_event pref)))
  :=
  if dopageout =? 0 then
    Done (Rescan (h, k, w, map ScPool (cv_signal_pageout (k_pool k))))
  else
    match scanner_reset total_pages inst h k with
    | Done (Rescan (h, k)) =>
        let nscan_limit :=
          if PAGE_SCAN_STARTUP tn (k_cal k) then total_pages
          else desscan (k_sched k) in
        let '(sample_start, w) := gethrtime w in
        match scan_pages fuel ckfuel tn pageout_reset_cnt inst nscan_limit
                sample_start (mkVars h 0 0 0 k w []) with
        | Done v =>
            let k := sv_kernel v in
            let k :=
              set_sched
                (set_nscan (u64 (nscan (k_sched k) + sv_nscan_cnt v))
                   (k_sched k)) k in
            let '(sample_end, w) := gethrtime (sv_world v) in
            match scanner_sample tn total_pages inst clkfuel (sv_pcount v)
                    (s64 (sample_end - sample_start)) k with
            | Done (Some k) =>
                Done (Rescan (sv_hands v, k, w,
                              sv_trace v ++
                              map ScPool (cv_signal_pageout (k_pool k))))
            | Done None => Done VerifyFailed
            | Trap => Trap
            | OutOfFuel => OutOfFuel
            end
        | Trap => Trap
        | OutOfFuel => OutOfFuel
        end
    | Done (LwpExit (h, k)) => Done (LwpExit (h, k, w, []))
    | Done VerifyFailed => Done VerifyFailed
    | Trap => Trap
    | OutOfFuel => OutOfFuel
    end.

(** [n] steps of a hand. *)
Fixpoint advance (n : nat) (p : pref) : pref :=
  match n with
  | O => p
  | S n' => advance n' (page_next p)
  end.

(** The pages [n] rounds of the loop look at, in order: the page under
    the front hand, the page under the back hand, then both hands one page
    further. *)
Fixpoint sweep (n : nat) (fh bh : pref) : list (pref * pageout_hand_t) :=
  match n with
  | O => []
  | S n' =>
      (fh, POH_FRONT) :: (bh, POH_BACK)
      :: sweep n' (page_next fh) (page_next bh)
  end.

(** What the code expects of the page array: a hand moved [d] pages ahead
    of another stays [d] pages ahead when both take a step. *)
Definition page_ring : Prop :=
  forall (p : pref) (d : Z),
    page_nextn (page_next p) d = page_next (page_nextn p d).

End Scanner.

(** The pages a trace looked at, in order. *)
Definition visits {pref : Type} (tr : list (scan_event pref))
  : list (pref * pageout_hand_t) :=
  flat_map (fun e => match e with
                     | ScCheck pp hand _ _ => [(pp, hand)]
                     | _ => []
                     end) tr.

(** The calls a trace made inside [checkpage], in order. *)
Definition page_calls {pref : Type} (tr : list (scan_event pref))
  : list ckp_event :=
  flat_map (fun e => match e with
                     | ScCheck _ _ _ t => t
                     | _ => []
                     end) tr.

(** The pages a trace counted as scanned: the rounds in which a hand found
    its page eligible. *)
Fixpoint rounds_counted {pref : Type} (tr : list (scan_event pref)) : Z :=
  match tr with
  | ScCheck _ POH_FRONT rf _ :: ScCheck _ POH_BACK rb _ :: rest =>
      (if negb (is_ineligible rf) || negb (is_ineligible rb) then 1 else 0)
      + rounds_counted rest
  | _ :: rest => rounds_counted rest
  | [] => 0
  end.

(** What a round of the scan loop may change in the globals: the pool,
    the reset flag of the instance, [po_share], which it may double while
    below [MAX_PO_SHARE], and [pageout_timeouts], which it may count up. *)
Definition kernel_steady (k k' : kernel) : Prop :=
  k_cal k' = k_cal k /\
  cs_init (k_clock k') = cs_init (k_clock k) /\
  cs_paging (k_clock k') = cs_paging (k_clock k) /\
  n_page_scanners (cs_scan (k_clock k'))
    = n_page_scanners (cs_scan (k_clock k)) /\
  set_po_share 0 (k_sched k') = set_po_share 0 (k_sched k) /\
  (po_share (k_sched k') = po_share (k_sched k) \/
   (po_share (k_sched k) < MAX_PO_SHARE /\
    po_share (k_sched k') = u64 (Z.shiftl (po_share (k_sched k)) 1))).

Section ScannerRuns.

Context {world pref page : Type} {host : Host page}
  {mem : Memory world pref page}.
Variable PAGESHIFT : Z.

(** A round of the loop that ran to the step of the hands: the two calls
    of [checkpage], the page under the front hand first, and what the
    round left. *)
Definition round_of (ckfuel : nat) (v v' : scan_vars world pref) : Prop :=
  exists rvf ppf plf tr1 rvb ppb tr2 extra w,
    let ss := k_sched (sv_kernel v) in
    let fh := fronthand (sv_hands v) in
    let bh := backhand (sv_hands v) in
    checkpage PAGESHIFT ckfuel (zones_over ss) (po_share ss) (page_at w fh)
      POH_FRONT (k_pool (sv_kernel v)) = Done (rvf, ppf, plf, tr1) /\
    checkpage PAGESHIFT ckfuel (zones_over ss) (po_share ss)
      (page_at (put_page w fh ppf) bh) POH_BACK plf
      = Done (rvb, ppb, k_pool (sv_kernel v'), tr2) /\
    fronthand (sv_hands v') = page_next fh /\
    backhand (sv_hands v') = page_next bh /\
    sv_pcount v' = u64 (sv_pcount v + 1) /\
    sv_nscan_cnt v' =
      (if negb (is_ineligible rvf) || negb (is_ineligible rvb)
       then u64 (sv_nscan_cnt v + 1) else sv_nscan_cnt v) /\
    sv_trace v' =
      sv_trace v ++
      [ScCheck fh POH_FRONT rvf tr1; ScCheck bh POH_BACK rvb tr2] ++ extra /\
    Forall (fun e => match e with ScCheck _ _ _ _ => False | _ => True end)
      extra /\
    kernel_steady (sv_kernel v) (sv_kernel v').

(** A round that stopped at the check of the time budget. *)
Definition budget_stop (v v' : scan_vars world pref) : Prop :=
  sv_hands v' = sv_hands v /\ sv_pcount v' = sv_pcount v /\
  sv_nscan_cnt v' = sv_nscan_cnt v /\
  sv_trace v' = sv_trace v ++ [ScBudget] /\
  k_pool (sv_kernel v') = k_pool (sv_kernel v) /\
  k_clock (sv_kernel v') = k_clock (sv_kernel v) /\
  k_sched (sv_kernel v') = k_sched (sv_kernel v) /\
  k_cal (sv_kernel v') = k_cal (sv_kernel v).

(** The runs of the scan loop: [n] rounds, each entered with the loop
    condition true, and then the stop. *)
Inductive scanned (ckfuel : nat) (tn : tunables) (nscan_limit : Z)
  : nat -> scan_vars world pref -> scan_vars world pref -> Prop :=
| scanned_stop (v : scan_vars world pref) :
    scanned ckfuel tn nscan_limit 0 v v
| scanned_budget (v v' : scan_vars world pref) :
    scan_wanted tn nscan_limit v = true ->
    budget_stop v v' ->
    scanned ckfuel tn nscan_limit 0 v v'
| scanned_round (n : nat) (v v' v'' : scan_vars world pref) :
    scan_wanted tn nscan_limit v = true ->
    round_of ckfuel v v' ->
    scanned ckfuel tn nscan_limit n v' v'' ->
    scanned ckfuel tn nscan_limit (S n) v v''.

End ScannerRuns.

(** A pool after requests were queued on it and nothing else: the
    pending list grew at its head by requests of one page with
    [B_ASYNC | B_FREE], the freelist shrank by as many, and what the
    pageout thread keeps is as it was. *)
Definition pool_grown (PAGESHIFT : Z) (pl pl' : pool) : Prop :=
  exists added,
    push_list pl' = added ++ push_list pl /\
    (length (req_freelist pl') + length added)%nat
      = length (req_freelist pl) /\
    Forall (fun a => a_len a = PAGESIZE PAGESHIFT /\
                     a_flags a = [B_ASYNC; B_FREE] /\
                     a_cred a = Some kcred /\ a_vp a <> None) added /\
    pageout_pushing pl' = pageout_pushing pl /\
    pageout_pushcount pl' = pageout_pushcount pl /\
    pushes pl' = pushes pl.

(** ** A machine for testing: the test pages in a ring, a clock that
    advances by [sw_tick] at every reading, and [freemem] the number of
    free pages. *)
Record sim_world : Type := mkWorld {
  sw_pages : list test_page;
  sw_clock : Z;
  sw_tick : Z;
  sw_needfree : Z
}.

Definition ring_memory (n : Z) : Memory sim_world Z test_page := {|
  page_first := 0;
  page_next := fun p => (p + 1) mod n;
  page_nextn := fun p d => (p + d) mod n;
  same_page := Z.eqb;
  page_at := fun w p => nth (Z.to_nat p) (sw_pages w) plain_page;
  put_page := fun w p pp =>
    mkWorld (array_set (sw_pages w) (Z.to_nat p) pp) (sw_clock w)
      (sw_tick w) (sw_needfree w);
  gethrtime := fun w =>
    (sw_clock w,
     mkWorld (sw_pages w) (sw_clock w + sw_tick w) (sw_tick w)
       (sw_needfree w));
  cur_freemem := fun w => Z.of_nat (length (filter tp_free (sw_pages w)));
  cur_needfree := sw_needfree
|}.

(** ** Scenarios for the scanner *)

(** Six pages in a ring: a referenced one, a dirty page of a file, a clean
    anonymous one, one locked by someone else, a referenced one and a large
    dirty page of a file. *)
Definition six_pages : list test_page :=
  [referenced_page; dirty_page; plain_page; tp_set_lock true plain_page;
   referenced_page; large_dirty_page].

(** The machine: those pages, none free, the clock at 1000 and 10
    nanoseconds later at every reading. *)
Definition six_world : sim_world := mkWorld six_pages 1000 10 0.

(** Thresholds for six pages, the hands two pages apart. *)
Definition six_paging : paging :=
  mkPaging 6 524288 4096 4 2 1 1 1 40 20 3 1 2.

(** The globals: one scanner, its reset flag as given, the sampling as
    given, [desscan] as given and a pool of four requests. *)
Definition six_kernel (flag : bool) (cal : calibration) (desscan_v : Z)
  : kernel :=
  mkKernel
    (mkClock (mkClockinit true 0 0 0 0 0 0 0 0 0 0 0 0) six_paging
       (mkScanners 6 1 1 (flag :: repeat false 15)))
    cal
    (mkSched 0 desscan_v 50 10000000 200000000 false 0 0 MIN_PO_SHARE)
    (pageout_init 4) 0.

(** A kernel that has not sampled yet, and one that has its four samples
    and no spread yet. *)
Definition unsampled : calibration := mkCalibration 0 0 0 0 0.
Definition sampled : calibration := mkCalibration 4 10000000 5000000000 0 0.

(** * Proofs *)

(** Comparisons that were decided become propositions. *)
Ltac zbool :=
  repeat match goal with
  | H : (_ <? _) = true |- _ => apply Z.ltb_lt in H
  | H : (_ <? _) = false |- _ => apply Z.ltb_ge in H
  | H : (_ <=? _) = true |- _ => apply Z.leb_le in H
  | H : (_ <=? _) = false |- _ => apply Z.leb_gt in H
  | H : (_ >? _) = true |- _ => rewrite Z.gtb_ltb in H; apply Z.ltb_lt in H
  | H : (_ >? _) = false |- _ => rewrite Z.gtb_ltb in H; apply Z.ltb_ge in H
  | H : (_ >=? _) = true |- _ => rewrite Z.geb_leb in H; apply Z.leb_le in H
  | H : (_ >=? _) = false |- _ => rewrite Z.geb_leb in H; apply Z.leb_gt in H
  | H : (_ =? _) = true |- _ => apply Z.eqb_eq in H
  | H : (_ =? _) = false |- _ => apply Z.eqb_neq in H
  end.

(** ** The helpers of the threshold calculator *)

Lemma tune_cases (i c d : Z) :
  (tune i c d = d /\ (i = 0 \/ c <= i)) \/ (tune i c d = i /\ i <> 0 /\ i < c).
Proof.
  unfold tune.
  destruct (i =? 0) eqn:E0; simpl.
  - left. split; [reflexivity | left; lia].
  - destruct (i >=? c) eqn:Ec.
    + left. split; [reflexivity | right; lia].
    + right. repeat split; lia.
Qed.

Lemma tune_le (i c d : Z) : d <= c -> tune i c d <= c.
Proof. destruct (tune_cases i c d) as [[-> _] | [-> [_ H]]]; lia. Qed.

Lemma tune_nonneg (i c d : Z) : 0 <= i -> 0 <= d -> 0 <= tune i c d.
Proof. destruct (tune_cases i c d) as [[-> _] | [-> _]]; lia. Qed.

Lemma tune_honoured (i c d : Z) : honoured i c d (tune i c d).
Proof.
  unfold honoured.
  destruct (tune_cases i c d) as [[-> H] | [-> H]]; split; intros; lia.
Qed.

Lemma capped_spec (v cap d e : Z) :
  e = (let f := if v =? 0 then d else v in if f >? cap then cap else f) ->
  capped v cap d e.
Proof.
  intros ->. unfold capped. cbv zeta.
  repeat split; intros H; try intros H'.
  - apply Z.eqb_neq in H. rewrite H. destruct (v >? cap) eqn:E; lia.
  - apply Z.eqb_neq in H. rewrite H. destruct (v >? cap) eqn:E; lia.
  - rewrite H. simpl. destruct (d >? cap) eqn:E; lia.
Qed.

Lemma clamp_cases (v lo hi : Z) :
  (v < lo /\ clamp v lo hi = lo) \/
  (lo <= v /\ hi < v /\ clamp v lo hi = hi) \/
  (lo <= v <= hi /\ clamp v lo hi = v).
Proof.
  unfold clamp.
  destruct (v <? lo) eqn:E1; [left; lia|].
  destruct (v >? hi) eqn:E2; right; [left | right]; lia.
Qed.

Lemma MIN_spec (a b : Z) : MIN a b = Z.min a b.
Proof. unfold MIN. destruct (a <? b) eqn:E; lia. Qed.

Lemma MAX_spec (a b : Z) : MAX a b = Z.max a b.
Proof. unfold MAX. destruct (a >? b) eqn:E; lia. Qed.

Lemma u64_range (x : Z) : 0 <= u64 x < 2 ^ 64.
Proof. unfold u64. apply Z.mod_pos_bound. lia. Qed.

Lemma u64_id (x : Z) : 0 <= x < 2 ^ 64 -> u64 x = x.
Proof. intros H. unfold u64. apply Z.mod_small. exact H. Qed.

Lemma u32_id (x : Z) : 0 <= x < 2 ^ 32 -> u32 x = x.
Proof. intros H. unfold u32. apply Z.mod_small. exact H. Qed.

Lemma s64_id (x : Z) : - 2 ^ 63 <= x < 2 ^ 63 -> s64 x = x.
Proof. intros H. unfold s64. rewrite Z.mod_small; lia. Qed.

Lemma u64b_spec (x : Z) : u64b x = true <-> 0 <= x < 2 ^ 64.
Proof. unfold u64b. rewrite andb_true_iff, Z.leb_le, Z.ltb_lt. tauto. Qed.

Lemma u32b_spec (x : Z) : u32b x = true <-> 0 <= x < 2 ^ 32.
Proof. unfold u32b. rewrite andb_true_iff, Z.leb_le, Z.ltb_lt. tauto. Qed.

(** Three quarters of a 64-bit count never exceed it, even when the
    multiplication by three wraps. *)
Lemma three_quarters_le (d : Z) : 0 <= d < 2 ^ 64 -> 0 <= u64 (3 * d) / 4 <= d.
Proof.
  intros Hd. pose proof (u64_range (3 * d)) as Hr.
  split; [apply Z.div_pos; lia|].
  destruct (Z_lt_ge_dec (3 * d) (2 ^ 64)) as [Hs | Hb].
  - rewrite u64_id by lia. apply Z.div_le_upper_bound; lia.
  - assert (u64 (3 * d) / 4 < 2 ^ 62) by (apply Z.div_lt_upper_bound; lia).
    lia.
Qed.

Lemma clockinit_wf_spec (ci : clockinit_t) :
  clockinit_wf ci = true ->
  (0 <= ci_lotsfree_min ci < 2 ^ 64 /\ 0 <= ci_lotsfree_max ci < 2 ^ 64 /\
   0 <= ci_lotsfree ci < 2 ^ 64 /\ 0 <= ci_desfree ci < 2 ^ 64 /\
   0 <= ci_minfree ci < 2 ^ 64 /\ 0 <= ci_throttlefree ci < 2 ^ 64) /\
  (0 <= ci_pageout_reserve ci < 2 ^ 64 /\ 0 <= ci_maxpgio ci < 2 ^ 64 /\
   0 <= ci_maxfastscan ci < 2 ^ 64 /\ 0 <= ci_fastscan ci < 2 ^ 64 /\
   0 <= ci_slowscan ci < 2 ^ 64 /\ 0 <= ci_handspreadpages ci < 2 ^ 64).
Proof.
  unfold clockinit_wf. rewrite !andb_true_iff, !u64b_spec. tauto.
Qed.

Lemma tune_bounds (i c d B : Z) :
  0 <= i < B -> 0 <= d < B -> 0 <= tune i c d < B.
Proof. destruct (tune_cases i c d) as [[-> _] | [-> _]]; lia. Qed.

Lemma tunables_wf_spec (tn : tunables) :
  tunables_wf tn = true ->
  0 < lotsfree_fraction tn < 2 ^ 32 /\ 0 <= maxslowscan tn.
Proof.
  unfold tunables_wf.
  rewrite !andb_true_iff, !u64b_spec, !u32b_spec, negb_true_iff, Z.eqb_neq.
  lia.
Qed.

Lemma effective_clockinit_init (st : clockstate) :
  ci_init (effective_clockinit st) = true.
Proof.
  unfold effective_clockinit.
  destruct (ci_init (cs_init st)) eqn:E; [exact E | reflexivity].
Qed.

(** Once taken, the snapshot is the one every later call works from. *)
Lemma effective_clockinit_sticky (st st' : clockstate) :
  cs_init st' = effective_clockinit st ->
  effective_clockinit st' = effective_clockinit st.
Proof.
  intros H. unfold effective_clockinit at 1. rewrite H.
  rewrite effective_clockinit_init. reflexivity.
Qed.

Section ClockFacts.

Variable PAGESHIFT : Z.
Variable DISKRPM : Z.
Hypothesis Hplat : legal_platform PAGESHIFT.

Lemma thresholds_derived (tn : tunables) (T spread : Z) (ci : clockinit_t) :
  derived PAGESHIFT DISKRPM tn T spread ci
    (setupclock_thresholds PAGESHIFT DISKRPM tn T spread ci).
Proof. unfold derived. repeat split; reflexivity. Qed.

Lemma btop_nonneg (x : Z) : 0 <= x -> 0 <= btop PAGESHIFT x.
Proof. intros H. unfold btop. apply Z.shiftr_nonneg. exact H. Qed.

Lemma btop_pow2 (k : Z) :
  PAGESHIFT <= k -> btop PAGESHIFT (2 ^ k) = 2 ^ (k - PAGESHIFT).
Proof.
  unfold legal_platform in Hplat. unfold btop. intros Hk.
  rewrite Z.shiftr_div_pow2 by lia.
  rewrite <- Z.pow_sub_r by lia. reflexivity.
Qed.

Lemma region_default_pow2 :
  btop PAGESHIFT (64 * 1073741824) = 2 ^ (36 - PAGESHIFT).
Proof.
  change (64 * 1073741824) with (2 ^ 36). apply btop_pow2.
  unfold legal_platform in Hplat. lia.
Qed.

Lemma region_default_pos : 1 <= btop PAGESHIFT (64 * 1073741824).
Proof.
  rewrite region_default_pow2. unfold legal_platform in Hplat.
  assert (0 < 2 ^ (36 - PAGESHIFT)) by (apply Z.pow_pos_nonneg; lia). lia.
Qed.

Lemma maxhandspread_pos : 1 <= MAXHANDSPREADPAGES PAGESHIFT.
Proof.
  unfold MAXHANDSPREADPAGES. change (64 * MEGABYTES) with (2 ^ 26).
  unfold legal_platform in Hplat. rewrite btop_pow2 by lia.
  assert (0 < 2 ^ (26 - PAGESHIFT)) by (apply Z.pow_pos_nonneg; lia). lia.
Qed.

Lemma legal_pages_bound (T : Z) : legal_pages PAGESHIFT T -> 0 <= T < 2 ^ 63.
Proof.
  unfold legal_platform in Hplat. unfold legal_pages. intros [H0 H].
  split; [exact H0|].
  assert (2 ^ 1 <= 2 ^ PAGESHIFT) by (apply Z.pow_le_mono_r; lia).
  change (2 ^ 1) with 2 in *. nia.
Qed.

Lemma legal_pages_regions (T : Z) :
  legal_pages PAGESHIFT T -> T / btop PAGESHIFT (64 * 1073741824) < 2 ^ 28.
Proof.
  intros HT. rewrite region_default_pow2.
  unfold legal_platform, legal_pages in *. destruct HT as [H0 H].
  apply Z.div_lt_upper_bound; [apply Z.pow_pos_nonneg; lia|].
  assert (E : 2 ^ 64 = 2 ^ (36 - PAGESHIFT) * 2 ^ 28 * 2 ^ PAGESHIFT).
  { rewrite <- !Z.pow_add_r by lia. f_equal. lia. }
  assert (0 < 2 ^ PAGESHIFT) by (apply Z.pow_pos_nonneg; lia).
  assert (0 < 2 ^ (36 - PAGESHIFT)) by (apply Z.pow_pos_nonneg; lia).
  rewrite E in H. nia.
Qed.

(** The order and the bounds of the thresholds of one call. *)
Lemma thresholds_bounds (tn : tunables) (T spread : Z) (ci : clockinit_t)
    (pg : paging) :
  derived PAGESHIFT DISKRPM tn T spread ci pg ->
  0 <= T < 2 ^ 63 -> tunables_wf tn = true -> clockinit_wf ci = true ->
  0 <= spread ->
  (0 <= pageout_reserve pg <= throttlefree pg /\
   0 <= throttlefree pg <= desfree pg /\
   0 <= minfree pg <= desfree pg /\
   0 <= desfree pg <= lotsfree pg /\
   0 <= lotsfree_min pg) /\
  (ci_throttlefree ci = 0 -> throttlefree pg <= minfree pg) /\
  (lotsfree_min pg <= T -> lotsfree pg <= T) /\
  (0 <= fastscan pg <= T / 2 /\ (2 <= T -> 1 <= fastscan pg)) /\
  (0 <= slowscan pg <= fastscan pg / 2) /\
  (0 <= handspreadpages pg /\
   (1 <= T -> handspreadpages pg < T) /\
   (2 <= T -> 1 <= handspreadpages pg)).
Proof.
  intros D HT Htn Hci Hsp.
  destruct D as (_ & Elmax & Elmin & Elf & Edes & Emin & Ethr & Epr & _ &
                 Emfs & Efs & Ess & Ehsp).
  apply clockinit_wf_spec in Hci.
  destruct Hci as [(C1 & C2 & C3 & C4 & C5 & C6) (C7 & C8 & C9 & C10 & C11 & C12)].
  apply tunables_wf_spec in Htn. destruct Htn as [Hfr Hms].
  unfold legal_platform in Hplat.
  assert (Hlmax : 0 <= lotsfree_max pg < 2 ^ 64).
  { rewrite Elmax. apply tune_bounds; [lia|].
    change LOTSFREE_MAX_DEFAULT with (2 ^ 31). rewrite btop_pow2 by lia.
    split; [apply Z.pow_nonneg; lia | apply Z.pow_lt_mono_r; lia]. }
  assert (Hlmin : 0 <= lotsfree_min pg < 2 ^ 64).
  { rewrite Elmin. apply tune_bounds; [lia|].
    change LOTSFREE_MIN_DEFAULT with (2 ^ 24). rewrite btop_pow2 by lia.
    split; [apply Z.pow_nonneg; lia | apply Z.pow_lt_mono_r; lia]. }
  assert (Hq : 0 <= T / lotsfree_fraction tn <= T).
  { split; [apply Z.div_pos; lia|].
    apply Z.div_le_upper_bound; [lia | nia]. }
  pose proof (clamp_cases (T / lotsfree_fraction tn) (lotsfree_min pg)
                (lotsfree_max pg)) as Hcl.
  assert (Hlf : 0 <= lotsfree pg < 2 ^ 64).
  { rewrite Elf. apply tune_bounds; [lia|].
    destruct Hcl as [[_ ->] | [[_ [_ ->]] | [_ ->]]]; lia. }
  assert (HlfT : lotsfree_min pg <= T -> lotsfree pg <= T).
  { intros HminT. rewrite Elf. apply tune_le.
    destruct Hcl as [[_ ->] | [[_ [? ->]] | [_ ->]]]; lia. }
  assert (Hu : forall x, 0 <= x -> 0 <= x / 2 <= x).
  { intros x Hx. split; [apply Z.div_pos; lia|].
    apply Z.div_le_upper_bound; lia. }
  assert (Hdes : 0 <= desfree pg <= lotsfree pg).
  { rewrite Edes. pose proof (Hu _ (proj1 Hlf)).
    split; [apply tune_nonneg | apply tune_le]; lia. }
  assert (Hfrac : forall (b : bool) x,
             0 <= x < 2 ^ 64 ->
             0 <= (if b then x / 2 else u64 (3 * x) / 4) <= x).
  { intros b x Hx. destruct b; [apply Hu; lia | apply three_quarters_le; lia]. }
  assert (Hmin : 0 <= minfree pg <= desfree pg).
  { rewrite Emin.
    pose proof (Hfrac (pageout_threshold_style tn =? 1) (desfree pg)).
    split; [apply tune_nonneg | apply tune_le]; lia. }
  assert (Hthr : 0 <= throttlefree pg <= desfree pg).
  { rewrite Ethr. split; [apply tune_nonneg | apply tune_le]; lia. }
  assert (Hpr : 0 <= pageout_reserve pg <= throttlefree pg).
  { rewrite Epr.
    pose proof (Hfrac (pageout_threshold_style tn =? 1) (throttlefree pg)).
    split; [apply tune_nonneg | apply tune_le]; lia. }
  assert (Hthr0 : ci_throttlefree ci = 0 -> throttlefree pg <= minfree pg).
  { intros E0. rewrite Ethr. unfold tune. rewrite E0. simpl. lia. }
  assert (Hmfs1 : 1 <= maxfastscan pg).
  { rewrite Emfs. pose proof maxhandspread_pos.
    destruct (ci_maxfastscan ci =? 0) eqn:E; [|lia].
    destruct (spread =? 0) eqn:E'; simpl; lia. }
  assert (Hhalf : 0 <= T / 2 /\ (2 <= T -> 1 <= T / 2) /\ T / 2 <= T).
  { pose proof (Hu T (proj1 HT)).
    repeat split; try lia. intros. apply Z.div_le_lower_bound; lia. }
  assert (Hfs : 0 <= fastscan pg <= T / 2 /\ (2 <= T -> 1 <= fastscan pg)).
  { rewrite Efs. unfold loopfraction. cbv zeta. rewrite MIN_spec.
    destruct (ci_fastscan ci =? 0) eqn:E;
      match goal with
      | |- context [if ?c then _ else _] => destruct c eqn:E2
      end; lia. }
  assert (Hss : 0 <= slowscan pg <= fastscan pg / 2).
  { rewrite Ess. cbv zeta. rewrite MIN_spec.
    pose proof (Hu (fastscan pg) (proj1 (proj1 Hfs))).
    assert (0 <= fastscan pg / 10) by (apply Z.div_pos; lia).
    destruct (ci_slowscan ci =? 0) eqn:E;
      match goal with
      | |- context [if ?c then _ else _] => destruct c eqn:E2
      end; lia. }
  assert (Hhsp : 0 <= handspreadpages pg /\
                 (1 <= T -> handspreadpages pg < T) /\
                 (2 <= T -> 1 <= handspreadpages pg)).
  { rewrite Ehsp. cbv zeta. pose proof (u64_range (T - 1)).
    destruct (ci_handspreadpages ci =? 0) eqn:E;
      match goal with
      | |- context [if ?c then _ else _] => destruct c eqn:E2
      end;
      repeat split; intros; try rewrite u64_id by lia; lia. }
  repeat split; try tauto; try lia.
Qed.

(** The loop that counts regions stops at once when the first region
    covers all pages. *)
Lemma count_regions_stop (fuel : nat) (sz T tmp i : Z) :
  T <= tmp -> count_regions fuel sz T tmp i = Done i.
Proof.
  intros H. destruct fuel; simpl;
    (destruct (tmp <? T) eqn:E; [apply Z.ltb_lt in E; lia | reflexivity]).
Qed.

(** With a positive region size and no wrap-around it stops after
    [(T - tmp) / sz], rounded up, rounds. *)
Lemma count_regions_done (fuel : nat) (sz T : Z) :
  0 < sz -> T + sz <= 2 ^ 64 ->
  forall tmp i,
    0 <= tmp -> 0 <= i ->
    let n := if tmp <? T then (T - tmp + sz - 1) / sz else 0 in
    n <= Z.of_nat fuel -> i + n < 2 ^ 32 ->
    count_regions fuel sz T tmp i = Done (i + n).
Proof.
  intros Hsz Hwrap.
  induction fuel as [| fuel IH]; intros tmp i Htmp Hi n Hn Hi32.
  - subst n. simpl. destruct (tmp <? T) eqn:E.
    + exfalso. apply Z.ltb_lt in E.
      assert (1 <= (T - tmp + sz - 1) / sz)
        by (apply Z.div_le_lower_bound; lia).
      lia.
    + f_equal. lia.
  - subst n. simpl. destruct (tmp <? T) eqn:E.
    + apply Z.ltb_lt in E.
      assert (Hstep : (T - tmp + sz - 1) / sz =
                      1 + (if tmp + sz <? T
                           then (T - (tmp + sz) + sz - 1) / sz else 0)).
      { destruct (tmp + sz <? T) eqn:E'.
        - apply Z.ltb_lt in E'.
          replace (T - tmp + sz - 1) with (T - (tmp + sz) + sz - 1 + 1 * sz)
            by lia.
          rewrite Z.div_add by lia. lia.
        - apply Z.ltb_ge in E'.
          replace (T - tmp + sz - 1) with (T - tmp - 1 + 1 * sz) by lia.
          rewrite Z.div_add by lia. rewrite Z.div_small by lia. lia. }
      rewrite Hstep in Hn, Hi32. rewrite Hstep.
      assert (Hpos : 0 <= (if tmp + sz <? T
                           then (T - (tmp + sz) + sz - 1) / sz else 0)).
      { destruct (tmp + sz <? T); [apply Z.div_pos|]; lia. }
      rewrite (u64_id (tmp + sz)) by lia.
      rewrite (u32_id (i + 1)) by lia.
      rewrite IH by lia. f_equal. lia.
    + f_equal. lia.
Qed.

(** The region size, without the wrap-around. *)
Lemma region_size_spec (T hsp : Z) :
  1 <= T < 2 ^ 63 -> 0 <= hsp < T ->
  let S := btop PAGESHIFT (64 * 1073741824) in
  let sz := region_size PAGESHIFT T hsp in
  sz = Z.min (if S <? hsp then 2 * hsp else S) T /\
  1 <= sz <= T /\ (sz = T \/ S <= sz).
Proof.
  intros HT Hh S sz. subst sz. unfold region_size. fold S.
  pose proof region_default_pos as HS. fold S in HS.
  rewrite Z.shiftl_mul_pow2 by lia. change (2 ^ 1) with 2.
  rewrite (u64_id (hsp * 2)) by lia.
  destruct (S <? hsp) eqn:E1;
    match goal with
    | |- context [if ?c then _ else _] => destruct c eqn:E2
    end; lia.
Qed.

(** The number of regions is the page count over the region size, rounded
    up. *)
Lemma regions_ceil (T sz : Z) :
  1 <= sz <= T ->
  1 + (if sz <? T then (T - sz + sz - 1) / sz else 0) = ceil_div T sz.
Proof.
  intros H. unfold ceil_div.
  replace (T + sz - 1) with (T - 1 + 1 * sz) by lia.
  rewrite Z.div_add by lia.
  destruct (sz <? T) eqn:E.
  - replace (T - sz + sz - 1) with (T - 1) by lia. lia.
  - apply Z.ltb_ge in E. rewrite Z.div_small by lia. lia.
Qed.

Lemma setupclock_boot (tn : tunables) (T spread : Z) (fuel : nat)
    (st : clockstate) :
  ci_init (cs_init st) = false -> lotsfree_fraction tn <> 0 ->
  setupclock PAGESHIFT DISKRPM tn T spread fuel st =
  Done (mkClock (effective_clockinit st)
          (setupclock_thresholds PAGESHIFT DISKRPM tn T spread
             (effective_clockinit st))
          (mkScanners T 1 1 (array_set (reset_hands (cs_scan st)) 0 true))).
Proof.
  intros Hi Hf. unfold setupclock, effective_clockinit. rewrite Hi. simpl.
  apply Z.eqb_neq in Hf. rewrite Hf. reflexivity.
Qed.

Lemma setupclock_recalc (tn : tunables) (T spread : Z) (fuel : nat)
    (st : clockstate) :
  ci_init (cs_init st) = true ->
  legal_pages PAGESHIFT T -> 1 <= T ->
  tunables_wf tn = true -> clockinit_wf (cs_init st) = true ->
  0 <= spread ->
  T / btop PAGESHIFT (64 * 1073741824) <= Z.of_nat fuel ->
  let pg := setupclock_thresholds PAGESHIFT DISKRPM tn T spread
              (effective_clockinit st) in
  let sz := region_size PAGESHIFT T (handspreadpages pg) in
  setupclock PAGESHIFT DISKRPM tn T spread fuel st =
  Done (mkClock (effective_clockinit st) pg
          (mkScanners sz (cap_scanners (ceil_div T sz))
             (n_page_scanners (cs_scan st)) (reset_hands (cs_scan st)))).
Proof.
  intros Hi HT H1 Htn Hci Hsp Hfuel pg sz.
  pose proof (legal_pages_bound T HT) as HT63.
  pose proof (legal_pages_regions T HT) as Hreg.
  assert (Eci : effective_clockinit st = cs_init st)
    by (unfold effective_clockinit; rewrite Hi; reflexivity).
  pose proof (thresholds_derived tn T spread (effective_clockinit st)) as D.
  fold pg in D.
  assert (Hci' : clockinit_wf (effective_clockinit st) = true)
    by (rewrite Eci; exact Hci).
  destruct (thresholds_bounds tn T spread _ pg D HT63 Htn Hci' Hsp)
    as (_ & _ & _ & _ & _ & (Hh0 & HhT & _)).
  destruct (region_size_spec T (handspreadpages pg)) as (_ & Hsz & Hbig);
    [lia | lia |]. fold sz in Hsz, Hbig.
  pose proof region_default_pos as HS.
  pose proof (tunables_wf_spec tn Htn) as [Hfr _].
  unfold setupclock. rewrite Hi. simpl negb. cbv iota.
  assert (Ef : (lotsfree_fraction tn =? 0) = false) 
    by (apply Z.eqb_neq; lia).
  rewrite Ef. rewrite <- Eci. fold pg. cbv zeta. fold sz.
  assert (Hn : (if sz <? T then (T - sz + sz - 1) / sz else 0)
               <= T / btop PAGESHIFT (64 * 1073741824)).
  { destruct (sz <? T) eqn:E.
    - apply Z.ltb_lt in E. replace (T - sz + sz - 1) with (T - 1) by lia.
      destruct Hbig as [-> | Hbig]; [lia|].
      transitivity (T / sz).
      + apply Z.div_le_mono; lia.
      + apply Z.div_le_compat_l; lia.
    - apply Z.div_pos; lia. }
  rewrite (count_regions_done fuel sz T) by lia.
  rewrite regions_ceil by lia. reflexivity.
Qed.

(** C1, as the code has it.  A call of [setupclock], the first or a later
    one, on a legal page count of at least two pages returns once the loop
    budget covers the regions, and leaves
    [pageout_reserve <= throttlefree <= desfree], [minfree <= desfree <=
    lotsfree], [slowscan <= fastscan / 2], [1 <= handspreadpages < T] and
    [min_pageout_nsec <= max_pageout_nsec]; [throttlefree <= minfree] holds
    when the operator gave no [throttlefree], and [lotsfree <= T] when [T]
    is not below the floor [lotsfree_min]. *)
Theorem setupclock_threshold_chain (tn : tunables) (T spread : Z)
    (fuel : nat) (st : clockstate) :
  legal_pages PAGESHIFT T -> 2 <= T ->
  tunables_wf tn = true ->
  clockinit_wf (effective_clockinit st) = true ->
  0 <= spread ->
  T / btop PAGESHIFT (64 * 1073741824) <= Z.of_nat fuel ->
  exists st',
    setupclock PAGESHIFT DISKRPM tn T spread fuel st = Done st' /\
    let pg := cs_paging st' in
    (pageout_reserve pg <= throttlefree pg <= desfree pg /\
     minfree pg <= desfree pg <= lotsfree pg) /\
    (ci_throttlefree (cs_init st') = 0 -> throttlefree pg <= minfree pg) /\
    (lotsfree_min pg <= T -> lotsfree pg <= T) /\
    slowscan pg <= fastscan pg / 2 /\
    1 <= handspreadpages pg < T /\
    min_pageout_nsec_of tn <= max_pageout_nsec_of tn.
Proof.
  intros HT H2 Htn Hci Hsp Hfuel.
  pose proof (legal_pages_bound T HT) as HT63.
  pose proof (tunables_wf_spec tn Htn) as [Hfr _].
  set (pg := setupclock_thresholds PAGESHIFT DISKRPM tn T spread
               (effective_clockinit st)).
  pose proof (thresholds_derived tn T spread (effective_clockinit st)) as D.
  fold pg in D.
  pose proof (thresholds_bounds tn T spread _ pg D HT63 Htn Hci Hsp) as B.
  assert (Hns : min_pageout_nsec_of tn <= max_pageout_nsec_of tn).
  { unfold max_pageout_nsec_of. rewrite MAX_spec. lia. }
  assert (Hres : exists sc,
             setupclock PAGESHIFT DISKRPM tn T spread fuel st =
             Done (mkClock (effective_clockinit st) pg sc)).
  { destruct (ci_init (cs_init st)) eqn:Hi.
    - eexists. apply setupclock_recalc; try assumption; try lia.
      unfold effective_clockinit in Hci. rewrite Hi in Hci. exact Hci.
    - eexists. apply setupclock_boot; [assumption | lia]. }
  destruct Hres as [sc Hres]. eexists. split; [exact Hres|].
  cbn [cs_paging cs_init]. repeat split; try tauto; try lia.
Qed.

(** One call, the first or a later one, honours the snapshot it works
    from. *)
Lemma setupclock_call_honours (tn : tunables) (T spread : Z)
    (fuel : nat) (st st' : clockstate) :
  setupclock PAGESHIFT DISKRPM tn T spread fuel st = Done st' ->
  (cs_init st' = effective_clockinit st /\
   effective_clockinit st' = effective_clockinit st) /\
  overrides_honoured PAGESHIFT DISKRPM tn T spread (effective_clockinit st)
    (cs_paging st').
Proof.
  intros Hdone. unfold overrides_honoured.
  set (ci := effective_clockinit st). set (pg := cs_paging st').
  assert (Hst : cs_init st' = ci /\
                pg = setupclock_thresholds PAGESHIFT DISKRPM tn T spread ci).
  { revert Hdone. unfold setupclock. subst ci pg. unfold effective_clockinit.
    destruct (ci_init (cs_init st)); cbn [negb];
      destruct (lotsfree_fraction tn =? 0); try discriminate.
    - match goal with
      | |- context [count_regions ?f ?a ?b ?c ?d] =>
          destruct (count_regions f a b c d)
      end; try discriminate.
      intros H. injection H as <-. split; reflexivity.
    - intros H. injection H as <-. split; reflexivity. }
  destruct Hst as [Hci Hpg].
  pose proof (thresholds_derived tn T spread ci) as D. rewrite <- Hpg in D.
  destruct D as (_ & Elmax & Elmin & Elf & Edes & Emin & Ethr & Epr & Epg &
                 Emfs & Efs & Ess & Ehsp).
  split; [split; [exact Hci | apply effective_clockinit_sticky; exact Hci]|].
  split.
  { rewrite Elmax at 1. rewrite Elmin at 1. rewrite Elf at 1.
    rewrite Edes at 1. rewrite Emin at 1. rewrite Ethr at 1. rewrite Epr at 1.
    repeat split; apply tune_honoured. }
  split.
  { rewrite Epg, Emfs.
    repeat split; intros H.
    - apply Z.eqb_neq in H. rewrite H. reflexivity.
    - rewrite H. reflexivity.
    - apply Z.eqb_neq in H. rewrite H. reflexivity.
    - rewrite H. simpl. destruct (spread =? 0); reflexivity. }
  unfold loopfraction in Efs. rewrite MIN_spec in Efs, Ess.
  split; [apply capped_spec; exact Efs|].
  split; [apply capped_spec; exact Ess|].
  rewrite Ehsp. cbv zeta.
  repeat split; intros H; try intros H'.
  - apply Z.eqb_neq in H. rewrite H.
    destruct (ci_handspreadpages ci >=? T) eqn:E; [lia | reflexivity].
  - apply Z.eqb_neq in H. rewrite H.
    destruct (ci_handspreadpages ci >=? T) eqn:E; [reflexivity | lia].
  - rewrite H. reflexivity.
Qed.


(** A run of calls keeps the snapshot of its first call. *)
Lemma setupclock_run_snapshot (tn : tunables) (calls : list (Z * Z * nat)) :
  forall st st',
    setupclock_run PAGESHIFT DISKRPM tn calls st = Done st' ->
    effective_clockinit st' = effective_clockinit st /\
    (calls <> [] -> cs_init st' = effective_clockinit st).
Proof.
  induction calls as [| [[T spread] fuel] rest IH]; intros st st' H.
  - simpl in H. injection H as <-. split; [reflexivity | congruence].
  - simpl in H.
    destruct (setupclock PAGESHIFT DISKRPM tn T spread fuel st)
      as [st1 | |] eqn:E1; try discriminate.
    destruct (setupclock_call_honours _ _ _ _ _ _ E1) as ((Hci & Hst1) & _).
    destruct (IH _ _ H) as [Heff Hinit].
    split; [congruence|]. intros _.
    destruct rest as [| c rest'].
    + simpl in H. injection H as <-. exact Hci.
    + rewrite Hinit by discriminate. exact Hst1.
Qed.

Lemma setupclock_run_last (tn : tunables) (calls : list (Z * Z * nat))
    (T spread : Z) (fuel : nat) :
  forall st st',
    setupclock_run PAGESHIFT DISKRPM tn (calls ++ [(T, spread, fuel)]) st
      = Done st' ->
    exists st1,
      setupclock_run PAGESHIFT DISKRPM tn calls st = Done st1 /\
      setupclock PAGESHIFT DISKRPM tn T spread fuel st1 = Done st'.
Proof.
  induction calls as [| [[T0 spread0] fuel0] rest IH]; intros st st' H.
  - simpl in H. exists st. split; [reflexivity|].
    destruct (setupclock PAGESHIFT DISKRPM tn T spread fuel st);
      try discriminate. exact H.
  - simpl in H. simpl.
    destruct (setupclock PAGESHIFT DISKRPM tn T0 spread0 fuel0 st)
      as [st0 | |]; try discriminate.
    apply IH. exact H.
Qed.

(** C2, as the code has it.  After the first call of [setupclock] and after
    every later call, the snapshot of the operator's values is the one the
    first call took.  The seven thresholds set with [tune] keep a nonzero
    operator value below their ceiling and take the default otherwise;
    [maxpgio] and [maxfastscan] keep any nonzero value; [fastscan],
    [slowscan] and [handspreadpages] keep a nonzero value up to their cap
    and are cut to the cap above it. *)
Theorem setupclock_honours_overrides (tn : tunables)
    (calls : list (Z * Z * nat)) (T spread : Z) (fuel : nat)
    (st st' : clockstate) :
  ci_init (cs_init st) = false ->
  setupclock_run PAGESHIFT DISKRPM tn (calls ++ [(T, spread, fuel)]) st
    = Done st' ->
  cs_init st' = clockinit_snapshot (cs_paging st) /\
  overrides_honoured PAGESHIFT DISKRPM tn T spread
    (clockinit_snapshot (cs_paging st)) (cs_paging st').
Proof.
  intros Hboot Hrun.
  destruct (setupclock_run_last tn calls T spread fuel st st' Hrun)
    as (st1 & Hcalls & Hlast).
  destruct (setupclock_run_snapshot tn calls st st1 Hcalls) as [Heff _].
  destruct (setupclock_call_honours _ _ _ _ _ _ Hlast) as ((Hci & _) & Hov).
  rewrite Heff in Hci, Hov.
  assert (E : effective_clockinit st = clockinit_snapshot (cs_paging st))
    by (unfold effective_clockinit; rewrite Hboot; reflexivity).
  rewrite E in Hci, Hov. split; assumption.
Qed.

(** C6, as the code has it.  A later call of [setupclock] on a legal page
    count returns once the loop budget covers the regions; the region size
    is 64 GiB in pages, or twice [handspreadpages] when 64 GiB in pages is
    less than [handspreadpages], and no more than the page count;
    [des_page_scanners] is the page count over the region size, rounded up,
    within 1 and 16.  The first call leaves one scanner and the page count
    as region size. *)
Theorem setupclock_scanner_sizing (tn : tunables) (T spread : Z)
    (fuel : nat) (st : clockstate) :
  legal_pages PAGESHIFT T -> 1 <= T ->
  tunables_wf tn = true ->
  clockinit_wf (effective_clockinit st) = true ->
  0 <= spread ->
  T / btop PAGESHIFT (64 * 1073741824) <= Z.of_nat fuel ->
  exists st',
    setupclock PAGESHIFT DISKRPM tn T spread fuel st = Done st' /\
    let hsp := handspreadpages (cs_paging st') in
    let S := btop PAGESHIFT (64 * 1073741824) in
    let sc := cs_scan st' in
    if ci_init (cs_init st) then
      let sz := Z.min (if S <? hsp then 2 * hsp else S) T in
      pscan_region_sz sc = sz /\
      des_page_scanners sc =
        Z.max 1 (Z.min (ceil_div T sz) MAX_PSCAN_THREADS) /\
      1 <= des_page_scanners sc <= MAX_PSCAN_THREADS /\
      n_page_scanners sc = n_page_scanners (cs_scan st)
    else
      des_page_scanners sc = 1 /\ n_page_scanners sc = 1 /\
      pscan_region_sz sc = T.
Proof.
  intros HT H1 Htn Hci Hsp Hfuel.
  pose proof (legal_pages_bound T HT) as HT63.
  pose proof (tunables_wf_spec tn Htn) as [Hfr _].
  destruct (ci_init (cs_init st)) eqn:Hi.
  - assert (Hci' : clockinit_wf (cs_init st) = true).
    { unfold effective_clockinit in Hci. rewrite Hi in Hci. exact Hci. }
    eexists. split; [apply setupclock_recalc; assumption|].
    cbn [cs_paging cs_scan pscan_region_sz des_page_scanners n_page_scanners].
    set (pg := setupclock_thresholds PAGESHIFT DISKRPM tn T spread
                 (effective_clockinit st)).
    pose proof (thresholds_derived tn T spread (effective_clockinit st)) as D.
    fold pg in D.
    destruct (thresholds_bounds tn T spread _ pg D HT63 Htn Hci Hsp)
      as (_ & _ & _ & _ & _ & (Hh0 & HhT & _)).
    destruct (region_size_spec T (handspreadpages pg)) as (Esz & Hsz & _);
      [lia | lia |].
    rewrite <- Esz.
    set (sz := region_size PAGESHIFT T (handspreadpages pg)) in *.
    assert (Hceil : 1 <= ceil_div T sz).
    { unfold ceil_div. apply Z.div_le_lower_bound; lia. }
    unfold cap_scanners, MAX_PSCAN_THREADS.
    destruct (ceil_div T sz >? 16) eqn:E; repeat split; lia.
  - eexists. split; [apply setupclock_boot; [assumption | lia]|].
    cbn. repeat split; reflexivity.
Qed.

End ClockFacts.

(** ** The threshold calculator on 4 KiB pages *)

Lemma legal_platform_12 : legal_platform 12.
Proof. unfold legal_platform. lia. Qed.

(** C1 at boot on 1 GiB of 4 KiB pages, the spec's scenario S1. *)
Lemma setupclock_threshold_chain_witness :
  exists st',
    setupclock 12 60 default_tunables 262144 0 0 clockstate0 = Done st' /\
    let pg := cs_paging st' in
    (pageout_reserve pg <= throttlefree pg <= desfree pg /\
     minfree pg <= desfree pg <= lotsfree pg) /\
    (ci_throttlefree (cs_init st') = 0 -> throttlefree pg <= minfree pg) /\
    (lotsfree_min pg <= 262144 -> lotsfree pg <= 262144) /\
    slowscan pg <= fastscan pg / 2 /\
    1 <= handspreadpages pg < 262144 /\
    min_pageout_nsec_of default_tunables <=
    max_pageout_nsec_of default_tunables.
Proof.
  apply (setupclock_threshold_chain 12 60 legal_platform_12).
  - unfold legal_pages. lia.
  - lia.
  - reflexivity.
  - reflexivity.
  - lia.
  - vm_compute. discriminate.
Defined.

(** The chain of C1 is broken on a machine below the 16 MiB floor of
    [lotsfree], by an operator's [throttlefree] between [minfree] and
    [desfree], and, for [handspreadpages], on a single page. *)
Lemma setupclock_chain_broken :
  (exists st',
     setupclock 12 60 default_tunables 1000 0 0 clockstate0 = Done st' /\
     lotsfree (cs_paging st') = 4096 /\
     ~ lotsfree (cs_paging st') <= 1000) /\
  (exists st',
     setupclock 12 60 default_tunables 262144 0 0 (patched 0 2000 0)
       = Done st' /\
     throttlefree (cs_paging st') = 2000 /\ minfree (cs_paging st') = 1536 /\
     ~ throttlefree (cs_paging st') <= minfree (cs_paging st')) /\
  (exists st',
     setupclock 12 60 default_tunables 1 0 0 clockstate0 = Done st' /\
     handspreadpages (cs_paging st') = 0 /\
     ~ 1 <= handspreadpages (cs_paging st')).
Proof.
  repeat split; eexists; (split; [vm_compute; reflexivity|]); cbn;
    repeat split; lia.
Qed.

(** C2 for an operator who set [desfree] to 1000 pages: the value is kept
    by the first call and by the call that follows the sampling. *)
Lemma setupclock_honours_overrides_witness :
  exists st',
    setupclock_run 12 60 default_tunables
      ([(262144, 0, 0%nat)] ++ [(262144, 200000, 1%nat)]) (patched 1000 0 0)
      = Done st' /\
    cs_init st' = clockinit_snapshot (cs_paging (patched 1000 0 0)) /\
    desfree (cs_paging st') = 1000 /\
    fastscan (cs_paging st') = 131072.
Proof.
  eexists. split; [vm_compute; reflexivity|].
  match goal with
  | |- cs_init ?s' = _ /\ _ =>
      pose proof (setupclock_honours_overrides 12 60 default_tunables
                    [(262144, 0, 0%nat)] 262144 200000 1%nat
                    (patched 1000 0 0) s' eq_refl eq_refl) as H
  end.
  destruct H as (Hsnap & Hov).
  split; [exact Hsnap|].
  destruct Hov as ((_ & _ & _ & (Hdes & _) & _) & _ & (Hfast & _)).
  split.
  - apply Hdes; vm_compute; [discriminate | reflexivity].
  - destruct Hfast as (_ & _ & Hdflt). rewrite Hdflt by reflexivity.
    vm_compute. reflexivity.
Defined.

(** C2 fails for [fastscan]: an operator value of 200000 pages, above the
    cap of half the memory, gives the cap, 131072, where the default is
    16384. *)
Lemma fastscan_override_not_default :
  exists st' st0,
    setupclock 12 60 default_tunables 262144 0 0 (patched 0 0 200000)
      = Done st' /\
    setupclock 12 60 default_tunables 262144 0 0 (patched 0 0 0)
      = Done st0 /\
    262144 / 2 <= 200000 /\
    fastscan (cs_paging st0) = 16384 /\
    fastscan (cs_paging st') = 131072 /\
    fastscan (cs_paging st') <> fastscan (cs_paging st0).
Proof.
  do 2 eexists.
  split; [vm_compute; reflexivity|].
  split; [vm_compute; reflexivity|].
  vm_compute. repeat split; try reflexivity; discriminate.
Qed.

(** C6 on 256 GiB of 4 KiB pages: four regions of 64 GiB. *)
Lemma setupclock_scanner_sizing_witness :
  exists st',
    setupclock 12 60 default_tunables 67108864 0 4 (recalculating 0)
      = Done st' /\
    let hsp := handspreadpages (cs_paging st') in
    let S := btop 12 (64 * 1073741824) in
    let sc := cs_scan st' in
    if ci_init (cs_init (recalculating 0)) then
      let sz := Z.min (if S <? hsp then 2 * hsp else S) 67108864 in
      pscan_region_sz sc = sz /\
      des_page_scanners sc =
        Z.max 1 (Z.min (ceil_div 67108864 sz) MAX_PSCAN_THREADS) /\
      1 <= des_page_scanners sc <= MAX_PSCAN_THREADS /\
      n_page_scanners sc = n_page_scanners (cs_scan (recalculating 0))
    else
      des_page_scanners sc = 1 /\ n_page_scanners sc = 1 /\
      pscan_region_sz sc = 67108864.
Proof.
  apply (setupclock_scanner_sizing 12 60 legal_platform_12).
  - unfold legal_pages. lia.
  - lia.
  - reflexivity.
  - reflexivity.
  - lia.
  - vm_compute. discriminate.
Defined.

(** C6 fails when [handspreadpages] lies between 32 GiB and 64 GiB in
    pages: the code keeps the 64 GiB region where the spec's maximum takes
    twice [handspreadpages]. *)
Lemma scanner_region_not_maximum :
  exists st',
    setupclock 12 60 default_tunables 100000000 0 8 (recalculating 10000000)
      = Done st' /\
    handspreadpages (cs_paging st') = 10000000 /\
    pscan_region_sz (cs_scan st') = 16777216 /\
    spec_region_size 12 100000000 (handspreadpages (cs_paging st'))
      = 20000000 /\
    des_page_scanners (cs_scan st') = 6 /\
    Z.max 1 (Z.min (ceil_div 100000000 20000000) MAX_PSCAN_THREADS) = 5.
Proof.
  eexists. split; [vm_compute; reflexivity|].
  vm_compute. repeat split; reflexivity.
Qed.

(** ** The scheduler *)

Lemma nz_spec (x : Z) : 0 <= x -> nz x = Z.max x 1.
Proof. intros H. unfold nz. destruct (x =? 0) eqn:E; lia. Qed.

Lemma pages_in_range_spec (inp : sched_input) (pg : paging) :
  pages_in_range inp pg = true ->
  0 <= freemem inp < 2 ^ 62 /\ 0 <= deficit inp < 2 ^ 62 /\
  0 <= needfree inp < 2 ^ 62 /\ 0 <= lotsfree pg < 2 ^ 62 /\
  0 <= slowscan pg /\ 0 <= fastscan pg /\
  Z.max (slowscan pg) (fastscan pg) * lotsfree pg < 2 ^ 63.
Proof.
  unfold pages_in_range.
  rewrite !andb_true_iff, !Z.leb_le, !Z.ltb_lt. lia.
Qed.

Lemma nsec_in_range_spec (pg : paging) (ss : schedstate) :
  nsec_in_range pg ss = true ->
  0 <= min_pageout_nsec ss <= max_pageout_nsec ss /\
  max_pageout_nsec ss < 2 ^ 63 /\
  lotsfree pg * (max_pageout_nsec ss - min_pageout_nsec ss) < 2 ^ 64.
Proof.
  unfold nsec_in_range.
  rewrite !andb_true_iff, !Z.leb_le, !Z.ltb_lt. lia.
Qed.

(** The code's [vavail] is the spec's clamp. *)
Lemma sched_vavail_spec (inp : sched_input) (cal : calibration)
    (pg : paging) :
  pages_in_range inp pg = true ->
  sched_vavail inp cal pg = spec_vavail inp cal pg /\
  0 <= sched_vavail inp cal pg <= lotsfree pg.
Proof.
  intros H. apply pages_in_range_spec in H.
  destruct H as (Hf & Hd & Hn & Hl & _).
  unfold sched_vavail, spec_vavail, clamp.
  rewrite (s64_id (freemem inp - deficit inp)) by lia.
  destruct (pageout_new_spread cal =? 0) eqn:Es; cbn [negb].
  - rewrite Z.sub_0_r.
    destruct (freemem inp - deficit inp <? 0) eqn:E1.
    + rewrite u64_id by lia.
      destruct (0 >? lotsfree pg) eqn:E2; [lia|]. lia.
    + rewrite u64_id by lia.
      destruct (freemem inp - deficit inp >? lotsfree pg) eqn:E2.
      * rewrite s64_id by lia. lia.
      * lia.
  - rewrite (s64_id (freemem inp - deficit inp - needfree inp)) by lia.
    destruct (freemem inp - deficit inp - needfree inp <? 0) eqn:E1.
    + rewrite u64_id by lia.
      destruct (0 >? lotsfree pg) eqn:E2; [lia|]. lia.
    + rewrite u64_id by lia.
      destruct (freemem inp - deficit inp - needfree inp >? lotsfree pg)
        eqn:E2.
      * rewrite s64_id by lia. lia.
      * lia.
Qed.

(** The code's interpolation is the spec's quotient. *)
Lemma sched_desscan_spec (inp : sched_input) (cal : calibration)
    (pg : paging) (vavail : Z) :
  pages_in_range inp pg = true ->
  0 <= vavail <= lotsfree pg ->
  (needfree inp >? 0) && (pageout_new_spread cal =? 0) = false ->
  sched_desscan inp cal pg vavail = spec_desscan pg vavail.
Proof.
  intros H Hv Hbr. apply pages_in_range_spec in H.
  destruct H as (Hf & Hd & Hn & Hl & Hs & Hfs & Hprod).
  unfold sched_desscan, spec_desscan. rewrite Hbr.
  assert (H1 : 0 <= slowscan pg * vavail <= slowscan pg * lotsfree pg)
    by nia.
  assert (H2 : 0 <= fastscan pg * (lotsfree pg - vavail)
               <= fastscan pg * lotsfree pg) by nia.
  assert (H3 : slowscan pg * vavail + fastscan pg * (lotsfree pg - vavail)
               <= Z.max (slowscan pg) (fastscan pg) * lotsfree pg) by nia.
  assert (H4 : slowscan pg * lotsfree pg < 2 ^ 63) by nia.
  assert (H5 : fastscan pg * lotsfree pg < 2 ^ 63) by nia.
  rewrite (s64_id (slowscan pg * vavail)) by lia.
  rewrite (s64_id (fastscan pg * (lotsfree pg - vavail))) by lia.
  rewrite (u64_id (_ + _)) by lia.
  rewrite nz_spec by lia. unfold SCHEDPAGING_HZ.
  set (q := (slowscan pg * vavail + fastscan pg * (lotsfree pg - vavail))
            / Z.max (lotsfree pg) 1 / 4).
  assert (Hq : 0 <= q < 2 ^ 63).
  { subst q. split.
    - apply Z.div_pos; [apply Z.div_pos|]; lia.
    - apply Z.div_lt_upper_bound; [lia|].
      apply Z.div_lt_upper_bound; [lia|]. nia. }
  rewrite s64_id by lia. apply u64_id. lia.
Qed.

(** ** The tick on every input *)

(** A signed 64-bit value is its argument up to a multiple of [2^64]. *)
Lemma s64_range (x : Z) : - 2 ^ 63 <= s64 x < 2 ^ 63.
Proof.
  unfold s64. pose proof (Z.mod_pos_bound (x + 2 ^ 63) (2 ^ 64)). lia.
Qed.

Lemma s64_wraps (x : Z) : exists k, s64 x = x + k * 2 ^ 64.
Proof.
  unfold s64. exists (- ((x + 2 ^ 63) / 2 ^ 64)).
  pose proof (Z.div_mod (x + 2 ^ 63) (2 ^ 64)). lia.
Qed.

Lemma s64_sub_l (a b : Z) : s64 (s64 a - b) = s64 (a - b).
Proof.
  destruct (s64_wraps a) as [k ->]. unfold s64.
  replace (a + k * 2 ^ 64 - b + 2 ^ 63) with (a - b + 2 ^ 63 + k * 2 ^ 64)
    by ring.
  rewrite Z_mod_plus_full. reflexivity.
Qed.

Lemma u64_s64_add (a b : Z) : u64 (s64 a + s64 b) = u64 (a + b).
Proof.
  destruct (s64_wraps a) as [k ->]. destruct (s64_wraps b) as [l ->].
  unfold u64.
  replace (a + k * 2 ^ 64 + (b + l * 2 ^ 64)) with (a + b + (k + l) * 2 ^ 64)
    by ring.
  apply Z_mod_plus_full.
Qed.

(** Wrapping a count never makes it larger. *)
Lemma u64_le (x : Z) : 0 <= x -> 0 <= u64 x <= x.
Proof.
  intros H. unfold u64. split.
  - apply Z.mod_pos_bound. lia.
  - apply Z.mod_le; lia.
Qed.

(** [vavail] lies between zero and [lotsfree] whatever the tick reads. *)
Lemma sched_vavail_range (inp : sched_input) (cal : calibration)
    (pg : paging) :
  0 <= lotsfree pg < 2 ^ 64 ->
  0 <= sched_vavail inp cal pg <= lotsfree pg.
Proof.
  intros Hl. unfold sched_vavail.
  set (w := if negb (pageout_new_spread cal =? 0)
            then s64 (s64 (freemem inp - deficit inp) - needfree inp)
            else s64 (freemem inp - deficit inp)).
  assert (Hw : - 2 ^ 63 <= w < 2 ^ 63).
  { subst w. destruct (negb (pageout_new_spread cal =? 0));
      apply s64_range. }
  destruct (w <? 0) eqn:E1.
  - rewrite u64_id by lia. destruct (0 >? lotsfree pg) eqn:E2; lia.
  - rewrite u64_id by lia.
    destruct (w >? lotsfree pg) eqn:E2; [|lia].
    rewrite s64_id by lia. lia.
Qed.

(** [vavail] is the spec's clamp when the difference fits 64 bits. *)
Lemma sched_vavail_exact (inp : sched_input) (cal : calibration)
    (pg : paging) :
  0 <= lotsfree pg < 2 ^ 64 ->
  - 2 ^ 63 <= freemem inp - deficit inp -
               (if pageout_new_spread cal =? 0 then 0 else needfree inp)
            < 2 ^ 63 ->
  sched_vavail inp cal pg = spec_vavail inp cal pg.
Proof.
  intros Hl Hx. unfold sched_vavail, spec_vavail, clamp.
  destruct (pageout_new_spread cal =? 0); cbn [negb] in *.
  - rewrite Z.sub_0_r in *.
    rewrite (s64_id (freemem inp - deficit inp)) by lia.
    destruct (freemem inp - deficit inp <? 0) eqn:E1.
    + rewrite u64_id by lia. destruct (0 >? lotsfree pg) eqn:E2; lia.
    + rewrite u64_id by lia.
      destruct (freemem inp - deficit inp >? lotsfree pg) eqn:E2;
        [|reflexivity].
      apply s64_id. lia.
  - rewrite s64_sub_l.
    rewrite (s64_id (freemem inp - deficit inp - needfree inp)) by lia.
    destruct (freemem inp - deficit inp - needfree inp <? 0) eqn:E1.
    + rewrite u64_id by lia. destruct (0 >? lotsfree pg) eqn:E2; lia.
    + rewrite u64_id by lia.
      destruct (freemem inp - deficit inp - needfree inp >? lotsfree pg)
        eqn:E2; [|reflexivity].
      apply s64_id. lia.
Qed.

(** The interpolation is the spec's quotient when its numerator fits. *)
Lemma sched_desscan_exact (inp : sched_input) (cal : calibration)
    (pg : paging) (v : Z) :
  0 <= lotsfree pg -> 0 <= slowscan pg -> 0 <= fastscan pg ->
  0 <= v <= lotsfree pg ->
  slowscan pg * v + fastscan pg * (lotsfree pg - v) < 2 ^ 64 ->
  (needfree inp >? 0) && (pageout_new_spread cal =? 0) = false ->
  sched_desscan inp cal pg v = spec_desscan pg v.
Proof.
  intros Hl Hs Hf Hv Hn Hbr.
  unfold sched_desscan, spec_desscan. rewrite Hbr. cbv zeta.
  rewrite u64_s64_add.
  assert (H0 : 0 <= slowscan pg * v + fastscan pg * (lotsfree pg - v))
    by nia.
  rewrite (u64_id (_ + _)) by lia.
  rewrite nz_spec by lia. unfold SCHEDPAGING_HZ.
  set (q := (slowscan pg * v + fastscan pg * (lotsfree pg - v))
            / Z.max (lotsfree pg) 1 / 4).
  assert (Hq : 0 <= q < 2 ^ 63).
  { subst q. split.
    - apply Z.div_pos; [apply Z.div_pos|]; lia.
    - apply Z.div_lt_upper_bound; [lia|].
      apply Z.div_lt_upper_bound; [lia|]. nia. }
  rewrite s64_id by lia. apply u64_id. lia.
Qed.

(** The budget first computed is at most a quarter of [fastscan], also
    when the products wrap. *)
Lemma sched_desscan_bound (inp : sched_input) (cal : calibration)
    (pg : paging) (v : Z) :
  0 <= lotsfree pg -> 0 <= slowscan pg <= fastscan pg ->
  0 <= v <= lotsfree pg ->
  0 <= sched_desscan inp cal pg v <= fastscan pg / SCHEDPAGING_HZ.
Proof.
  intros Hl Hs Hv. unfold sched_desscan, SCHEDPAGING_HZ.
  destruct ((needfree inp >? 0) && (pageout_new_spread cal =? 0)).
  - split; [apply Z.div_pos; lia | lia].
  - cbv zeta. rewrite u64_s64_add.
    set (n := slowscan pg * v + fastscan pg * (lotsfree pg - v)).
    assert (Hn : 0 <= n <= fastscan pg * Z.max (lotsfree pg) 1)
      by (subst n; nia).
    pose proof (u64_le n (proj1 Hn)) as Hu.
    pose proof (u64_range n) as Hr.
    rewrite nz_spec by lia.
    set (q := u64 n / Z.max (lotsfree pg) 1 / 4).
    assert (Hq : 0 <= q <= fastscan pg / 4 /\ q < 2 ^ 63).
    { subst q. split; [split|].
      - apply Z.div_pos; [apply Z.div_pos|]; lia.
      - apply Z.div_le_mono; [lia|].
        apply Z.div_le_upper_bound; lia.
      - apply Z.div_lt_upper_bound; [lia|].
        apply Z.div_lt_upper_bound; [lia|]. nia. }
    rewrite s64_id by lia. rewrite u64_id by lia. lia.
Qed.

(** The slice first computed lies between the two time bounds, also when
    the product wraps. *)
Lemma sched_nsec_bound (cal : calibration) (pg : paging) (ss : schedstate)
    (v : Z) :
  0 <= lotsfree pg < 2 ^ 64 ->
  0 <= min_pageout_nsec ss <= max_pageout_nsec ss ->
  max_pageout_nsec ss < 2 ^ 63 ->
  0 <= v <= lotsfree pg ->
  min_pageout_nsec ss <= sched_nsec cal pg ss v <= max_pageout_nsec ss.
Proof.
  intros Hl Hmm Hmax Hv. unfold sched_nsec.
  destruct (pageout_new_spread cal =? 0); [lia|].
  set (d := max_pageout_nsec ss - min_pageout_nsec ss) in *.
  rewrite (u64_id (lotsfree pg - v)) by lia.
  rewrite (u64_id d) by lia.
  assert (Hp : 0 <= (lotsfree pg - v) * d <= Z.max (lotsfree pg) 1 * d)
    by nia.
  pose proof (u64_le _ (proj1 Hp)) as Hu.
  rewrite nz_spec by lia.
  assert (Hq : 0 <= u64 ((lotsfree pg - v) * d) / Z.max (lotsfree pg) 1
               <= d).
  { split; [apply Z.div_pos; lia|].
    apply Z.div_le_upper_bound; lia. }
  rewrite s64_id by lia. lia.
Qed.

(** The tick returns unless it divides by a [handspreadpages] of zero,
    which it does only to resize the scanner pool. *)
Lemma schedpaging_returns (tn : tunables) (inp : sched_input)
    (cal : calibration) (pg : paging) (pl : pool) (ss : schedstate)
    (sc : scanners) :
  pageout_new_spread cal = 0 \/
  des_page_scanners sc = n_page_scanners sc \/
  handspreadpages pg <> 0 ->
  exists ss' sc' ev,
    schedpaging tn inp cal pg pl ss sc = Done (ss', sc', ev).
Proof.
  intros H.
  assert (Hr : exists sc' ev, sched_resize inp cal pg sc = Done (sc', ev)).
  { unfold sched_resize.
    destruct (negb (pageout_new_spread cal =? 0) &&
              negb (des_page_scanners sc =? n_page_scanners sc)) eqn:Eg;
      [| do 2 eexists; reflexivity].
    apply andb_true_iff in Eg. destruct Eg as [E1 E2].
    apply negb_true_iff in E1, E2. apply Z.eqb_neq in E1, E2.
    destruct H as [H | [H | H]]; [contradiction | contradiction |].
    apply Z.eqb_neq in H. rewrite H. do 2 eexists. reflexivity. }
  destruct Hr as (sc' & ev & Hr).
  unfold schedpaging. rewrite Hr.
  destruct ((freemem inp <? u64 (lotsfree pg + needfree inp)) ||
            PAGE_SCAN_STARTUP tn cal);
    [| destruct (zone_num_over_cap inp >? 0)];
    do 3 eexists; reflexivity.
Qed.

(** What a tick that returns publishes, by the branch it takes. *)
Lemma schedpaging_published (tn : tunables) (inp : sched_input)
    (cal : calibration) (pg : paging) (pl : pool) (ss ss' : schedstate)
    (sc sc' : scanners) (ev : list sched_event) :
  schedpaging tn inp cal pg pl ss sc = Done (ss', sc', ev) ->
  min_pageout_nsec ss' = min_pageout_nsec ss /\
  max_pageout_nsec ss' = max_pageout_nsec ss /\
  if zone_scan tn inp cal pg then
    desscan ss' = total_pages inp /\
    pageout_nsec ss' =
      (if zone_pageout_nsec tn =? 0 then max_pageout_nsec ss
       else zone_pageout_nsec tn)
  else
    desscan ss' = sched_desscan inp cal pg (sched_vavail inp cal pg) /\
    pageout_nsec ss' = sched_nsec cal pg ss (sched_vavail inp cal pg).
Proof.
  unfold schedpaging, zone_scan.
  destruct (sched_resize inp cal pg sc) as [[sc0 ev4] | |];
    try discriminate.
  destruct ((freemem inp <? u64 (lotsfree pg + needfree inp)) ||
            PAGE_SCAN_STARTUP tn cal); cbn [negb andb].
  - intros H. injection H as <- _ _. cbn. repeat split; reflexivity.
  - destruct (zone_num_over_cap inp >? 0).
    + intros H. injection H as <- _ _. cbn.
      destruct (zone_pageout_nsec tn =? 0); repeat split; reflexivity.
    + intros H. injection H as <- _ _. cbn. repeat split; reflexivity.
Qed.

(** C4, as the code has it.  With the calibration complete or [needfree]
    at zero, when the difference [freemem - deficit - needfree] fits a
    signed 64-bit integer and the numerator of the interpolation an
    unsigned one, the tick computes the spec's [vavail] and the spec's
    [desscan]; a tick that returns publishes that [desscan] unless it takes
    the branch for zones over their cap; and the tick returns unless it
    has to resize the scanner pool with [handspreadpages] at zero. *)
Theorem schedpaging_desscan_interpolated (tn : tunables) (inp : sched_input)
    (cal : calibration) (pg : paging) (pl : pool) (ss : schedstate)
    (sc : scanners) :
  pageout_new_spread cal <> 0 \/ needfree inp = 0 ->
  0 <= lotsfree pg < 2 ^ 64 -> 0 <= slowscan pg -> 0 <= fastscan pg ->
  - 2 ^ 63 <= freemem inp - deficit inp -
               (if pageout_new_spread cal =? 0 then 0 else needfree inp)
            < 2 ^ 63 ->
  slowscan pg * spec_vavail inp cal pg +
  fastscan pg * (lotsfree pg - spec_vavail inp cal pg) < 2 ^ 64 ->
  sched_vavail inp cal pg = spec_vavail inp cal pg /\
  sched_desscan inp cal pg (sched_vavail inp cal pg)
    = spec_desscan pg (spec_vavail inp cal pg) /\
  (forall ss' sc' ev,
     schedpaging tn inp cal pg pl ss sc = Done (ss', sc', ev) ->
     zone_scan tn inp cal pg = false ->
     desscan ss' = spec_desscan pg (spec_vavail inp cal pg)) /\
  (pageout_new_spread cal = 0 \/
   des_page_scanners sc = n_page_scanners sc \/
   handspreadpages pg <> 0 ->
   exists ss' sc' ev,
     schedpaging tn inp cal pg pl ss sc = Done (ss', sc', ev)).
Proof.
  intros Hc Hl Hs Hf Hx Hn.
  pose proof (sched_vavail_exact inp cal pg Hl Hx) as Ev.
  pose proof (sched_vavail_range inp cal pg Hl) as Hv.
  assert (Hbr : (needfree inp >? 0) && (pageout_new_spread cal =? 0) = false).
  { destruct Hc as [Hc | Hc].
    - apply Z.eqb_neq in Hc. rewrite Hc. apply andb_false_r.
    - rewrite Hc. reflexivity. }
  rewrite Ev in Hv.
  pose proof (sched_desscan_exact inp cal pg _ (proj1 Hl) Hs Hf Hv Hn Hbr)
    as Ed.
  split; [exact Ev|]. split; [rewrite Ev; exact Ed|]. split.
  - intros ss' sc' ev Hd Hz.
    destruct (schedpaging_published _ _ _ _ _ _ _ _ _ _ Hd) as (_ & _ & Hp).
    rewrite Hz in Hp. destruct Hp as [Hp _]. rewrite Hp, Ev. exact Ed.
  - apply schedpaging_returns.
Qed.

(** C5, as the code has it.  For every [freemem], [deficit] and
    [needfree], with [slowscan] not above [fastscan] and
    [min_pageout_nsec] not above [max_pageout_nsec], the [desscan] the
    tick first computes lies within [0, fastscan / 4] and the
    [pageout_nsec] within [min_pageout_nsec, max_pageout_nsec], wrapped
    products included.  A tick that returns publishes these two values,
    unless it takes the branch for zones over their cap: then [desscan]
    is [total_pages] and [pageout_nsec] is [zone_pageout_nsec], or
    [max_pageout_nsec] when that is zero.  The tick returns unless it has
    to resize the scanner pool with [handspreadpages] at zero. *)
Theorem schedpaging_budget_bounds (tn : tunables) (inp : sched_input)
    (cal : calibration) (pg : paging) (pl : pool) (ss : schedstate)
    (sc : scanners) :
  0 <= lotsfree pg < 2 ^ 64 ->
  0 <= slowscan pg <= fastscan pg ->
  0 <= min_pageout_nsec ss <= max_pageout_nsec ss ->
  max_pageout_nsec ss < 2 ^ 63 ->
  (0 <= sched_desscan inp cal pg (sched_vavail inp cal pg)
     <= fastscan pg / SCHEDPAGING_HZ /\
   min_pageout_nsec ss <= sched_nsec cal pg ss (sched_vavail inp cal pg)
     <= max_pageout_nsec ss) /\
  (forall ss' sc' ev,
     schedpaging tn inp cal pg pl ss sc = Done (ss', sc', ev) ->
     if zone_scan tn inp cal pg then
       desscan ss' = total_pages inp /\
       pageout_nsec ss' =
         (if zone_pageout_nsec tn =? 0 then max_pageout_nsec ss
          else zone_pageout_nsec tn)
     else
       0 <= desscan ss' <= fastscan pg / SCHEDPAGING_HZ /\
       min_pageout_nsec ss' <= pageout_nsec ss' <= max_pageout_nsec ss') /\
  (pageout_new_spread cal = 0 \/
   des_page_scanners sc = n_page_scanners sc \/
   handspreadpages pg <> 0 ->
   exists ss' sc' ev,
     schedpaging tn inp cal pg pl ss sc = Done (ss', sc', ev)).
Proof.
  intros Hl Hsf Hmm Hmax.
  pose proof (sched_vavail_range inp cal pg Hl) as Hv.
  pose proof (sched_desscan_bound inp cal pg _ (proj1 Hl) Hsf Hv) as Hd.
  pose proof (sched_nsec_bound cal pg ss _ Hl Hmm Hmax Hv) as Hn.
  split; [split; [exact Hd | exact Hn]|]. split.
  - intros ss' sc' ev Hs.
    destruct (schedpaging_published _ _ _ _ _ _ _ _ _ _ Hs)
      as (Emin & Emax & Hp).
    destruct (zone_scan tn inp cal pg); [exact Hp|].
    destruct Hp as [Ed En]. rewrite Ed, En, Emin, Emax.
    split; [exact Hd | exact Hn].
  - apply schedpaging_returns.
Qed.

(** C4 on the spec's scenario S3: [vavail] is 2000 and [desscan] 687. *)
Lemma schedpaging_desscan_interpolated_witness :
  sched_vavail (s3_input 2000 0) calibrated s3_paging = 2000 /\
  sched_desscan (s3_input 2000 0) calibrated s3_paging 2000 = 687 /\
  exists ss' sc' ev,
    schedpaging default_tunables (s3_input 2000 0) calibrated s3_paging
      (pageout_init async_list_size) s3_sched one_scanner
      = Done (ss', sc', ev) /\
    desscan ss' = 687.
Proof.
  destruct (schedpaging_desscan_interpolated default_tunables
              (s3_input 2000 0) calibrated s3_paging
              (pageout_init async_list_size) s3_sched one_scanner)
    as (Hv & Hd & Hp & Hr).
  - left. discriminate.
  - vm_compute. split; [discriminate | reflexivity].
  - vm_compute. discriminate.
  - vm_compute. discriminate.
  - vm_compute. split; [discriminate | reflexivity].
  - reflexivity.
  - split; [exact Hv|]. rewrite Hv in Hd. split; [exact Hd|].
    destruct Hr as (ss' & sc' & ev & Hs).
    + right. left. reflexivity.
    + exists ss', sc', ev. split; [exact Hs|].
      apply (Hp ss' sc' ev Hs). reflexivity.
Defined.

(** C5 on the spec's scenario S3. *)
Lemma schedpaging_budget_bounds_witness :
  exists ss' sc' ev,
    schedpaging default_tunables (s3_input 2000 0) calibrated s3_paging
      (pageout_init async_list_size) s3_sched one_scanner
      = Done (ss', sc', ev) /\
    0 <= desscan ss' <= 1250 /\
    min_pageout_nsec ss' <= pageout_nsec ss' <= max_pageout_nsec ss'.
Proof.
  destruct (schedpaging_budget_bounds default_tunables
              (s3_input 2000 0) calibrated s3_paging
              (pageout_init async_list_size) s3_sched one_scanner)
    as (_ & Hp & Hr).
  - vm_compute. split; [discriminate | reflexivity].
  - vm_compute. split; discriminate.
  - vm_compute. split; discriminate.
  - reflexivity.
  - destruct Hr as (ss' & sc' & ev & Hs).
    + right. left. reflexivity.
    + exists ss', sc', ev. split; [exact Hs|]. exact (Hp ss' sc' ev Hs).
Defined.

(** C4 fails when the products wrap.  On a machine of [2^42] pages whose
    operator patched [lotsfree] to [2^40] pages and [fastscan] to [2^30],
    [setupclock] leaves a [slowscan] of 100; with 16000 pages free on the
    calibrated system [vavail] is the spec's 16000 and the numerator of
    the interpolation is above [2^64]: the tick publishes a [desscan] of
    4194300 where the formula gives 268435452. *)
Lemma schedpaging_desscan_wraps :
  (exists st',
     setupclock 12 7200 default_tunables (2 ^ 42) 0 0 huge_boot = Done st' /\
     cs_paging st' = huge_paging) /\
  pageout_new_spread calibrated <> 0 /\
  sched_vavail (huge_input 16000) calibrated huge_paging = 16000 /\
  spec_vavail (huge_input 16000) calibrated huge_paging = 16000 /\
  2 ^ 64 <= slowscan huge_paging * 16000 +
            fastscan huge_paging * (lotsfree huge_paging - 16000) /\
  spec_desscan huge_paging 16000 = 268435452 /\
  sched_desscan (huge_input 16000) calibrated huge_paging 16000 = 4194300 /\
  zone_scan default_tunables (huge_input 16000) calibrated huge_paging
    = false /\
  exists ss' sc' ev,
    schedpaging default_tunables (huge_input 16000) calibrated huge_paging
      (pageout_init async_list_size) s3_sched one_scanner
      = Done (ss', sc', ev) /\
    desscan ss' = 4194300 /\
    desscan ss' <>
      spec_desscan huge_paging
        (spec_vavail (huge_input 16000) calibrated huge_paging).
Proof.
  split.
  { eexists. split; [vm_compute; reflexivity | reflexivity]. }
  split; [discriminate|].
  do 2 (split; [reflexivity|]).
  split; [vm_compute; discriminate|].
  do 3 (split; [reflexivity|]).
  do 3 eexists. split; [vm_compute; reflexivity|].
  split; [reflexivity | vm_compute; discriminate].
Qed.

(** C5 fails with memory above [lotsfree] and a zone over its cap, the
    spec's scenario S4: the tick publishes [total_pages], far above
    [fastscan / 4]. *)
Lemma schedpaging_zone_scan_unbounded :
  exists ss' sc' ev,
    schedpaging default_tunables (s3_input 5000 1) calibrated s3_paging
      (pageout_init async_list_size) s3_sched one_scanner
      = Done (ss', sc', ev) /\
    desscan ss' = 262144 /\
    fastscan s3_paging / SCHEDPAGING_HZ = 1250 /\
    ~ desscan ss' <= fastscan s3_paging / SCHEDPAGING_HZ.
Proof.
  do 3 eexists. split; [vm_compute; reflexivity|].
  vm_compute. repeat split; try reflexivity. intros H. apply H. reflexivity.
Qed.

(** ** The request pool *)

Lemma queue_io_request_cases (PAGESHIFT : Z) (vp : vnode) (off : Z)
    (pl : pool) :
  (req_freelist pl = [] /\
   queue_io_request PAGESHIFT vp off pl = (0, pl, [])) \/
  (exists slot rest,
     req_freelist pl = slot :: rest /\
     queue_io_request PAGESHIFT vp off pl =
       (1,
        mkPool rest
          (mkReq (Some vp) off (PAGESIZE PAGESHIFT) [B_ASYNC; B_FREE]
             (Some kcred) :: push_list pl)
          (pageout_pushing pl) (pageout_pushcount pl) (pushes pl)
          (u64 (push_list_size pl + 1)),
        match rest with [] => [EvSignalPush] | _ => [] end)).
Proof.
  unfold queue_io_request.
  destruct (req_freelist pl) as [| slot rest].
  - left. split; reflexivity.
  - right. exists slot, rest. split; reflexivity.
Qed.

Lemma pool_balanced_init (n : Z) :
  0 <= n -> pool_balanced n (mkPusher (pageout_init n) None).
Proof.
  intros H. unfold pool_balanced, pageout_init, in_flight. simpl.
  rewrite repeat_length. split; [lia | reflexivity].
Qed.

Lemma pool_balanced_step (PAGESHIFT max_pushes n : Z) (s s' : pusher) :
  pool_balanced n s -> pool_step PAGESHIFT max_pushes s s' ->
  pool_balanced n s'.
Proof.
  intros [Hsum Harg] Hstep.
  destruct Hstep as [pl a vp off | pl Hw | pl pl' arg Ht | pl arg rv];
    unfold pool_balanced, in_flight in *;
    cbn [pu_pool pu_arg is_some] in *.
  - destruct (queue_io_request_cases PAGESHIFT vp off pl)
      as [[_ ->] | (slot & rest & Hf & ->)]; cbn [fst snd].
    + split; assumption.
    + rewrite Hf in Hsum.
      cbn [push_list req_freelist pageout_pushing length] in *.
      split; [lia | assumption].
  - unfold pageout_wakeup.
    cbn [push_list req_freelist pageout_pushing]. split; assumption.
  - unfold pageout_take in Ht.
    destruct (push_list pl) as [| a rest] eqn:Hp; [discriminate|].
    destruct (pushes pl >? max_pushes); [discriminate|].
    injection Ht as <- <-.
    cbn [push_list req_freelist pageout_pushing length] in *.
    rewrite Harg in Hsum. split; [lia | reflexivity].
  - rewrite Harg in Hsum. unfold pageout_done.
    cbn [push_list req_freelist pageout_pushing length] in *.
    split; [lia | reflexivity].
Qed.

Lemma pool_reachable_balanced (PAGESHIFT max_pushes n : Z) (s : pusher) :
  0 <= n -> pool_reachable PAGESHIFT max_pushes n s -> pool_balanced n s.
Proof.
  intros Hn Hr. induction Hr as [| s s' _ IH Hstep].
  - apply pool_balanced_init. exact Hn.
  - eapply pool_balanced_step; eassumption.
Qed.

(** C7.  In every state the pool goes through with [push_lock] not held,
    the pending requests, the free requests and the request in flight (none
    or one) add up to [async_list_size], 256; the pending list is no longer
    than that; and every step on the lists, the enqueue of
    [queue_io_request], the dequeue of the pageout thread and its return of
    the request, leads to a state where the same holds. *)
Theorem pool_conservation (PAGESHIFT max_pushes : Z) (s : pusher) :
  pool_reachable PAGESHIFT max_pushes async_list_size s ->
  let total (s : pusher) :=
    Z.of_nat (length (push_list (pu_pool s)))
    + Z.of_nat (length (req_freelist (pu_pool s)))
    + in_flight (pu_pool s) in
  total s = 256 /\
  0 <= in_flight (pu_pool s) <= 1 /\
  Z.of_nat (length (push_list (pu_pool s))) <= async_list_size /\
  forall s', pool_step PAGESHIFT max_pushes s s' -> total s' = 256.
Proof.
  intros Hr total.
  assert (Hn : 0 <= async_list_size) by (unfold async_list_size; lia).
  pose proof (pool_reachable_balanced _ _ _ _ Hn Hr) as [Hsum _].
  change async_list_size with 256 in *.
  assert (Hfl : 0 <= in_flight (pu_pool s) <= 1)
    by (unfold in_flight; destruct (pageout_pushing (pu_pool s)); lia).
  subst total. cbv beta.
  repeat split; try lia.
  intros s' Hstep.
  assert (Hr' : pool_reachable PAGESHIFT max_pushes 256 s')
    by (eapply reach_step; eassumption).
  apply (pool_reachable_balanced _ _ _ _ Hn) in Hr'.
  destruct Hr' as [Hsum' _]. exact Hsum'.
Qed.

(** C7 after one request was queued on the fresh pool. *)
Lemma pool_conservation_witness :
  let s := mkPusher
             (snd (fst (queue_io_request 12 test_vnode 0
                          (pageout_init async_list_size)))) None in
  let total (s : pusher) :=
    Z.of_nat (length (push_list (pu_pool s)))
    + Z.of_nat (length (req_freelist (pu_pool s)))
    + in_flight (pu_pool s) in
  total s = 256 /\
  0 <= in_flight (pu_pool s) <= 1 /\
  Z.of_nat (length (push_list (pu_pool s))) <= async_list_size /\
  forall s', pool_step 12 10 s s' -> total s' = 256.
Proof.
  apply (pool_conservation 12 10).
  eapply reach_step; [apply reach_init | apply step_queue].
Defined.


(** ** The deadman *)

Lemma deadman_panic_iff (panicstr : bool) (seconds freemem : Z) (pl : pool)
    (d : deadman) :
  (exists s f, pageout_deadman panicstr seconds freemem pl d = Panic s f) <->
  panicstr = false /\ seconds <> 0 /\ pageout_pushing pl = true /\
  pageout_pushcount pl = pageout_pushcount_seen d /\
  seconds <= u32 (pageout_stucktime d + 1).
Proof.
  unfold pageout_deadman.
  destruct panicstr.
  { split; [intros (s & f & H); discriminate | intros [H _]; discriminate]. }
  destruct (seconds =? 0) eqn:Es.
  { apply Z.eqb_eq in Es.
    split; [intros (s & f & H); discriminate | intros (_ & H & _); lia]. }
  apply Z.eqb_neq in Es.
  destruct (pageout_pushing pl); cbn [negb].
  2:{ split; [intros (s & f & H); discriminate
             | intros (_ & _ & H & _); discriminate]. }
  destruct (pageout_pushcount pl =? pageout_pushcount_seen d) eqn:Ec;
    cbn [negb].
  2:{ apply Z.eqb_neq in Ec.
      split; [intros (s & f & H); discriminate | intros (_ & _ & _ & H & _);
                                                 contradiction]. }
  apply Z.eqb_eq in Ec.
  destruct (u32 (pageout_stucktime d + 1) >=? seconds) eqn:Et.
  - split; [intros _; repeat split; try assumption; lia
           | intros _; do 2 eexists; reflexivity].
  - split; [intros (s & f & H); discriminate | intros (_ & _ & _ & _ & H); lia].
Qed.

Lemma deadman_quiet (panicstr : bool) (seconds freemem : Z) (pl : pool)
    (d : deadman) :
  pageout_pushing pl = false \/
  pageout_pushcount pl <> pageout_pushcount_seen d \/
  seconds = 0 \/ panicstr = true ->
  exists d',
    pageout_deadman panicstr seconds freemem pl d = Return d' /\
    (panicstr = true \/ seconds = 0 -> d' = d) /\
    (panicstr = false -> seconds <> 0 ->
     d' = mkDeadman 0 (pageout_pushcount pl)).
Proof.
  intros H. unfold pageout_deadman.
  destruct panicstr.
  { exists d. repeat split; try reflexivity. discriminate. }
  destruct (seconds =? 0) eqn:Es.
  { apply Z.eqb_eq in Es. exists d. repeat split; try reflexivity.
    intros _ Hs. contradiction. }
  apply Z.eqb_neq in Es.
  destruct (pageout_pushing pl) eqn:Ep; cbn [negb].
  2:{ eexists. split; [reflexivity|]. split; [|reflexivity].
      intros [Hx | Hx]; [discriminate | contradiction]. }
  destruct (pageout_pushcount pl =? pageout_pushcount_seen d) eqn:Ec;
    cbn [negb].
  2:{ eexists. split; [reflexivity|]. split; [|reflexivity].
      intros [Hx | Hx]; [discriminate | contradiction]. }
  apply Z.eqb_eq in Ec.
  destruct H as [H | [H | [H | H]]];
    [discriminate | contradiction | contradiction | discriminate].
Qed.

(** The state of the deadman is the streak of stuck checks and the count at
    the latest check; the run panics at the first check that brings the
    streak to [seconds]. *)
Lemma deadman_run_streak (seconds freemem : Z) :
  0 < seconds < 2 ^ 32 ->
  forall (obs : list observation) (t : nat) (c : Z) (k : nat),
    Z.of_nat t < seconds ->
    match deadman_run seconds freemem obs (mkDeadman (Z.of_nat t) c) k with
    | inr d =>
        d = mkDeadman (Z.of_nat (stuck_streak c obs t)) (last_count c obs) /\
        forall m, (m <= length obs)%nat ->
                  Z.of_nat (stuck_streak c (firstn m obs) t) < seconds
    | inl n =>
        exists m, n = (k + m)%nat /\ (1 <= m <= length obs)%nat /\
          Z.of_nat (stuck_streak c (firstn m obs) t) = seconds /\
          forall j, (j < m)%nat ->
                    Z.of_nat (stuck_streak c (firstn j obs) t) < seconds
    end.
Proof.
  intros Hs. induction obs as [| o rest IH]; intros t c k Ht.
  - simpl. split; [reflexivity|]. intros m Hm.
    destruct m; simpl; lia.
  - simpl. unfold pageout_deadman. cbn [pool_of pageout_pushing
      pageout_pushcount pageout_stucktime pageout_pushcount_seen].
    destruct (seconds =? 0) eqn:E0; [apply Z.eqb_eq in E0; lia|].
    destruct (ob_pushing o) eqn:Ep; cbn [negb andb].
    + destruct (ob_pushcount o =? c) eqn:Ec; cbn [negb].
      * apply Z.eqb_eq in Ec.
        rewrite u32_id by lia.
        destruct (Z.of_nat t + 1 >=? seconds) eqn:Eg.
        -- exists 1%nat. repeat split; try lia.
           ++ simpl. rewrite Ep. simpl. rewrite (proj2 (Z.eqb_eq _ _) Ec).
              simpl. lia.
           ++ intros j Hj. assert (j = 0%nat) by lia. subst j. simpl. lia.
        -- replace (Z.of_nat t + 1) with (Z.of_nat (S t)) by lia.
           rewrite <- Ec.
           specialize (IH (S t) (ob_pushcount o) (S k)).
           destruct (deadman_run seconds freemem rest
                       (mkDeadman (Z.of_nat (S t)) (ob_pushcount o)) (S k))
             as [n | d].
           ++ destruct IH as (m & Hn & Hm & Hst & Hlt); [lia|].
              exists (S m). repeat split; try lia.
              ** simpl. rewrite Ep, Z.eqb_refl. simpl. exact Hst.
              ** intros j Hj. destruct j; [simpl; lia|].
                 simpl. rewrite Ep, Z.eqb_refl. simpl. apply Hlt. lia.
           ++ destruct IH as [Hd Hlt]; [lia|]. split; [exact Hd|].
              intros m Hm. destruct m; [simpl; lia|].
              simpl. rewrite Ep, Z.eqb_refl. simpl. apply Hlt.
              simpl in Hm. lia.
      * specialize (IH 0%nat (ob_pushcount o) (S k)).
        change (Z.of_nat 0) with 0 in IH.
        destruct (deadman_run seconds freemem rest
                    (mkDeadman 0 (ob_pushcount o)) (S k)) as [n | d].
        -- destruct IH as (m & Hn & Hm & Hst & Hlt); [lia|].
           exists (S m). repeat split; try lia.
           ++ simpl. rewrite Ep, Ec. simpl. exact Hst.
           ++ intros j Hj. destruct j; [simpl; lia|].
              simpl. rewrite Ep, Ec. simpl. apply Hlt. lia.
        -- destruct IH as [Hd Hlt]; [lia|]. split; [exact Hd|].
           intros m Hm. destruct m; [simpl; lia|].
           simpl. rewrite Ep, Ec. simpl. apply Hlt. simpl in Hm. lia.
    + specialize (IH 0%nat (ob_pushcount o) (S k)).
      change (Z.of_nat 0) with 0 in IH.
      destruct (deadman_run seconds freemem rest
                  (mkDeadman 0 (ob_pushcount o)) (S k)) as [n | d].
      * destruct IH as (m & Hn & Hm & Hst & Hlt); [lia|].
        exists (S m). repeat split; try lia.
        -- simpl. rewrite Ep. simpl. exact Hst.
        -- intros j Hj. destruct j; [simpl; lia|].
           simpl. rewrite Ep. simpl. apply Hlt. lia.
      * destruct IH as [Hd Hlt]; [lia|]. split; [exact Hd|].
        intros m Hm. destruct m; [simpl; lia|].
        simpl. rewrite Ep. simpl. apply Hlt. simpl in Hm. lia.
Qed.

Lemma deadman_stuck_run (seconds freemem c : Z) :
  0 < seconds < 2 ^ 32 ->
  forall (k t j : nat),
    Z.of_nat t < seconds ->
    deadman_run seconds freemem (stuck_checks c k)
      (mkDeadman (Z.of_nat t) c) j =
    if Z.of_nat (t + k) <? seconds
    then inr (mkDeadman (Z.of_nat (t + k)) c)
    else inl (j + (Z.to_nat seconds - t))%nat.
Proof.
  intros Hs. unfold stuck_checks.
  induction k as [| k IH]; intros t j Ht.
  - simpl. rewrite Nat.add_0_r.
    destruct (Z.of_nat t <? seconds) eqn:E; [reflexivity | zbool; exfalso; lia].
  - simpl. unfold pageout_deadman. cbn [pool_of pageout_pushing
      pageout_pushcount pageout_stucktime pageout_pushcount_seen ob_pushing
      ob_pushcount negb].
    destruct (seconds =? 0) eqn:E0; [apply Z.eqb_eq in E0; lia|].
    rewrite Z.eqb_refl. cbn [negb]. rewrite u32_id by lia.
    destruct (Z.of_nat t + 1 >=? seconds) eqn:Eg.
    + destruct (Z.of_nat (t + S k) <? seconds) eqn:E;
        zbool; [exfalso; lia|].
      f_equal. lia.
    + zbool. replace (Z.of_nat t + 1) with (Z.of_nat (S t)) by lia.
      rewrite IH by lia.
      replace (S t + k)%nat with (t + S k)%nat by lia.
      destruct (Z.of_nat (t + S k) <? seconds) eqn:E; [reflexivity|].
      zbool. f_equal. lia.
Qed.

Lemma deadman_busy_run (seconds freemem c : Z) :
  seconds <> 0 ->
  forall (k i j : nat),
    deadman_run seconds freemem
      (map (fun i => mkObs true (c + Z.of_nat i)) (seq (S i) k))
      (mkDeadman 0 (c + Z.of_nat i)) j =
    inr (mkDeadman 0 (c + Z.of_nat (i + k))).
Proof.
  intros Hs. induction k as [| k IH]; intros i j.
  - simpl. rewrite Nat.add_0_r. reflexivity.
  - cbn [seq map deadman_run]. unfold pageout_deadman.
    cbn [pool_of pageout_pushing pageout_pushcount pageout_stucktime
         pageout_pushcount_seen ob_pushing ob_pushcount negb].
    apply Z.eqb_neq in Hs. rewrite Hs.
    destruct (c + Z.of_nat (S i) =? c + Z.of_nat i) eqn:E;
      [apply Z.eqb_eq in E; exfalso; lia|].
    cbn [negb]. rewrite IH. f_equal. f_equal. lia.
Qed.

(** C9.  One check panics exactly when the system is not panicking, the
    deadman is enabled, a push is in flight, [push_count] is the one seen at
    the check before and the streak of such checks reaches
    [pageout_deadman_seconds]; with no push in flight, a changed
    [push_count], zero seconds or a panic under way it returns, and in the
    first two cases, the deadman enabled and no panic under way, with the
    streak at zero and the snapshot renewed.  Over a run of checks, one a
    second from a synchronized start, the panic comes at the first check
    that makes [pageout_deadman_seconds] stuck checks in a row: at check
    number [pageout_deadman_seconds] for a push stuck from the start, the
    third for three seconds, and never while [push_count] moves from check
    to check. *)
Theorem pageout_deadman_trips :
  (forall panicstr seconds freemem pl d,
     (exists s f,
        pageout_deadman panicstr seconds freemem pl d = Panic s f) <->
     panicstr = false /\ seconds <> 0 /\ pageout_pushing pl = true /\
     pageout_pushcount pl = pageout_pushcount_seen d /\
     seconds <= u32 (pageout_stucktime d + 1)) /\
  (forall panicstr seconds freemem pl d,
     pageout_pushing pl = false \/
     pageout_pushcount pl <> pageout_pushcount_seen d \/
     seconds = 0 \/ panicstr = true ->
     exists d',
       pageout_deadman panicstr seconds freemem pl d = Return d' /\
       (panicstr = true \/ seconds = 0 -> d' = d) /\
       (panicstr = false -> seconds <> 0 ->
        d' = mkDeadman 0 (pageout_pushcount pl))) /\
  (forall seconds freemem c,
     0 < seconds < 2 ^ 32 ->
     (forall obs,
        match deadman_run seconds freemem obs (mkDeadman 0 c) 0 with
        | inl n =>
            (1 <= n <= length obs)%nat /\
            Z.of_nat (stuck_streak c (firstn n obs) 0) = seconds /\
            forall j, (j < n)%nat ->
                      Z.of_nat (stuck_streak c (firstn j obs) 0) < seconds
        | inr d =>
            d = mkDeadman (Z.of_nat (stuck_streak c obs 0))
                  (last_count c obs) /\
            forall m, (m <= length obs)%nat ->
                      Z.of_nat (stuck_streak c (firstn m obs) 0) < seconds
        end) /\
     (forall k,
        deadman_run seconds freemem (stuck_checks c k) (mkDeadman 0 c) 0 =
        if Z.of_nat k <? seconds then inr (mkDeadman (Z.of_nat k) c)
        else inl (Z.to_nat seconds)) /\
     (forall k,
        deadman_run seconds freemem (busy_checks c k) (mkDeadman 0 c) 0 =
        inr (mkDeadman 0 (c + Z.of_nat k)))) /\
  (forall freemem c,
     deadman_run 3 freemem (stuck_checks c 2) (mkDeadman 0 c) 0
       = inr (mkDeadman 2 c) /\
     deadman_run 3 freemem (stuck_checks c 3) (mkDeadman 0 c) 0 = inl 3%nat).
Proof.
  split; [exact deadman_panic_iff|].
  split; [exact deadman_quiet|].
  split.
  - intros seconds freemem c Hs. split; [|split].
    + intros obs.
      pose proof (deadman_run_streak seconds freemem Hs obs 0%nat c 0%nat)
        as H.
      change (Z.of_nat 0) with 0 in H.
      destruct (deadman_run seconds freemem obs (mkDeadman 0 c) 0)
        as [n | d].
      * destruct H as (m & Hn & Hm & Hst & Hlt); [lia|].
        simpl in Hn. subst n. repeat split; try lia; assumption.
      * apply H. lia.
    + intros k.
      pose proof (deadman_stuck_run seconds freemem c Hs k 0%nat 0%nat) as H.
      change (Z.of_nat 0) with 0 in H. rewrite H by lia. simpl.
      destruct (Z.of_nat k <? seconds) eqn:E; [reflexivity|].
      zbool. f_equal. lia.
    + intros k.
      pose proof (deadman_busy_run seconds freemem c ltac:(lia) k 0%nat
                    0%nat) as H.
      change (Z.of_nat 0) with 0 in H. rewrite Z.add_0_r in H.
      unfold busy_checks. rewrite H. reflexivity.
  - intros freemem c.
    pose proof (deadman_stuck_run 3 freemem c ltac:(lia)) as H.
    split.
    + specialize (H 2%nat 0%nat 0%nat). change (Z.of_nat 0) with 0 in H.
      rewrite H by lia. reflexivity.
    + specialize (H 3%nat 0%nat 0%nat). change (Z.of_nat 0) with 0 in H.
      rewrite H by lia. reflexivity.
Qed.

(** C9 for 90 seconds: a push stuck from the start trips the deadman at
    check 90, not at check 89, and a moving [push_count] never does. *)
Lemma pageout_deadman_trips_witness :
  deadman_run 90 1000 (stuck_checks 5 89) (mkDeadman 0 5) 0
    = inr (mkDeadman 89 5) /\
  deadman_run 90 1000 (stuck_checks 5 200) (mkDeadman 0 5) 0 = inl 90%nat /\
  deadman_run 90 1000 (busy_checks 5 200) (mkDeadman 0 5) 0
    = inr (mkDeadman 0 205) /\
  exists d',
    pageout_deadman false 90 1000 (pool_of (mkObs false 6))
      (mkDeadman 17 5) = Return d' /\
    d' = mkDeadman 0 6.
Proof.
  destruct pageout_deadman_trips as (_ & Hquiet & Hrun & _).
  destruct (Hrun 90 1000 5 ltac:(lia)) as (_ & Hstuck & Hbusy).
  split; [exact (Hstuck 89%nat)|].
  split; [exact (Hstuck 200%nat)|].
  split; [exact (Hbusy 200%nat)|].
  destruct (Hquiet false 90 1000 (pool_of (mkObs false 6)) (mkDeadman 17 5))
    as (d' & Hd & _ & Hreset).
  - left. reflexivity.
  - exists d'. split; [exact Hd|]. apply Hreset; [reflexivity | discriminate].
Defined.

(** ** The per-page decider *)

Lemma count_app (f : ckp_event -> bool) (a b : list ckp_event) :
  count f (a ++ b) = (count f a + count f b)%nat.
Proof. unfold count. rewrite filter_app, length_app. reflexivity. Qed.

Lemma count_none (f : ckp_event -> bool) (l : list ckp_event) :
  (forall e, In e l -> f e = false) -> count f l = 0%nat.
Proof.
  unfold count. induction l as [| e l IH]; intros H; [reflexivity|].
  simpl. rewrite (H e) by (left; reflexivity).
  apply IH. intros e' He'. apply H. right. exact He'.
Qed.

Lemma count_where (g f : ckp_event -> bool) (l : list ckp_event) :
  (forall e, g e = true -> f e = false) ->
  forallb g l = true -> count f l = 0%nat.
Proof.
  intros Hgf Hall. apply count_none. intros e He.
  apply Hgf. rewrite forallb_forall in Hall. apply Hall. exact He.
Qed.

Lemma count_pool_events (f : ckp_event -> bool) (evs : list pool_event) :
  (forall e, f (CkPool e) = false) -> count f (map CkPool evs) = 0%nat.
Proof.
  intros H. apply count_none. intros e He.
  apply in_map_iff in He. destruct He as (x & <- & _). apply H.
Qed.

Lemma continues_more (PAGESHIFT : Z) (hand : pageout_hand_t) (pl : pool)
    (tr0 pre : list ckp_event) (r : checkpage_result_t) (pl' : pool)
    (tr : list ckp_event) :
  forallb neutral pre = true ->
  continues PAGESHIFT hand pl (tr0 ++ pre) r pl' tr ->
  continues PAGESHIFT hand pl tr0 r pl' tr.
Proof.
  intros Hpre (mid & fin & -> & Hmid & Hend).
  exists (pre ++ mid), fin. repeat split.
  - rewrite <- !app_assoc. reflexivity.
  - rewrite forallb_app, Hpre, Hmid. reflexivity.
  - exact Hend.
Qed.

(** What the endings have in common. *)
Lemma ending_facts (PAGESHIFT : Z) (hand : pageout_hand_t) (pl pl' : pool)
    (r : checkpage_result_t) (fin : list ckp_event) :
  ckp_ending PAGESHIFT hand pl r pl' fin ->
  count is_locked_ok fin = 0%nat /\
  ((count is_unlock fin = 1%nat /\ count is_dispose fin = 0%nat) \/
   (count is_unlock fin = 0%nat /\ count is_dispose fin = 1%nat /\
    r = CKP_FREED)) /\
  (forall vp off rv,
     In (CkQueue vp off rv) fin ->
     fst (fst (queue_io_request PAGESHIFT vp off pl)) = rv /\
     count is_hold fin = 1%nat /\
     (rv = 0 ->
      r = CKP_NOT_FREED /\ count is_rele fin = 1%nat /\
      In (CkVnRele vp) fin /\ pl' = pl) /\
     (rv <> 0 ->
      r = CKP_FREED /\ count is_rele fin = 0%nat /\
      pl' = snd (fst (queue_io_request PAGESHIFT vp off pl)))).
Proof.
  intros H.
  destruct H as [Hh | Hh | | vp0 off0 Hq | vp0 off0 pl0 evs zid s Hq
                 | stats Hstats].
  - split; [reflexivity|]. split; [left; split; reflexivity|].
    intros vp off rv Hin. simpl in Hin.
    repeat (destruct Hin as [Hin | Hin]; [discriminate|]). contradiction.
  - split; [reflexivity|]. split; [left; split; reflexivity|].
    intros vp off rv Hin. simpl in Hin.
    repeat (destruct Hin as [Hin | Hin]; [discriminate|]). contradiction.
  - split; [reflexivity|]. split; [left; split; reflexivity|].
    intros vp off rv Hin. simpl in Hin.
    repeat (destruct Hin as [Hin | Hin]; [discriminate|]). contradiction.
  - split; [reflexivity|]. split; [left; split; reflexivity|].
    intros vp off rv Hin. simpl in Hin.
    destruct Hin as [Hin | [Hin | [Hin | [Hin | []]]]]; try discriminate.
    injection Hin as <- <- <-. rewrite Hq.
    split; [reflexivity|]. split; [reflexivity|]. split.
    + intros _. repeat split; try reflexivity. simpl. auto.
    + intros Hne. contradiction.
  - assert (Hc : forall f, (forall e, f (CkPool e) = false) ->
                  count f ([CkVnHold vp0; CkUnlock; CkQueue vp0 off0 1] ++
                           map CkPool evs ++ [CkZoneStat zid s]) =
                  count f [CkVnHold vp0; CkUnlock; CkQueue vp0 off0 1; 
                           CkZoneStat zid s]).
    { intros f Hf. rewrite !count_app, (count_pool_events f evs Hf).
      change [CkVnHold vp0; CkUnlock; CkQueue vp0 off0 1; CkZoneStat zid s]
        with ([CkVnHold vp0; CkUnlock; CkQueue vp0 off0 1] ++
              [CkZoneStat zid s]).
      rewrite count_app. lia. }
    rewrite !Hc by reflexivity.
    split; [reflexivity|]. split; [left; split; reflexivity|].
    intros vp off rv Hin.
    apply in_app_or in Hin. destruct Hin as [Hin | Hin].
    + simpl in Hin.
      destruct Hin as [Hin | [Hin | [Hin | []]]]; try discriminate.
      injection Hin as <- <- <-. rewrite Hq.
      split; [reflexivity|]. split; [reflexivity|]. split.
      * intros Hne. discriminate.
      * intros _. repeat split; reflexivity.
    + apply in_app_or in Hin. destruct Hin as [Hin | Hin].
      * apply in_map_iff in Hin. destruct Hin as (x & Hx & _). discriminate.
      * simpl in Hin. destruct Hin as [Hin | []]. discriminate.
  - assert (Hc : forall f, (forall e, is_stat e = true -> f e = false) ->
                  count f stats = 0%nat).
    { intros f Hf. apply (count_where is_stat); assumption. }
    change (CkDispose :: stats) with ([CkDispose] ++ stats).
    rewrite !count_app.
    rewrite (Hc is_locked_ok), (Hc is_unlock), (Hc is_dispose);
      try (intros [] He; try discriminate He; reflexivity).
    split; [reflexivity|]. split; [right; repeat split; reflexivity|].
    intros vp off rv Hin. exfalso.
    apply in_app_or in Hin. destruct Hin as [[Hin | []] | Hin];
      [discriminate|].
    rewrite forallb_forall in Hstats. apply Hstats in Hin. discriminate.
Qed.

Section CheckpageFacts.

Context {page : Type} {host : Host page}.
Variable PAGESHIFT : Z.

Lemma dirty_or_free_shape
    (recheck : Z -> page -> pool -> list ckp_event -> outcome ckp_return)
    (hand : pageout_hand_t) (isfs isexec : bool) (zid ppattr : Z)
    (pp : page) (pl : pool) (tr : list ckp_event)
    (r : checkpage_result_t) (pp' : page) (pl' : pool)
    (tr' : list ckp_event) :
  (forall a p t,
     recheck a p pl t = Done (r, pp', pl', tr') ->
     continues PAGESHIFT hand pl t r pl' tr') ->
  checkpage_dirty_or_free PAGESHIFT recheck hand isfs isexec zid ppattr pp
    pl tr = Done (r, pp', pl', tr') ->
  continues PAGESHIFT hand pl tr r pl' tr'.
Proof.
  intros IH. unfold checkpage_dirty_or_free.
  assert (Hfree :
    (let pp0 := hat_pageunload pp in
     let a := hat_page_getattr pp0 (Z.lor P_MOD P_REF) in
     let t := tr ++ [CkProbeFree hand; CkPageunload; CkGetattr a] in
     if has_attr a P_REF || (has_attr a P_MOD && is_some (p_vnode pp0))
     then recheck a pp0 pl t
     else Done (CKP_FREED, VN_DISPOSE pp0, pl,
                t ++ [CkDispose; CkCpuStat dfree] ++
                (if isfs then
                   [CkCpuStat (if isexec then execfree else fsfree);
                    CkZoneStat zid ZPO_FS]
                 else [CkCpuStat anonfree; CkZoneStat zid ZPO_ANON])))
    = Done (r, pp', pl', tr') ->
    continues PAGESHIFT hand pl tr r pl' tr').
  { cbv zeta.
    destruct (has_attr _ P_REF || (has_attr _ P_MOD && is_some _)).
    - intros H. apply IH in H.
      eapply continues_more; [|exact H]. reflexivity.
    - intros H. injection H as <- <- <- <-.
      eexists _, _. split; [rewrite <- app_assoc; reflexivity|].
      split; [reflexivity|].
      apply end_freed. destruct isfs; [destruct isexec|]; reflexivity. }
  destruct (has_attr ppattr P_MOD); [|exact Hfree].
  destruct (p_vnode pp) as [vp|]; [|exact Hfree].
  clear Hfree.
  destruct (queue_io_request_cases PAGESHIFT vp (p_offset pp) pl)
    as [[_ Hq] | (slot & rest & _ & Hq)]; rewrite Hq; cbn [Z.eqb].
  - intros H. injection H as <- <- <- <-.
    exists [], [CkVnHold vp; CkUnlock; CkQueue vp (p_offset pp) 0;
                CkVnRele vp].
    split; [simpl; rewrite <- app_assoc; reflexivity|].
    split; [reflexivity|]. apply end_queue_full. exact Hq.
  - intros H. injection H as <- <- <- <-.
    eexists [], _.
    split; [simpl; rewrite <- !app_assoc; reflexivity|].
    split; [reflexivity|]. eapply end_queued. exact Hq.
Qed.

Lemma recheck_shape (fuel : nat) :
  forall (hand : pageout_hand_t) (isfs isexec : bool) (zid ppattr : Z)
    (pp : page) (pl : pool) (tr : list ckp_event)
    (r : checkpage_result_t) (pp' : page) (pl' : pool)
    (tr' : list ckp_event),
    checkpage_recheck PAGESHIFT fuel hand isfs isexec zid ppattr pp pl tr
      = Done (r, pp', pl', tr') ->
    continues PAGESHIFT hand pl tr r pl' tr'.
Proof.
  induction fuel as [| fuel IH]; intros hand isfs isexec zid ppattr pp pl tr
    r pp' pl' tr'; [discriminate|].
  cbn [checkpage_recheck].
  destruct (has_attr ppattr P_REF).
  - destruct hand; intros H; injection H as <- <- <- <-.
    + exists [], [CkProbeIsref POH_FRONT; CkClrref; CkUnlock].
      split; [simpl; rewrite <- app_assoc; reflexivity|].
      split; [reflexivity|]. apply end_ref_front. reflexivity.
    + exists [], [CkProbeIsref POH_BACK; CkUnlock].
      split; [simpl; rewrite <- app_assoc; reflexivity|].
      split; [reflexivity|]. apply end_ref_back. reflexivity.
  - cbv zeta. destruct (negb (p_szc pp =? 0)).
    + destruct (page_try_demote_pages pp) as [ok pp1].
      destruct ok; cbn [negb].
      * intros H. apply dirty_or_free_shape in H.
        -- eapply continues_more; [|exact H]. reflexivity.
        -- intros a p t Hr. eapply IH. exact Hr.
      * intros H. injection H as <- <- <- <-.
        exists [], [CkDemote false; CkUnlock].
        split; [reflexivity|]. split; [reflexivity|].
        apply end_demote_failed.
    + intros H. apply dirty_or_free_shape in H; [exact H|].
      intros a p t Hr. eapply IH. exact Hr.
Qed.

(** The traces of [checkpage]: nothing, a lock that failed, a lock given
    back at once, or a lock, the attribute sync and a continuation. *)
Lemma checkpage_shape (fuel : nat) (zones : bool) (share : Z) (pp : page)
    (hand : pageout_hand_t) (pl : pool) (r : checkpage_result_t) (pp' : page)
    (pl' : pool) (tr : list ckp_event) :
  checkpage PAGESHIFT fuel zones share pp hand pl = Done (r, pp', pl', tr) ->
  (r = CKP_INELIGIBLE /\ pl' = pl /\
   (tr = [] \/ tr = [CkTrylock false] \/ tr = [CkTrylock true; CkUnlock])) \/
  (exists flags attrs,
     continues PAGESHIFT hand pl [CkTrylock true; CkPagesync flags attrs]
       r pl' tr).
Proof.
  unfold checkpage.
  destruct (_ || _ || _ || _ || _ || _).
  { intros H. injection H as <- <- <- <-. left. auto. }
  destruct (page_trylock pp) as [ok pp1]. destruct ok; cbn [negb].
  2:{ intros H. injection H as <- <- <- <-. left. auto. }
  destruct (PP_ISFREE pp1).
  { intros H. injection H as <- <- <- <-. left. auto. }
  destruct (_ || _).
  { intros H. injection H as <- <- <- <-. left. auto. }
  destruct (zones && _).
  { intros H. injection H as <- <- <- <-. left. auto. }
  cbv zeta.
  destruct (hat_pagesync pp1 _) as [ppattr pp2].
  intros H. apply recheck_shape in H. right. eauto.
Qed.

(** After a successful demotion and after an unload the page is small:
    then the second arrival at [recheck] is the last. *)
Lemma recheck_second_pass (fuel : nat) (hand : pageout_hand_t)
    (isfs isexec : bool) (zid ppattr : Z) (pp : page) (pl : pool)
    (tr : list ckp_event) :
  p_szc pp = 0 ->
  has_attr ppattr P_REF || (has_attr ppattr P_MOD && is_some (p_vnode pp))
    = true ->
  exists res,
    checkpage_recheck PAGESHIFT (S fuel) hand isfs isexec zid ppattr pp pl tr
      = Done res.
Proof.
  intros Hszc Hcond. cbn [checkpage_recheck].
  destruct (has_attr ppattr P_REF).
  - destruct hand; eexists; reflexivity.
  - cbv zeta. rewrite Hszc. cbn [Z.eqb negb].
    unfold checkpage_dirty_or_free.
    cbn [orb] in Hcond. apply andb_true_iff in Hcond.
    destruct Hcond as [Hmod Hvp]. rewrite Hmod.
    destruct (p_vnode pp) as [vp|]; [|discriminate].
    destruct (queue_io_request PAGESHIFT vp (p_offset pp) pl)
      as [[rv pl1] evs].
    destruct (rv =? 0); eexists; reflexivity.
Qed.

Lemma dirty_or_free_returns (fuel : nat) (hand : pageout_hand_t)
    (isfs isexec : bool) (zid ppattr : Z) (pp : page) (pl : pool)
    (tr : list ckp_event) :
  szc_stable -> p_szc pp = 0 ->
  exists res,
    checkpage_dirty_or_free PAGESHIFT
      (checkpage_recheck PAGESHIFT (S fuel) hand isfs isexec zid)
      hand isfs isexec zid ppattr pp pl tr = Done res.
Proof.
  intros [_ Hunload] Hszc. unfold checkpage_dirty_or_free.
  assert (Hfree : forall t,
    exists res,
      (let pp0 := hat_pageunload pp in
       let a := hat_page_getattr pp0 (Z.lor P_MOD P_REF) in
       let t := t ++ [CkProbeFree hand; CkPageunload; CkGetattr a] in
       if has_attr a P_REF || (has_attr a P_MOD && is_some (p_vnode pp0))
       then checkpage_recheck PAGESHIFT (S fuel) hand isfs isexec zid a pp0
              pl t
       else Done (CKP_FREED, VN_DISPOSE pp0, pl,
                  t ++ [CkDispose; CkCpuStat dfree] ++
                  (if isfs then
                     [CkCpuStat (if isexec then execfree else fsfree);
                      CkZoneStat zid ZPO_FS]
                   else [CkCpuStat anonfree; CkZoneStat zid ZPO_ANON])))
      = Done res).
  { intros t. cbv zeta.
    destruct (has_attr _ P_REF || (has_attr _ P_MOD && is_some _)) eqn:E.
    - apply recheck_second_pass; [apply Hunload; exact Hszc | exact E].
    - eexists; reflexivity. }
  destruct (has_attr ppattr P_MOD); [|apply Hfree].
  destruct (p_vnode pp) as [vp|]; [|apply Hfree].
  destruct (queue_io_request PAGESHIFT vp (p_offset pp) pl)
    as [[rv pl1] evs].
  destruct (rv =? 0); eexists; reflexivity.
Qed.

(** Two units of fuel are enough on a page whose size the demotion and
    the unload leave small. *)
Lemma checkpage_returns (fuel : nat) (zones : bool) (share : Z) (pp : page)
    (hand : pageout_hand_t) (pl : pool) :
  szc_stable -> (2 <= fuel)%nat ->
  exists res, checkpage PAGESHIFT fuel zones share pp hand pl = Done res.
Proof.
  intros Hst Hfuel. destruct fuel as [| [| fuel]]; try lia.
  unfold checkpage.
  destruct (_ || _ || _ || _ || _ || _); [eexists; reflexivity|].
  destruct (page_trylock pp) as [ok pp1]. destruct ok; cbn [negb];
    [|eexists; reflexivity].
  destruct (PP_ISFREE pp1); [eexists; reflexivity|].
  destruct (_ || _); [eexists; reflexivity|].
  destruct (zones && _); [eexists; reflexivity|].
  cbv zeta.
  destruct (hat_pagesync pp1 _) as [ppattr pp2].
  cbn [checkpage_recheck].
  destruct (has_attr ppattr P_REF); [destruct hand; eexists; reflexivity|].
  cbv zeta. destruct (p_szc pp2 =? 0) eqn:Eszc; cbn [negb].
  - apply dirty_or_free_returns; [exact Hst | apply Z.eqb_eq; exact Eszc].
  - destruct (page_try_demote_pages pp2) as [ok pp3] eqn:Ed.
    destruct ok; cbn [negb]; [|eexists; reflexivity].
    apply dirty_or_free_returns; [exact Hst|].
    destruct Hst as [Hdem _]. eapply Hdem. exact Ed.
Qed.

(** The part of C3 the code keeps: attributes with the reference bit at the
    label [recheck], straight from the sync or after an unload, end the
    call with [CKP_NOT_FREED]; the front hand clears the bit first, the back
    hand leaves it; the page is unlocked. *)
Lemma recheck_referenced (fuel : nat) (hand : pageout_hand_t)
    (isfs isexec : bool) (zid ppattr : Z) (pp : page) (pl : pool)
    (tr : list ckp_event) :
  has_attr ppattr P_REF = true ->
  checkpage_recheck PAGESHIFT (S fuel) hand isfs isexec zid ppattr pp pl tr =
  Done (CKP_NOT_FREED,
        page_unlock (match hand with
                     | POH_FRONT => hat_clrref pp
                     | POH_BACK => pp
                     end),
        pl,
        (tr ++ [CkProbeIsref hand]) ++
        match hand with
        | POH_FRONT => [CkClrref; CkUnlock]
        | POH_BACK => [CkUnlock]
        end).
Proof.
  intros H. cbn [checkpage_recheck]. rewrite H. destruct hand; reflexivity.
Qed.

Lemma checkpage_referenced_kept (fuel : nat) (zones : bool) (share : Z)
    (pp : page) (hand : pageout_hand_t) (pl : pool)
    (r : checkpage_result_t) (pp' : page) (pl' : pool)
    (tr rest : list ckp_event) (flags : list syncflag) (attrs : Z) :
  checkpage PAGESHIFT fuel zones share pp hand pl = Done (r, pp', pl', tr) ->
  tr = CkTrylock true :: CkPagesync flags attrs :: rest ->
  has_attr attrs P_REF = true ->
  r = CKP_NOT_FREED /\ pl' = pl /\
  rest = CkProbeIsref hand ::
         match hand with
         | POH_FRONT => [CkClrref; CkUnlock]
         | POH_BACK => [CkUnlock]
         end.
Proof.
  unfold checkpage.
  destruct (_ || _ || _ || _ || _ || _).
  { intros H. injection H as <- <- <- <-. discriminate. }
  destruct (page_trylock pp) as [ok pp1]. destruct ok; cbn [negb].
  2:{ intros H. injection H as <- <- <- <-. discriminate. }
  destruct (PP_ISFREE pp1).
  { intros H. injection H as <- <- <- <-. discriminate. }
  destruct (_ || _).
  { intros H. injection H as <- <- <- <-. discriminate. }
  destruct (zones && _).
  { intros H. injection H as <- <- <- <-. discriminate. }
  cbv zeta.
  destruct (hat_pagesync pp1 _) as [ppattr pp2].
  destruct fuel as [| fuel]; [discriminate|].
  intros H Htr Href.
  assert (Ea : ppattr = attrs).
  { apply recheck_shape in H. destruct H as (mid & fin & Ht & _).
    rewrite Htr in Ht. simpl in Ht. injection Ht as _ Ha _. congruence. }
  subst ppattr. rewrite (recheck_referenced _ _ _ _ _ _ _ _ _ Href) in H.
  injection H as <- <- <- <-.
  repeat split; try reflexivity.
  destruct hand; simpl in Htr; injection Htr as _ Hrest; symmetry;
    exact Hrest.
Qed.


(** C10.  In every trace of [checkpage] the page is locked at most once;
    a call that did not take the lock neither unlocks nor disposes; a call
    that took it gives it back exactly once before it returns, by
    [page_unlock], or by [VN_DISPOSE] on the way that ends in [CKP_FREED];
    no lock is held at the return, whatever the result.  On a page whose
    size the demotion and the unload leave small the call returns. *)
Theorem checkpage_lock_discipline :
  (forall fuel zones share pp hand pl r pp' pl' tr,
     checkpage PAGESHIFT fuel zones share pp hand pl
       = Done (r, pp', pl', tr) ->
     (count is_locked_ok tr <= 1)%nat /\
     (count is_locked_ok tr = 0%nat ->
      count is_unlock tr = 0%nat /\ count is_dispose tr = 0%nat /\
      r = CKP_INELIGIBLE) /\
     (count is_locked_ok tr = 1%nat ->
      (exists rest, tr = CkTrylock true :: rest) /\
      ((count is_unlock tr = 1%nat /\ count is_dispose tr = 0%nat) \/
       (count is_unlock tr = 0%nat /\ count is_dispose tr = 1%nat /\
        r = CKP_FREED))) /\
     locks_held tr = 0) /\
  (szc_stable ->
   forall fuel zones share pp hand pl,
     (2 <= fuel)%nat ->
     exists res, checkpage PAGESHIFT fuel zones share pp hand pl = Done res).
Proof.
  split.
  - intros fuel zones share pp hand pl r pp' pl' tr Hck.
    apply checkpage_shape in Hck.
    destruct Hck as [(-> & _ & [-> | [-> | ->]]) | Hck].
    + unfold locks_held. cbn. repeat split; try lia; discriminate.
    + unfold locks_held. cbn. repeat split; try lia; discriminate.
    + unfold locks_held. cbn. repeat split; try lia; try discriminate.
      eexists; reflexivity.
    + destruct Hck as (flags & attrs & mid & fin & -> & Hmid & Hend).
      destruct (ending_facts _ _ _ _ _ _ Hend) as (Hl & Hud & _).
      assert (Hc : forall f,
                 (forall fl a, f (CkPagesync fl a) = false) ->
                 (forall e, neutral e = true -> f e = false) ->
                 count f ([CkTrylock true; CkPagesync flags attrs] ++ mid
                          ++ fin) =
                 ((if f (CkTrylock true) then 1 else 0) + count f fin)%nat).
      { intros f F2 F3. rewrite !count_app.
        rewrite (count_where neutral f mid F3 Hmid).
        unfold count at 1. simpl. rewrite F2.
        destruct (f (CkTrylock true)); reflexivity. }
      unfold locks_held.
      rewrite (Hc is_locked_ok), (Hc is_unlock), (Hc is_dispose);
        try reflexivity;
        try (intros [] He; try discriminate He; try reflexivity;
             destruct ok; try discriminate He; reflexivity).
      cbn [is_locked_ok is_unlock is_dispose]. rewrite Hl.
      repeat split; try lia.
      * eexists; reflexivity.
      * destruct Hud as [[E1 E2] | (E1 & E2 & E3)];
          [left | right]; repeat split; try lia; assumption.
  - intros Hst fuel zones share pp hand pl Hfuel.
    apply checkpage_returns; assumption.
Qed.

End CheckpageFacts.

(** ** The decider on the test pages *)

Lemma test_host_szc_stable : szc_stable (page := test_page).
Proof.
  split.
  - intros pp pp'. cbn [page_try_demote_pages test_host].
    destruct (tp_demotable pp); [|discriminate].
    intros H. injection H as <-. unfold tp_unload.
    destruct (tp_hw pp); reflexivity.
  - intros pp H. cbn [hat_pageunload p_szc test_host] in *.
    unfold tp_unload. destruct (tp_hw pp); exact H.
Qed.

(** C3 at a large dirty page under the front hand: the sync finds no bit
    set, the demotion succeeds, the attributes read after it are 3, the
    reference and the modify bit, and the page is queued and the call
    returns [CKP_FREED]; the reference bit is not cleared. *)
Theorem checkpage_demotion_skips_recheck :
  exists pp' pl' tr,
    checkpage 12 2 false MIN_PO_SHARE large_dirty_page POH_FRONT
      (pageout_init async_list_size) = Done (CKP_FREED, pp', pl', tr) /\
    tr = [CkTrylock true; CkPagesync [HAT_SYNC_ZERORM] 0; CkDemote true;
          CkGetattr 3; CkVnHold test_vnode; CkUnlock;
          CkQueue test_vnode 4096 1; CkZoneStat (-1) ZPO_DIRTY] /\
    has_attr 3 (P_REF (page := test_page)) = true /\
    count is_clrref tr = 0%nat /\
    length (push_list pl') = 1%nat.
Proof.
  do 3 eexists. split; [vm_compute; reflexivity|].
  repeat split; reflexivity.
Qed.


(** C10 on a dirty page: the call returns with the lock given back. *)
Lemma checkpage_lock_discipline_witness :
  exists r pp' pl' tr,
    checkpage 12 2 false MIN_PO_SHARE dirty_page POH_FRONT
      (pageout_init async_list_size) = Done (r, pp', pl', tr) /\
    (count is_locked_ok tr <= 1)%nat /\ locks_held tr = 0.
Proof.
  destruct (checkpage_lock_discipline (page := test_page) 12)
    as [Hsafe Hlive].
  destruct (Hlive test_host_szc_stable 2%nat false MIN_PO_SHARE dirty_page
              POH_FRONT (pageout_init async_list_size) (le_n 2))
    as [[[[r pp'] pl'] tr] Hcall].
  destruct (Hsafe _ _ _ _ _ _ _ _ _ _ Hcall) as (Hone & _ & _ & Hheld).
  exists r, pp', pl', tr. repeat split; assumption.
Defined.
(** * Further properties *)

(** ** The threshold calculator *)

Section ClockMore.

Variable PAGESHIFT : Z.
Variable DISKRPM : Z.
Hypothesis Hplat : legal_platform PAGESHIFT.

(** Whatever call returns worked from the effective snapshot and left it
    in [clockinit]. *)
Lemma setupclock_done (tn : tunables) (T spread : Z) (fuel : nat)
    (st st' : clockstate) :
  setupclock PAGESHIFT DISKRPM tn T spread fuel st = Done st' ->
  lotsfree_fraction tn <> 0 /\
  cs_init st' = effective_clockinit st /\
  cs_paging st' =
    setupclock_thresholds PAGESHIFT DISKRPM tn T spread
      (effective_clockinit st) /\
  n_page_scanners (cs_scan st') =
    (if ci_init (cs_init st) then n_page_scanners (cs_scan st) else 1).
Proof.
  unfold setupclock, effective_clockinit.
  destruct (ci_init (cs_init st)) eqn:Ei; cbn [negb];
    destruct (lotsfree_fraction tn =? 0) eqn:Ef; try discriminate;
    apply Z.eqb_neq in Ef.
  - destruct (count_regions _ _ _ _ _); try discriminate.
    intros H. injection H as <-. repeat split; assumption.
  - intros H. injection H as <-. repeat split; assumption.
Qed.

Lemma btop_mega (c : Z) :
  PAGESHIFT <= 20 ->
  btop PAGESHIFT (c * MEGABYTES) = c * 2 ^ (20 - PAGESHIFT).
Proof.
  unfold legal_platform in Hplat. intros Hp. unfold btop.
  rewrite Z.shiftr_div_pow2 by lia.
  change MEGABYTES with (2 ^ 20).
  replace (2 ^ 20) with (2 ^ (20 - PAGESHIFT) * 2 ^ PAGESHIFT)
    by (rewrite <- Z.pow_add_r by lia; f_equal; lia).
  rewrite Z.mul_assoc. apply Z.div_mul.
  assert (0 < 2 ^ PAGESHIFT) by (apply Z.pow_pos_nonneg; lia). lia.
Qed.

(** X1.  The sizes promised by the block comment above the thresholds.
    When the operator set none of the seven memory thresholds and the
    style is the default one, a call that returns leaves [lotsfree]
    between the pages of 16 MiB and of 2 GiB, equal to
    [total_pages / lotsfree_fraction] when that lies in between, [desfree]
    at half of it and at least 8 MiB, [minfree] at least 6 MiB,
    [throttlefree] equal to [minfree], and [pageout_reserve] at least
    4 MiB: whatever the page count, also on a machine smaller than these
    floors. *)
Theorem setupclock_default_floors (tn : tunables) (T spread : Z)
    (fuel : nat) (st st' : clockstate) :
  PAGESHIFT <= 20 ->
  pageout_threshold_style tn <> 1 ->
  thresholds_unset (effective_clockinit st) = true ->
  setupclock PAGESHIFT DISKRPM tn T spread fuel st = Done st' ->
  let pg := cs_paging st' in
  btop PAGESHIFT (16 * MEGABYTES) <= lotsfree pg
    <= btop PAGESHIFT (2048 * MEGABYTES) /\
  (btop PAGESHIFT (16 * MEGABYTES) <= T / lotsfree_fraction tn
     <= btop PAGESHIFT (2048 * MEGABYTES) ->
   lotsfree pg = T / lotsfree_fraction tn) /\
  desfree pg = lotsfree pg / 2 /\
  btop PAGESHIFT (8 * MEGABYTES) <= desfree pg /\
  btop PAGESHIFT (6 * MEGABYTES) <= minfree pg /\
  throttlefree pg = minfree pg /\
  btop PAGESHIFT (4 * MEGABYTES) <= pageout_reserve pg.
Proof.
  intros Hp Hst Hun Hs pg.
  destruct (setupclock_done _ _ _ _ _ _ Hs) as (_ & _ & Epg & _).
  unfold thresholds_unset in Hun. rewrite !andb_true_iff in Hun.
  destruct Hun as ((((((U1 & U2) & U3) & U4) & U5) & U6) & U7).
  zbool.
  rewrite !btop_mega by lia.
  set (a := 2 ^ (20 - PAGESHIFT)).
  assert (Ha : 1 <= a <= 2 ^ 19).
  { unfold legal_platform in Hplat. subst a. split.
    - assert (0 < 2 ^ (20 - PAGESHIFT)) by (apply Z.pow_pos_nonneg; lia).
      lia.
    - apply Z.pow_le_mono_r; lia. }
  assert (Est : (pageout_threshold_style tn =? 1) = false)
    by (apply Z.eqb_neq; exact Hst).
  subst pg. rewrite Epg. unfold setupclock_thresholds.
  cbn [lotsfree desfree minfree throttlefree pageout_reserve].
  rewrite U1, U2, U3, U4, U5, U6, U7, Est.
  unfold tune. cbn [Z.eqb orb].
  unfold LOTSFREE_MIN_DEFAULT, LOTSFREE_MAX_DEFAULT.
  rewrite !btop_mega by lia. fold a.
  set (q := T / lotsfree_fraction tn).
  set (L := clamp q (16 * a) (2048 * a)).
  assert (HL : 16 * a <= L <= 2048 * a).
  { subst L.
    destruct (clamp_cases q (16 * a) (2048 * a))
      as [[_ ->] | [[_ [_ ->]] | [? ->]]]; lia. }
  assert (Hd : 8 * a <= L / 2 <= L).
  { split; [apply Z.div_le_lower_bound; lia|].
    apply Z.div_le_upper_bound; lia. }
  change (2 ^ 19) with 524288 in Ha.
  rewrite (u64_id (3 * (L / 2))) by lia.
  assert (Hm : 6 * a <= 3 * (L / 2) / 4 <= L).
  { split; [apply Z.div_le_lower_bound; lia|].
    apply Z.div_le_upper_bound; lia. }
  rewrite (u64_id (3 * (3 * (L / 2) / 4))) by lia.
  assert (Hr : 4 * a <= 3 * (3 * (L / 2) / 4) / 4)
    by (apply Z.div_le_lower_bound; lia).
  repeat split; try lia.
  intros Hq. subst L.
  destruct (clamp_cases q (16 * a) (2048 * a))
    as [[? ->] | [[? [? ->]] | [? ->]]]; lia.
Qed.

(** X2.  [setupclock] computes from the snapshot and never from the
    thresholds it wrote before: a call repeated on the state an earlier call
    left, with the same page count and the same spread, leaves the same
    snapshot and the same thresholds and touches neither [n_page_scanners]
    nor the reset flags; and when the earlier call was itself a
    recalculation, the repeated call returns and gives back the state it
    was given. *)
Theorem setupclock_idempotent (tn : tunables) (T spread : Z)
    (fuel fuel' : nat) (st st' : clockstate) :
  setupclock PAGESHIFT DISKRPM tn T spread fuel st = Done st' ->
  (forall st'',
     setupclock PAGESHIFT DISKRPM tn T spread fuel' st' = Done st'' ->
     cs_init st'' = cs_init st' /\ cs_paging st'' = cs_paging st' /\
     n_page_scanners (cs_scan st'') = n_page_scanners (cs_scan st') /\
     reset_hands (cs_scan st'') = reset_hands (cs_scan st')) /\
  (ci_init (cs_init st) = true ->
   setupclock PAGESHIFT DISKRPM tn T spread fuel st' = Done st').
Proof.
  intros Hs.
  destruct (setupclock_done _ _ _ _ _ _ Hs) as (Hf & Ei & Ep & _).
  assert (Einit : ci_init (cs_init st') = true)
    by (rewrite Ei; apply effective_clockinit_init).
  assert (Eeff : effective_clockinit st' = effective_clockinit st)
    by (apply effective_clockinit_sticky; exact Ei).
  split.
  - intros st'' Hs'.
    destruct (setupclock_done _ _ _ _ _ _ Hs') as (_ & Ei' & Ep' & En').
    rewrite Einit in En'. rewrite Eeff in Ei', Ep'.
    split; [congruence|]. split; [congruence|]. split; [exact En'|].
    revert Hs'. unfold setupclock. rewrite Einit. cbn [negb].
    destruct (lotsfree_fraction tn =? 0); [discriminate|].
    destruct (count_regions _ _ _ _ _); try discriminate.
    intros H. injection H as <-. reflexivity.
  - intros Hi. revert Hs. unfold setupclock. rewrite Hi, Einit. cbn [negb].
    destruct (lotsfree_fraction tn =? 0); [discriminate|].
    destruct (count_regions fuel _ _ _ _) as [i | |] eqn:Ec;
      try discriminate.
    intros H. injection H as <-.
    cbn [cs_init cs_paging cs_scan handspreadpages n_page_scanners
         reset_hands].
    rewrite Ec. reflexivity.
Qed.

(** X3.  Whatever the operator set, a call that returns leaves
    [fastscan] at no more than half of memory and [slowscan] at no more
    than a quarter.  When the operator set none of [maxfastscan],
    [fastscan] and [handspreadpages], a call with a measured spread
    installs it: [maxfastscan] is the spread, [fastscan] the smaller of
    the spread and half of memory, and the hands are [fastscan] pages
    apart. *)
Theorem setupclock_scan_rates (tn : tunables) (T spread : Z) (fuel : nat)
    (st st' : clockstate) :
  0 <= T < 2 ^ 63 ->
  tunables_wf tn = true ->
  clockinit_wf (effective_clockinit st) = true ->
  0 <= spread ->
  setupclock PAGESHIFT DISKRPM tn T spread fuel st = Done st' ->
  let pg := cs_paging st' in
  fastscan pg <= T / 2 /\ slowscan pg <= T / 4 /\
  (rates_unset (effective_clockinit st) = true -> spread <> 0 ->
   maxfastscan pg = spread /\ fastscan pg = Z.min (T / 2) spread /\
   (1 <= T -> handspreadpages pg = fastscan pg)).
Proof.
  intros HT Htn Hci Hsp Hs pg.
  destruct (setupclock_done _ _ _ _ _ _ Hs) as (_ & _ & Ep & _).
  pose proof (thresholds_derived PAGESHIFT DISKRPM tn T spread
                (effective_clockinit st)) as D.
  rewrite <- Ep in D. fold pg in D.
  destruct (thresholds_bounds PAGESHIFT DISKRPM Hplat tn T spread _ pg D HT
              Htn Hci Hsp)
    as (_ & _ & _ & (Hfs & _) & Hss & _).
  assert (Hq : fastscan pg / 2 <= T / 4).
  { replace (T / 4) with (T / 2 / 2)
      by (rewrite Z.div_div by lia; reflexivity).
    apply Z.div_le_mono; lia. }
  split; [lia|]. split; [lia|].
  intros Hun Hne.
  unfold rates_unset in Hun. rewrite !andb_true_iff in Hun.
  destruct Hun as ((U1 & U2) & U3).
  destruct D as (_ & _ & _ & _ & _ & _ & _ & _ & _ & Emfs & Efs & _ & Ehsp).
  rewrite U1 in Emfs. rewrite U2 in Efs. rewrite U3 in Ehsp.
  cbv zeta in Efs, Ehsp.
  apply Z.eqb_neq in Hne. rewrite Hne in Emfs. cbn [negb] in Emfs.
  assert (Efs' : fastscan pg = Z.min (T / 2) spread).
  { rewrite Efs, Emfs. unfold loopfraction. rewrite MIN_spec.
    destruct (Z.min (T / 2) spread >? T / 2) eqn:E; lia. }
  split; [exact Emfs|]. split; [exact Efs'|].
  intros H1. rewrite Ehsp.
  assert (T / 2 < T) by (apply Z.div_lt_upper_bound; lia).
  destruct (fastscan pg >=? T) eqn:E; lia.
Qed.

End ClockMore.

(** X1 on a machine of 1000 pages of 4 KiB, smaller than every floor. *)
Lemma setupclock_default_floors_witness :
  exists st',
    setupclock 12 7200 default_tunables 1000 0 0 clockstate0 = Done st' /\
    4096 <= lotsfree (cs_paging st') <= 524288 /\
    2048 <= desfree (cs_paging st') /\
    1536 <= minfree (cs_paging st') /\
    throttlefree (cs_paging st') = minfree (cs_paging st') /\
    1024 <= pageout_reserve (cs_paging st').
Proof.
  destruct (setupclock 12 7200 default_tunables 1000 0 0 clockstate0)
    as [st' | |] eqn:E; [| vm_compute in E; discriminate E ..].
  exists st'. split; [reflexivity|].
  pose proof (setupclock_default_floors 12 7200 legal_platform_12
                default_tunables 1000 0 0 clockstate0 st') as H.
  cbv zeta in H.
  specialize (H ltac:(lia) ltac:(discriminate) eq_refl E).
  change (btop 12 (16 * MEGABYTES)) with 4096 in H.
  change (btop 12 (2048 * MEGABYTES)) with 524288 in H.
  change (btop 12 (8 * MEGABYTES)) with 2048 in H.
  change (btop 12 (6 * MEGABYTES)) with 1536 in H.
  change (btop 12 (4 * MEGABYTES)) with 1024 in H.
  destruct H as (H1 & _ & H3 & H4 & H5 & H6 & H7).
  repeat split; try assumption; lia.
Defined.

(** X2 on a kernel past its first call, 4 GiB of 4 KiB pages. *)
Lemma setupclock_idempotent_witness :
  exists st',
    setupclock 12 7200 default_tunables 1048576 200000 1 (recalculating 0)
      = Done st' /\
    setupclock 12 7200 default_tunables 1048576 200000 1 st' = Done st'.
Proof.
  destruct (setupclock 12 7200 default_tunables 1048576 200000 1
              (recalculating 0))
    as [st' | |] eqn:E; [| vm_compute in E; discriminate E ..].
  exists st'. split; [reflexivity|].
  apply (setupclock_idempotent 12 7200 default_tunables 1048576 200000 1 1
           (recalculating 0) st' E). reflexivity.
Defined.

(** X3 on the same kernel: the measured 200000 pages become the rate. *)
Lemma setupclock_scan_rates_witness :
  exists st',
    setupclock 12 7200 default_tunables 1048576 200000 1 (recalculating 0)
      = Done st' /\
    fastscan (cs_paging st') = 200000 /\
    handspreadpages (cs_paging st') = 200000 /\
    slowscan (cs_paging st') <= 262144.
Proof.
  destruct (setupclock 12 7200 default_tunables 1048576 200000 1
              (recalculating 0))
    as [st' | |] eqn:E; [| vm_compute in E; discriminate E ..].
  exists st'. split; [reflexivity|].
  pose proof (setupclock_scan_rates 12 7200 legal_platform_12
                default_tunables 1048576 200000 1 (recalculating 0) st') as H.
  cbv zeta in H.
  specialize (H ltac:(lia) eq_refl eq_refl ltac:(lia) E).
  destruct H as (_ & H2 & H3).
  destruct (H3 eq_refl ltac:(discriminate)) as (_ & Hf & Hh).
  specialize (Hh ltac:(lia)).
  change (1048576 / 4) with 262144 in H2.
  change (Z.min (1048576 / 2) 200000) with 200000 in Hf.
  repeat split; [exact Hf | congruence | exact H2].
Defined.

(** ** The scheduler *)

Lemma nth_array_set {A : Type} (l : list A) (i j : nat) (v d : A) :
  nth j (array_set l i v) d =
  if (Nat.eqb i j && Nat.ltb j (length l))%bool then v else nth j l d.
Proof.
  revert i j. induction l as [| h t IH]; intros i j.
  - simpl. rewrite andb_false_r. reflexivity.
  - destruct i as [| i], j as [| j]; simpl; try reflexivity.
    rewrite IH. reflexivity.
Qed.

Lemma length_array_set {A : Type} (l : list A) (i : nat) (v : A) :
  length (array_set l i v) = length l.
Proof.
  revert i. induction l as [| h t IH]; intros [| i]; simpl; auto.
Qed.

(** The loop that sets the reset flags sets the first [n] of them and
    keeps the length of the array. *)
Lemma set_all_hands (n : nat) :
  forall (s : nat) (l : list bool),
    let l' := fold_left (fun a i => array_set a i true) (seq s n) l in
    length l' = length l /\
    forall j, (j < length l)%nat ->
      nth j l' false =
      if (Nat.leb s j && Nat.ltb j (s + n))%bool then true
      else nth j l false.
Proof.
  induction n as [| n IH]; intros s l; cbn [seq fold_left].
  - split; [reflexivity|]. intros j _.
    destruct (Nat.leb s j) eqn:E1; [|reflexivity].
    apply Nat.leb_le in E1.
    destruct (Nat.ltb j (s + 0)) eqn:E2; [|reflexivity].
    apply Nat.ltb_lt in E2. lia.
  - destruct (IH (S s) (array_set l s true)) as [Hlen Hnth].
    rewrite length_array_set in Hlen, Hnth.
    split; [exact Hlen|]. intros j Hj. rewrite (Hnth j Hj).
    rewrite nth_array_set.
    destruct (Nat.eqb s j) eqn:E0.
    + apply Nat.eqb_eq in E0. subst j.
      assert (Nat.ltb s (length l) = true) as -> by (apply Nat.ltb_lt; lia).
      assert (Nat.leb s s = true) as -> by (apply Nat.leb_le; lia).
      assert (Nat.ltb s (s + S n) = true) as -> by (apply Nat.ltb_lt; lia).
      destruct (Nat.leb (S s) s && Nat.ltb s (S s + n))%bool; reflexivity.
    + apply Nat.eqb_neq in E0. cbn [andb].
      replace (S s + n)%nat with (s + S n)%nat by lia.
      assert (Hb : Nat.leb (S s) j = Nat.leb s j)
        by (apply Bool.eq_true_iff_eq; rewrite !Nat.leb_le; lia).
      rewrite Hb. reflexivity.
Qed.

Lemma lwp_created_app (a b : list sched_event) :
  lwp_created (a ++ b) = lwp_created a ++ lwp_created b.
Proof. unfold lwp_created. apply flat_map_app. Qed.

Lemma lwp_created_map (l : list Z) : lwp_created (map EvLwpCreate l) = l.
Proof.
  induction l as [| x l IH]; [reflexivity|].
  cbn. f_equal. exact IH.
Qed.

(** What the resize leaves, in closed form. *)
Lemma sched_resize_spec (inp : sched_input) (cal : calibration) (pg : paging)
    (sc : scanners) :
  resize_due cal sc = true ->
  0 < handspreadpages pg -> 0 <= total_pages inp ->
  0 <= des_page_scanners sc < 2 ^ 32 ->
  let n' :=
    Z.max 1 (Z.min (Z.min (des_page_scanners sc)
                      (total_pages inp / handspreadpages pg))
               MAX_PSCAN_THREADS) in
  sched_resize inp cal pg sc =
  Done (mkScanners (pscan_region_sz sc) n' n'
          (fold_left (fun a i => array_set a i true)
             (seq 0 (Z.to_nat MAX_PSCAN_THREADS)) (reset_hands sc)),
        if n' >? n_page_scanners sc then
          map (fun k => EvLwpCreate (n_page_scanners sc + Z.of_nat k))
            (seq 0 (Z.to_nat (n' - n_page_scanners sc)))
        else []).
Proof.
  intros Hdue Hh HT Hdes n'. unfold sched_resize.
  unfold resize_due in Hdue. rewrite Hdue.
  assert (Eh : (handspreadpages pg =? 0) = false) by (apply Z.eqb_neq; lia).
  rewrite Eh.
  assert (Hq : 0 <= total_pages inp / handspreadpages pg)
    by (apply Z.div_pos; lia).
  set (q := total_pages inp / handspreadpages pg) in *.
  assert (E : (let des := if des_page_scanners sc >? q then u32 q
                          else des_page_scanners sc in
               if des >? MAX_PSCAN_THREADS then MAX_PSCAN_THREADS
               else if des =? 0 then 1 else des) = n').
  { subst n'. unfold MAX_PSCAN_THREADS. cbv zeta.
    destruct (des_page_scanners sc >? q) eqn:E1.
    - rewrite u32_id by lia.
      destruct (q >? 16) eqn:E2; [lia|].
      destruct (q =? 0) eqn:E3; lia.
    - destruct (des_page_scanners sc >? 16) eqn:E2; [lia|].
      destruct (des_page_scanners sc =? 0) eqn:E3; lia. }
  cbv zeta in E. rewrite E. reflexivity.
Qed.

(** X4.  The scanner pool after a tick that returns.  When the
    calibration is complete and [des_page_scanners] differs from
    [n_page_scanners], both become the desired number cut to
    [total_pages / handspreadpages] and to 16 and raised to 1; every reset
    flag is set; and a scanner thread is started for each instance from
    the old number up to the new one, in order, none when the pool
    shrinks.  In every other tick the pool is left alone and no thread is
    started. *)
Theorem schedpaging_resizes_pool (tn : tunables) (inp : sched_input)
    (cal : calibration) (pg : paging) (pl : pool) (ss ss' : schedstate)
    (sc sc' : scanners) (ev : list sched_event) :
  0 < handspreadpages pg -> 0 <= total_pages inp ->
  0 <= des_page_scanners sc < 2 ^ 32 ->
  schedpaging tn inp cal pg pl ss sc = Done (ss', sc', ev) ->
  if resize_due cal sc then
    let n' :=
      Z.max 1 (Z.min (Z.min (des_page_scanners sc)
                        (total_pages inp / handspreadpages pg)) 16) in
    n_page_scanners sc' = n' /\ des_page_scanners sc' = n' /\
    1 <= n' <= 16 /\
    pscan_region_sz sc' = pscan_region_sz sc /\
    length (reset_hands sc') = length (reset_hands sc) /\
    (forall j, (j < length (reset_hands sc))%nat -> (j < 16)%nat ->
               nth j (reset_hands sc') false = true) /\
    lwp_created ev =
      map (fun k => n_page_scanners sc + Z.of_nat k)
        (seq 0 (Z.to_nat (n' - n_page_scanners sc)))
  else sc' = sc /\ lwp_created ev = [].
Proof.
  intros Hh HT Hdes Hs.
  assert (Hres : exists ev4,
             sched_resize inp cal pg sc = Done (sc', ev4) /\
             lwp_created ev = lwp_created ev4).
  { revert Hs. unfold schedpaging.
    destruct (sched_resize inp cal pg sc) as [[sc0 ev4] | |];
      try discriminate.
    intros Hs. exists ev4.
    destruct ((freemem inp <? u64 (lotsfree pg + needfree inp)) ||
              PAGE_SCAN_STARTUP tn cal);
      [| destruct (zone_num_over_cap inp >? 0)];
      injection Hs as _ <- <-; (split; [reflexivity|]);
      rewrite !lwp_created_app;
      destruct (freemem inp <? u64 (u64 (lotsfree pg + needfree inp)
                                    + kmem_reapahead inp));
      destruct (freemem inp <? u64 (lotsfree pg + needfree inp));
      destruct (kcage_on inp &&
                ((kcage_freemem inp <? kcage_desfree inp) ||
                 negb (kcage_needfree inp =? 0)));
      destruct (kmem_avail inp >? 0);
      cbn [lwp_created flat_map app]; rewrite ?app_nil_r; try reflexivity;
      unfold cv_signal_pageout; destruct (push_list pl);
      cbn [map lwp_created flat_map app]; rewrite ?app_nil_r; reflexivity. }
  destruct Hres as (ev4 & Hr & Eev).
  destruct (resize_due cal sc) eqn:Hdue.
  - rewrite (sched_resize_spec inp cal pg sc Hdue Hh HT Hdes) in Hr.
    unfold MAX_PSCAN_THREADS in Hr. cbv zeta in Hr.
    change (Z.to_nat 16) with 16%nat in Hr.
    destruct (set_all_hands 16 0 (reset_hands sc)) as [Hlen Hnth].
    set (hands := fold_left _ (seq 0 16) (reset_hands sc)) in *.
    injection Hr as <- <-. cbv zeta.
    cbn [n_page_scanners des_page_scanners pscan_region_sz reset_hands].
    split; [reflexivity|]. split; [reflexivity|]. split; [lia|].
    split; [reflexivity|]. split; [exact Hlen|]. split.
    + intros j Hj Hj16. subst hands. rewrite (Hnth j Hj).
      assert (Nat.ltb j (0 + 16) = true) as -> by (apply Nat.ltb_lt; lia).
      reflexivity.
    + rewrite Eev.
      match goal with
      | |- context [if ?c then _ else _] => destruct c eqn:Eg
      end.
      * rewrite <- (map_map (fun k => n_page_scanners sc + Z.of_nat k)
                      EvLwpCreate).
        apply lwp_created_map.
      * zbool.
        replace (Z.to_nat _) with 0%nat by lia. reflexivity.
  - unfold sched_resize in Hr. unfold resize_due in Hdue. rewrite Hdue in Hr.
    injection Hr as <- <-. split; [reflexivity | exact Eev].
Qed.

(** Whatever the operator set, [setupclock] leaves a [lotsfree] that is
    a 64-bit count. *)
Lemma thresholds_lotsfree_range (PAGESHIFT DISKRPM : Z) (tn : tunables)
    (T spread : Z) (ci : clockinit_t) :
  legal_platform PAGESHIFT -> 0 <= T < 2 ^ 63 ->
  tunables_wf tn = true -> clockinit_wf ci = true ->
  0 <= lotsfree (setupclock_thresholds PAGESHIFT DISKRPM tn T spread ci)
    < 2 ^ 64.
Proof.
  intros Hplat HT Htn Hci.
  set (pg := setupclock_thresholds PAGESHIFT DISKRPM tn T spread ci).
  pose proof (thresholds_derived PAGESHIFT DISKRPM tn T spread ci) as D.
  fold pg in D.
  destruct D as (_ & Elmax & Elmin & Elf & _).
  apply clockinit_wf_spec in Hci.
  destruct Hci as [(C1 & C2 & C3 & _) _].
  apply tunables_wf_spec in Htn. destruct Htn as [Hfr _].
  pose proof Hplat as Hp. unfold legal_platform in Hp.
  assert (Hlmax : 0 <= lotsfree_max pg < 2 ^ 64).
  { rewrite Elmax. apply tune_bounds; [lia|].
    change LOTSFREE_MAX_DEFAULT with (2 ^ 31). rewrite (btop_pow2 PAGESHIFT Hplat) by lia.
    split; [apply Z.pow_nonneg; lia | apply Z.pow_lt_mono_r; lia]. }
  assert (Hlmin : 0 <= lotsfree_min pg < 2 ^ 64).
  { rewrite Elmin. apply tune_bounds; [lia|].
    change LOTSFREE_MIN_DEFAULT with (2 ^ 24). rewrite (btop_pow2 PAGESHIFT Hplat) by lia.
    split; [apply Z.pow_nonneg; lia | apply Z.pow_lt_mono_r; lia]. }
  assert (Hq : 0 <= T / lotsfree_fraction tn <= T).
  { split; [apply Z.div_pos; lia|].
    apply Z.div_le_upper_bound; [lia | nia]. }
  rewrite Elf. apply tune_bounds; [lia|].
  destruct (clamp_cases (T / lotsfree_fraction tn) (lotsfree_min pg)
              (lotsfree_max pg)) as [[_ ->] | [[_ [_ ->]] | [_ ->]]]; lia.
Qed.

(** X5.  The thresholds and the tick together.  On a machine of two pages
    or more, over the thresholds that a call of [setupclock] left, a tick
    never divides by zero: it returns whatever free memory, deficit,
    calibration and scanner pool it finds, and outside the branch for
    zones over their cap the page budget it publishes is at most an
    eighth of memory, [T / 8]. *)
Theorem schedpaging_after_setupclock (PAGESHIFT DISKRPM : Z)
    (tn : tunables) (T spread : Z) (fuel : nat) (st st' : clockstate)
    (inp : sched_input) (cal : calibration) (pl : pool) (ss : schedstate)
    (sc : scanners) :
  legal_platform PAGESHIFT ->
  2 <= T < 2 ^ 63 ->
  tunables_wf tn = true ->
  clockinit_wf (effective_clockinit st) = true ->
  0 <= spread ->
  setupclock PAGESHIFT DISKRPM tn T spread fuel st = Done st' ->
  exists ss' sc' ev,
    schedpaging tn inp cal (cs_paging st') pl ss sc = Done (ss', sc', ev) /\
    (zone_scan tn inp cal (cs_paging st') = false ->
     0 <= desscan ss' <= T / 8).
Proof.
  intros Hplat HT Htn Hci Hsp Hs.
  destruct (setupclock_done _ _ _ _ _ _ _ _ Hs) as (_ & _ & Ep & _).
  pose proof (thresholds_derived PAGESHIFT DISKRPM tn T spread
                (effective_clockinit st)) as D.
  pose proof (thresholds_lotsfree_range PAGESHIFT DISKRPM tn T spread
                (effective_clockinit st) Hplat ltac:(lia) Htn Hci) as Hl.
  rewrite <- Ep in D, Hl.
  set (pg := cs_paging st') in *.
  destruct (thresholds_bounds PAGESHIFT DISKRPM Hplat tn T spread _ pg D
              ltac:(lia) Htn Hci Hsp)
    as (_ & _ & _ & (Hfs & _) & Hss & (_ & _ & Hh)).
  specialize (Hh ltac:(lia)).
  destruct (schedpaging_returns tn inp cal pg pl ss sc) as (ss' & sc' & ev & Hd).
  { right. right. lia. }
  exists ss', sc', ev. split; [exact Hd|].
  intros Hz.
  destruct (schedpaging_published _ _ _ _ _ _ _ _ _ _ Hd) as (_ & _ & Hp).
  rewrite Hz in Hp. destruct Hp as [Ed _]. rewrite Ed.
  assert (Hsf : 0 <= slowscan pg <= fastscan pg).
  { assert (fastscan pg / 2 <= fastscan pg)
      by (apply Z.div_le_upper_bound; lia).
    lia. }
  pose proof (sched_desscan_bound inp cal pg _ (proj1 Hl) Hsf
                (sched_vavail_range inp cal pg Hl)) as Hb.
  unfold SCHEDPAGING_HZ in Hb.
  assert (fastscan pg / 4 <= T / 8).
  { replace (T / 8) with (T / 2 / 4)
      by (rewrite Z.div_div by lia; reflexivity).
    apply Z.div_le_mono; lia. }
  lia.
Qed.

(** X5 on a machine of [2^20] pages recalculated with a spread of
    200000: the tick of a calibrated system with 2000 pages free returns
    with a budget of at most 131072 pages. *)
Lemma schedpaging_after_setupclock_witness :
  exists st',
    setupclock 12 7200 default_tunables 1048576 200000 1 (recalculating 0)
      = Done st' /\
    exists ss' sc' ev,
      schedpaging default_tunables
        (mkInput 2000 0 0 0 false 0 0 0 0 1048576 0 100) calibrated
        (cs_paging st') (pageout_init async_list_size) s3_sched one_scanner
        = Done (ss', sc', ev) /\
      0 <= desscan ss' <= 131072.
Proof.
  destruct (setupclock 12 7200 default_tunables 1048576 200000 1
              (recalculating 0))
    as [st' | |] eqn:E; [| vm_compute in E; discriminate E ..].
  exists st'. split; [reflexivity|].
  destruct (schedpaging_after_setupclock 12 7200 default_tunables 1048576
              200000 1 (recalculating 0) st'
              (mkInput 2000 0 0 0 false 0 0 0 0 1048576 0 100) calibrated
              (pageout_init async_list_size) s3_sched one_scanner
              legal_platform_12 ltac:(lia) eq_refl eq_refl ltac:(lia) E)
    as (ss' & sc' & ev & Hs & Hb).
  exists ss', sc', ev. split; [exact Hs|].
  apply Hb. unfold zone_scan. apply andb_false_r.
Defined.

(** X4 on a calibrated system that wants four scanners and has one:
    instances 1, 2 and 3 are started. *)
Lemma schedpaging_resizes_pool_witness :
  exists ss' sc' ev,
    schedpaging default_tunables (s3_input 2000 0) calibrated s3_paging
      (pageout_init async_list_size) s3_sched
      (mkScanners 262144 4 1 (repeat false 16)) = Done (ss', sc', ev) /\
    n_page_scanners sc' = 4 /\ lwp_created ev = [1; 2; 3].
Proof.
  destruct (schedpaging default_tunables (s3_input 2000 0) calibrated
              s3_paging (pageout_init async_list_size) s3_sched
              (mkScanners 262144 4 1 (repeat false 16)))
    as [[[ss' sc'] ev] | |] eqn:E; [| vm_compute in E; discriminate E ..].
  exists ss', sc', ev. split; [reflexivity|].
  pose proof (schedpaging_resizes_pool default_tunables (s3_input 2000 0)
                calibrated s3_paging (pageout_init async_list_size) s3_sched
                ss' (mkScanners 262144 4 1 (repeat false 16)) sc' ev) as H.
  specialize (H ltac:(reflexivity) ltac:(discriminate)
                ltac:(split; [discriminate | reflexivity]) E).
  change (resize_due calibrated (mkScanners 262144 4 1 (repeat false 16)))
    with true in H.
  cbv zeta in H. destruct H as (Hn & _ & _ & _ & _ & _ & Hl).
  split; [exact Hn | exact Hl].
Defined.

Lemma existsb_map_lwp (f : sched_event -> bool) (l : list Z) :
  (forall i, f (EvLwpCreate i) = false) ->
  existsb f (map EvLwpCreate l) = false.
Proof.
  intros Hf. induction l as [| x l IH]; [reflexivity|].
  cbn. rewrite Hf, IH. reflexivity.
Qed.

(** The events of a resize are thread creations. *)
Lemma sched_resize_events (inp : sched_input) (cal : calibration)
    (pg : paging) (sc sc' : scanners) (ev4 : list sched_event) :
  sched_resize inp cal pg sc = Done (sc', ev4) ->
  exists l, ev4 = map EvLwpCreate l.
Proof.
  unfold sched_resize.
  destruct (negb (pageout_new_spread cal =? 0) &&
            negb (des_page_scanners sc =? n_page_scanners sc)).
  - destruct (handspreadpages pg =? 0); [discriminate|].
    match goal with
    | |- context [if ?c >? ?d then map _ _ else []] => destruct (c >? d)
    end;
      intros H; injection H as _ <-.
    + eexists. rewrite <- map_map with (g := EvLwpCreate). reflexivity.
    + exists []. reflexivity.
  - intros H. injection H as _ <-. exists []. reflexivity.
Qed.

(** X6.  The three modes of a tick.  A tick that returns has reset
    [nscan]; it wakes the scanners exactly when memory is low, the
    sampling is not over or a zone is over its cap, and signals the
    pageout thread exactly when it does not wake them and requests are
    pending; [zones_over] is set exactly in the zone mode; [low_mem_scan]
    counts the wake-ups for low memory once the sampling is over and
    [zone_cap_scan] those for zones; and the last thing the tick does is
    to arm its next run a quarter of a second later. *)
Theorem schedpaging_modes (tn : tunables) (inp : sched_input)
    (cal : calibration) (pg : paging) (pl : pool) (ss ss' : schedstate)
    (sc sc' : scanners) (ev : list sched_event) :
  schedpaging tn inp cal pg pl ss sc = Done (ss', sc', ev) ->
  let startup := PAGE_SCAN_STARTUP tn cal in
  let woken :=
    memory_low inp pg || startup || (zone_num_over_cap inp >? 0) in
  nscan ss' = 0 /\
  existsb is_wake ev = woken /\
  existsb is_push_signal ev =
    negb woken && negb (match push_list pl with [] => true | _ => false end) /\
  zones_over ss' = zone_scan tn inp cal pg /\
  low_mem_scan ss' =
    (if (memory_low inp pg || startup) && negb startup
     then u64 (low_mem_scan ss + 1) else low_mem_scan ss) /\
  zone_cap_scan ss' =
    (if zone_scan tn inp cal pg then u64 (zone_cap_scan ss + 1)
     else zone_cap_scan ss) /\
  last ev EvWakeScanner = EvTimeout (Z.quot (hz inp) SCHEDPAGING_HZ).
Proof.
  intros Hs startup woken. subst startup woken.
  revert Hs. unfold schedpaging, zone_scan, memory_low.
  destruct (sched_resize inp cal pg sc) as [[sc0 ev4] | |] eqn:Hr;
    try discriminate.
  destruct (sched_resize_events _ _ _ _ _ _ Hr) as (l & ->).
  set (ev1 := if freemem inp <? u64 (u64 (lotsfree pg + needfree inp)
                                     + kmem_reapahead inp)
              then [EvKmemReap] else []).
  set (ev3 := if kcage_on inp &&
                 ((kcage_freemem inp <? kcage_desfree inp) ||
                  negb (kcage_needfree inp =? 0))
              then [EvCageoutWakeup] else []).
  set (post := (if kmem_avail inp >? 0 then [EvMemavailBroadcast] else [])
               ++ [EvTimeout (Z.quot (hz inp) SCHEDPAGING_HZ)]).
  assert (P : forall f, (forall i, f (EvLwpCreate i) = false) ->
              f EvKmemReap = false -> f EvSegPreap = false ->
              f EvCageoutWakeup = false -> f EvMemavailBroadcast = false ->
              (forall t, f (EvTimeout t) = false) ->
              forall ev2 mid, (ev2 = [EvSegPreap] \/ ev2 = []) ->
              existsb f ((ev1 ++ ev2 ++ ev3 ++ map EvLwpCreate l)
                         ++ mid ++ post) = existsb f mid).
  { intros f F1 F2 F3 F4 F5 F6 ev2 mid Hev2. rewrite !existsb_app.
    rewrite (existsb_map_lwp f l F1).
    subst ev1 ev3 post.
    destruct (freemem inp <? _); destruct (kcage_on inp && _);
      destruct (kmem_avail inp >? 0);
      destruct Hev2 as [-> | ->]; cbn;
      rewrite ?F2, ?F3, ?F4, ?F5, ?F6; cbn; rewrite ?orb_false_r;
      reflexivity. }
  assert (P3 : forall pre mid, last (pre ++ mid ++ post) EvWakeScanner
               = EvTimeout (Z.quot (hz inp) SCHEDPAGING_HZ)).
  { intros pre mid. subst post. rewrite !app_assoc. apply last_last. }
  assert (Q : forall ev2 mid, (ev2 = [EvSegPreap] \/ ev2 = []) ->
              let e := (ev1 ++ ev2 ++ ev3 ++ map EvLwpCreate l)
                       ++ mid ++ post in
              existsb is_wake e = existsb is_wake mid /\
              existsb is_push_signal e = existsb is_push_signal mid /\
              last e EvWakeScanner
              = EvTimeout (Z.quot (hz inp) SCHEDPAGING_HZ)).
  { intros ev2 mid Hev2 e. subst e.
    rewrite (P is_wake), (P is_push_signal), P3;
      try reflexivity; try exact Hev2. repeat split; reflexivity. }
  destruct (freemem inp <? u64 (lotsfree pg + needfree inp)) eqn:Elow;
    cbn [orb negb andb].
  - intros H. injection H as <- _ <-.
    cbn [nscan zones_over low_mem_scan zone_cap_scan].
    destruct (Q [EvSegPreap] [EvProbeWakeLow; EvWakeScanner]
                (or_introl eq_refl)) as (Q1 & Q2 & Q3).
    cbn [app] in Q1, Q2, Q3. rewrite Q1, Q2, Q3.
    destruct (PAGE_SCAN_STARTUP tn cal); repeat split; reflexivity.
  - destruct (PAGE_SCAN_STARTUP tn cal) eqn:Est; cbn [orb negb andb].
    + intros H. injection H as <- _ <-.
      cbn [nscan zones_over low_mem_scan zone_cap_scan].
      destruct (Q [] [EvProbeWakeLow; EvWakeScanner]
                  (or_intror eq_refl)) as (Q1 & Q2 & Q3).
      cbn [app] in Q1, Q2, Q3. rewrite Q1, Q2, Q3.
      repeat split; reflexivity.
    + destruct (zone_num_over_cap inp >? 0) eqn:Ez.
      * intros H. injection H as <- _ <-.
        cbn [nscan zones_over low_mem_scan zone_cap_scan].
        destruct (Q [] [EvProbeWakeZone; EvWakeScanner]
                    (or_intror eq_refl)) as (Q1 & Q2 & Q3).
        cbn [app] in Q1, Q2, Q3. rewrite Q1, Q2, Q3.
        repeat split; reflexivity.
      * intros H. injection H as <- _ <-.
        cbn [nscan zones_over low_mem_scan zone_cap_scan].
        destruct (Q [] (map EvPool (cv_signal_pageout pl))
                    (or_intror eq_refl)) as (Q1 & Q2 & Q3).
        cbn [app] in Q1, Q2, Q3. rewrite Q1, Q2, Q3.
        unfold cv_signal_pageout.
        destruct (push_list pl); repeat split; reflexivity.
Qed.

(** X6 on the spec's scenario S3, memory low: the scanners are woken
    and the pageout thread is not signalled. *)
Lemma schedpaging_modes_witness :
  exists ss' sc' ev,
    schedpaging default_tunables (s3_input 2000 0) calibrated s3_paging
      (pageout_init async_list_size) s3_sched one_scanner
      = Done (ss', sc', ev) /\
    nscan ss' = 0 /\ existsb is_wake ev = true /\
    existsb is_push_signal ev = false /\ zones_over ss' = false /\
    low_mem_scan ss' = 1 /\ last ev EvWakeScanner = EvTimeout 25.
Proof.
  destruct (schedpaging default_tunables (s3_input 2000 0) calibrated
              s3_paging (pageout_init async_list_size) s3_sched one_scanner)
    as [[[ss' sc'] ev] | |] eqn:E; [| vm_compute in E; discriminate E ..].
  exists ss', sc', ev. split; [reflexivity|].
  pose proof (schedpaging_modes default_tunables (s3_input 2000 0) calibrated
                s3_paging (pageout_init async_list_size) s3_sched ss'
                one_scanner sc' ev E) as H.
  cbv zeta in H. destruct H as (H1 & H2 & H3 & H4 & H5 & _ & H7).
  repeat split; assumption.
Defined.

Lemma po_share_ladder_range (x : Z) :
  po_share_ladder x -> MIN_PO_SHARE <= x <= MAX_PO_SHARE.
Proof.
  intros (k & Hk & ->). unfold MAX_PO_SHARE.
  rewrite Z.shiftl_mul_pow2 by lia. unfold MIN_PO_SHARE.
  assert (2 ^ 0 <= 2 ^ k) by (apply Z.pow_le_mono_r; lia).
  assert (2 ^ k <= 2 ^ 24) by (apply Z.pow_le_mono_r; lia).
  change (2 ^ 0) with 1 in *. lia.
Qed.




(** What a tick that returns publishes for the scanners. *)
Lemma schedpaging_done_values (tn : tunables) (inp : sched_input)
    (cal : calibration) (pg : paging) (pl : pool) (ss ss' : schedstate)
    (sc sc' : scanners) (ev : list sched_event) :
  schedpaging tn inp cal pg pl ss sc = Done (ss', sc', ev) ->
  zone_scan tn inp cal pg = false ->
  desscan ss' = sched_desscan inp cal pg (sched_vavail inp cal pg) /\
  pageout_nsec ss' = sched_nsec cal pg ss (sched_vavail inp cal pg).
Proof.
  unfold schedpaging, zone_scan.
  destruct (sched_resize inp cal pg sc) as [[sc0 ev4] | |];
    try discriminate.
  destruct ((freemem inp <? u64 (lotsfree pg + needfree inp)) ||
            PAGE_SCAN_STARTUP tn cal); cbn [negb andb].
  - intros H _. injection H as <- _ _. split; reflexivity.
  - destruct (zone_num_over_cap inp >? 0); [discriminate|].
    intros H _. injection H as <- _ _. split; reflexivity.
Qed.

(** The code's [pageout_nsec] without the wrap-around. *)
Lemma sched_nsec_spec (cal : calibration) (pg : paging) (ss : schedstate)
    (v : Z) :
  nsec_in_range pg ss = true -> 0 <= lotsfree pg < 2 ^ 62 ->
  0 <= v <= lotsfree pg ->
  sched_nsec cal pg ss v =
  if pageout_new_spread cal =? 0 then max_pageout_nsec ss
  else min_pageout_nsec ss +
       (lotsfree pg - v) * (max_pageout_nsec ss - min_pageout_nsec ss)
       / Z.max (lotsfree pg) 1.
Proof.
  intros Hn Hl Hv.
  pose proof (nsec_in_range_spec pg ss Hn) as (Hmm & Hmax & Hmul).
  unfold sched_nsec.
  destruct (pageout_new_spread cal =? 0); [reflexivity|].
  set (d := max_pageout_nsec ss - min_pageout_nsec ss) in *.
  assert (Hprod' : 0 <= (lotsfree pg - v) * d <= lotsfree pg * d) by nia.
  rewrite (u64_id (lotsfree pg - v)) by lia.
  rewrite (u64_id d) by lia.
  rewrite (u64_id (_ * d)) by lia.
  rewrite nz_spec by lia.
  assert (Hq : 0 <= (lotsfree pg - v) * d / Z.max (lotsfree pg) 1 <= d).
  { split; [apply Z.div_pos; lia|].
    apply Z.div_le_upper_bound; [lia|]. nia. }
  rewrite s64_id by lia. reflexivity.
Qed.

(** X8.  The scan budget follows the memory pressure.  Of two ticks
    that differ only in [freemem], with no zone over its cap, [slowscan]
    not above [fastscan] and values for which the 64-bit arithmetic is
    exact, the one with less free memory publishes no smaller [desscan]
    and no smaller [pageout_nsec].  With [lotsfree] positive the ends of
    the scale are met: when nothing is available [desscan] is
    [fastscan / 4] and [pageout_nsec] is [max_pageout_nsec], and when
    [lotsfree] pages are available on a calibrated system [desscan] is
    [slowscan / 4] and [pageout_nsec] is [min_pageout_nsec]. *)
Theorem schedpaging_pressure_monotone (tn : tunables) (inp : sched_input)
    (cal : calibration) (pg : paging) (pl : pool) (ss : schedstate)
    (sc : scanners) (f1 f2 : Z) (ss1 ss2 : schedstate) (sc1 sc2 : scanners)
    (ev1 ev2 : list sched_event) :
  pages_in_range (with_freemem f1 inp) pg = true ->
  pages_in_range (with_freemem f2 inp) pg = true ->
  nsec_in_range pg ss = true ->
  slowscan pg <= fastscan pg ->
  zone_num_over_cap inp = 0 ->
  f1 <= f2 ->
  schedpaging tn (with_freemem f1 inp) cal pg pl ss sc
    = Done (ss1, sc1, ev1) ->
  schedpaging tn (with_freemem f2 inp) cal pg pl ss sc
    = Done (ss2, sc2, ev2) ->
  (desscan ss2 <= desscan ss1 /\ pageout_nsec ss2 <= pageout_nsec ss1) /\
  (0 < lotsfree pg -> sched_vavail (with_freemem f1 inp) cal pg = 0 ->
   desscan ss1 = fastscan pg / 4 /\
   pageout_nsec ss1 = max_pageout_nsec ss) /\
  (0 < lotsfree pg -> pageout_new_spread cal <> 0 ->
   sched_vavail (with_freemem f2 inp) cal pg = lotsfree pg ->
   desscan ss2 = slowscan pg / 4 /\
   pageout_nsec ss2 = min_pageout_nsec ss).
Proof.
  intros Hr1 Hr2 Hn Hsf Hz Hf Hs1 Hs2.
  assert (Z1 : forall f, zone_scan tn (with_freemem f inp) cal pg = false).
  { intros f. unfold zone_scan. cbn [zone_num_over_cap with_freemem].
    rewrite Hz. apply andb_false_r. }
  destruct (schedpaging_done_values _ _ _ _ _ _ _ _ _ _ Hs1 (Z1 f1))
    as [Ed1 En1].
  destruct (schedpaging_done_values _ _ _ _ _ _ _ _ _ _ Hs2 (Z1 f2))
    as [Ed2 En2].
  destruct (sched_vavail_spec _ cal pg Hr1) as [Ev1 Hv1].
  destruct (sched_vavail_spec _ cal pg Hr2) as [Ev2 Hv2].
  pose proof (pages_in_range_spec _ pg Hr1)
    as (Hf1 & Hd & Hnf & Hl & Hs0 & Hfs & Hprod).
  pose proof (pages_in_range_spec _ pg Hr2) as (Hf2 & _).
  cbn [freemem deficit needfree with_freemem] in Hf1, Hf2, Hd, Hnf.
  set (v1 := sched_vavail (with_freemem f1 inp) cal pg) in *.
  set (v2 := sched_vavail (with_freemem f2 inp) cal pg) in *.
  assert (Hv : v1 <= v2).
  { rewrite Ev1, Ev2. unfold spec_vavail.
    cbn [freemem deficit needfree with_freemem].
    set (c := if negb (pageout_new_spread cal =? 0) then needfree inp
              else 0).
    destruct (clamp_cases (f1 - deficit inp - c) 0 (lotsfree pg))
      as [[? ->] | [[? [? ->]] | [? ->]]];
      destruct (clamp_cases (f2 - deficit inp - c) 0 (lotsfree pg))
        as [[? ->] | [[? [? ->]] | [? ->]]]; lia. }
  assert (Ed : forall f v,
             pages_in_range (with_freemem f inp) pg = true ->
             0 <= v <= lotsfree pg ->
             sched_desscan (with_freemem f inp) cal pg v =
             if (needfree inp >? 0) && (pageout_new_spread cal =? 0)
             then fastscan pg / 4 else spec_desscan pg v).
  { intros f v Hr Hvv.
    destruct ((needfree inp >? 0) && (pageout_new_spread cal =? 0)) eqn:Hbr.
    - unfold sched_desscan. cbn [needfree with_freemem]. rewrite Hbr.
      reflexivity.
    - apply sched_desscan_spec; [exact Hr | exact Hvv | exact Hbr]. }
  rewrite (Ed f1 v1 Hr1 Hv1) in Ed1. rewrite (Ed f2 v2 Hr2 Hv2) in Ed2.
  rewrite (sched_nsec_spec cal pg ss v1 Hn Hl Hv1) in En1.
  rewrite (sched_nsec_spec cal pg ss v2 Hn Hl Hv2) in En2.
  pose proof (nsec_in_range_spec pg ss Hn) as (Hmm & Hmax & Hmul).
  split; [split|split].
  - rewrite Ed1, Ed2.
    destruct ((needfree inp >? 0) && (pageout_new_spread cal =? 0)); [lia|].
    unfold spec_desscan.
    apply Z.div_le_mono; [lia|]. apply Z.div_le_mono; [lia|]. nia.
  - rewrite En1, En2.
    destruct (pageout_new_spread cal =? 0); [lia|].
    apply Zplus_le_compat_l. apply Z.div_le_mono; [lia|]. nia.
  - intros Hpos E0. rewrite Ed1, En1, E0.
    split.
    + destruct ((needfree inp >? 0) && (pageout_new_spread cal =? 0));
        [reflexivity|].
      unfold spec_desscan. rewrite Z.mul_0_r, Z.add_0_l, Z.sub_0_r.
      rewrite Z.max_l by lia. rewrite Z.div_mul by lia. reflexivity.
    + destruct (pageout_new_spread cal =? 0); [reflexivity|].
      rewrite Z.sub_0_r, Z.max_l by lia.
      rewrite Z.mul_comm, Z.div_mul by lia. lia.
  - intros Hpos Hsp EL. rewrite Ed2, En2, EL.
    apply Z.eqb_neq in Hsp. rewrite Hsp. rewrite andb_false_r.
    split.
    + unfold spec_desscan. rewrite Z.sub_diag, Z.mul_0_r, Z.add_0_r.
      rewrite Z.max_l by lia. rewrite Z.div_mul by lia. reflexivity.
    + rewrite Z.sub_diag, Z.mul_0_l. rewrite Z.div_0_l by lia. lia.
Qed.

(** X8 on the spec's thresholds: 1000 free pages against 3000. *)
Lemma schedpaging_pressure_monotone_witness :
  exists ss1 sc1 ev1 ss2 sc2 ev2,
    schedpaging default_tunables (with_freemem 1000 (s3_input 0 0))
      calibrated s3_paging (pageout_init async_list_size) s3_sched
      one_scanner = Done (ss1, sc1, ev1) /\
    schedpaging default_tunables (with_freemem 3000 (s3_input 0 0))
      calibrated s3_paging (pageout_init async_list_size) s3_sched
      one_scanner = Done (ss2, sc2, ev2) /\
    desscan ss2 <= desscan ss1 /\ pageout_nsec ss2 <= pageout_nsec ss1.
Proof.
  destruct (schedpaging default_tunables (with_freemem 1000 (s3_input 0 0))
              calibrated s3_paging (pageout_init async_list_size) s3_sched
              one_scanner)
    as [[[ss1 sc1] ev1] | |] eqn:E1; [| vm_compute in E1; discriminate E1 ..].
  destruct (schedpaging default_tunables (with_freemem 3000 (s3_input 0 0))
              calibrated s3_paging (pageout_init async_list_size) s3_sched
              one_scanner)
    as [[[ss2 sc2] ev2] | |] eqn:E2; [| vm_compute in E2; discriminate E2 ..].
  exists ss1, sc1, ev1, ss2, sc2, ev2.
  split; [reflexivity|]. split; [reflexivity|].
  apply (schedpaging_pressure_monotone default_tunables (s3_input 0 0)
           calibrated s3_paging (pageout_init async_list_size) s3_sched
           one_scanner 1000 3000 ss1 ss2 sc1 sc2 ev1 ev2);
    try reflexivity; try assumption.
  - vm_compute. discriminate.
  - lia.
Defined.

(** ** The request pool *)

(** X9.  The life of a request.  With a free request and the pushes of
    the tick not used up, [queue_io_request] succeeds, and the request the
    pageout thread takes next is that one, ahead of what was pending: it
    carries the vnode and the offset given, one page, [B_ASYNC | B_FREE]
    and [kcred]; the thread is then marked as pushing and the pending list
    is as before.  When the thread gives the request back, whatever
    [VOP_PUTPAGE] returned, the freelist has the request in place of the
    one taken, nothing is in flight, [pageout_pushcount] went up by one
    and [push_list_size] is back to its value. *)
Theorem request_round_trip (PAGESHIFT max_pushes : Z) (vp : vnode)
    (off rv : Z) (pl : pool) (slot : async_reqs) (rest : list async_reqs) :
  req_freelist pl = slot :: rest ->
  pushes pl <= max_pushes ->
  0 <= push_list_size pl < 2 ^ 64 - 1 ->
  let req := mkReq (Some vp) off (PAGESIZE PAGESHIFT) [B_ASYNC; B_FREE]
               (Some kcred) in
  exists pl1 evs pl2,
    queue_io_request PAGESHIFT vp off pl = (1, pl1, evs) /\
    pageout_take max_pushes pl1 = Some (req, pl2) /\
    push_list pl2 = push_list pl /\ pageout_pushing pl2 = true /\
    let pl3 := pageout_done rv req pl2 in
    push_list pl3 = push_list pl /\ req_freelist pl3 = req :: rest /\
    pageout_pushing pl3 = false /\
    pageout_pushcount pl3 = u64 (pageout_pushcount pl + 1) /\
    push_list_size pl3 = push_list_size pl.
Proof.
  intros Hfree Hpush Hsize req.
  destruct (queue_io_request_cases PAGESHIFT vp off pl)
    as [[Hnil _] | (slot' & rest' & Hf & Hq)]; [congruence|].
  rewrite Hfree in Hf. injection Hf as <- <-.
  rewrite Hq. do 3 eexists. split; [reflexivity|].
  unfold pageout_take. cbn [push_list pushes].
  assert (Eg : (pushes pl >? max_pushes) = false)
    by (rewrite Z.gtb_ltb; apply Z.ltb_ge; exact Hpush).
  rewrite Eg. split; [reflexivity|].
  cbn [push_list pageout_pushing pageout_done req_freelist
       pageout_pushcount push_list_size].
  repeat split; try reflexivity.
  rewrite (u64_id (push_list_size pl + 1)) by lia.
  rewrite u64_id by lia. lia.
Qed.

(** X9 on the fresh pool of 256 requests. *)
Lemma request_round_trip_witness :
  exists pl1 evs pl2,
    queue_io_request 12 test_vnode 8192 (pageout_init async_list_size)
      = (1, pl1, evs) /\
    pageout_take 10 pl1 =
      Some (mkReq (Some test_vnode) 8192 4096 [B_ASYNC; B_FREE] (Some kcred),
            pl2) /\
    push_list pl2 = [] /\ pageout_pushing pl2 = true.
Proof.
  destruct (request_round_trip 12 10 test_vnode 8192 0
              (pageout_init async_list_size) zeroed_req
              (repeat zeroed_req 255))
    as (pl1 & evs & pl2 & H1 & H2 & H3 & H4 & _).
  - reflexivity.
  - cbn. lia.
  - cbn. lia.
  - exists pl1, evs, pl2. repeat split; assumption.
Defined.




Lemma u64_succ (x : Z) : u64 (u64 x + 1) = u64 (x + 1).
Proof. unfold u64. rewrite Z.add_mod_idemp_l by lia. reflexivity. Qed.

(** [pageout_pushcount] counts the requests given back. *)
Lemma pool_run_pushcount (PAGESHIFT max_pushes : Z) (s s' : pusher)
    (k : nat) :
  pool_run PAGESHIFT max_pushes s k s' ->
  u64 (pageout_pushcount (pu_pool s')) =
  u64 (pageout_pushcount (pu_pool s) + Z.of_nat k).
Proof.
  intros Hrun. induction Hrun as [s | s s' s'' k Hrun IH Hstep].
  - rewrite Z.add_0_r. reflexivity.
  - destruct Hstep as [pl a vp off | pl Hw | pl pl' arg Ht | pl arg rv];
      unfold completes; cbn [pu_pool pu_arg is_some negb andb] in *.
    + destruct (queue_io_request_cases PAGESHIFT vp off pl)
        as [[_ ->] | (slot & rest & Hf & ->)]; cbn [fst snd pageout_pushcount];
        rewrite IH; f_equal; destruct a; cbn; lia.
    + unfold pageout_wakeup. cbn [pageout_pushcount]. rewrite IH.
      f_equal. lia.
    + unfold pageout_take in Ht.
      destruct (push_list pl); [discriminate|].
      destruct (pushes pl >? max_pushes); [discriminate|].
      injection Ht as _ <-. cbn [pageout_pushcount]. rewrite IH.
      f_equal. lia.
    + unfold pageout_done. cbn [pageout_pushcount].
      rewrite (u64_id (u64 _)) by apply u64_range.
      rewrite <- u64_succ, IH, u64_succ. f_equal. lia.
Qed.

(** X11.  The deadman sees progress.  When the pageout thread gave back
    at least one request, and fewer than [2 ^ 64], since the check at
    which the deadman recorded [pageout_pushcount], the next check does
    not panic, whatever else was queued or taken in between and though a
    push may be in flight again: it clears [pageout_stucktime] and
    records the new count. *)
Theorem deadman_sees_progress (PAGESHIFT max_pushes seconds freemem : Z)
    (s s' : pusher) (k : nat) (d : deadman) :
  0 <= pageout_pushcount (pu_pool s) < 2 ^ 64 ->
  0 <= pageout_pushcount (pu_pool s') < 2 ^ 64 ->
  pool_run PAGESHIFT max_pushes s k s' ->
  0 < Z.of_nat k < 2 ^ 64 ->
  pageout_pushcount_seen d = pageout_pushcount (pu_pool s) ->
  seconds <> 0 ->
  pageout_deadman false seconds freemem (pu_pool s') d =
  Return (mkDeadman 0 (pageout_pushcount (pu_pool s'))).
Proof.
  intros Hc Hc' Hrun Hk Hseen Hsec.
  pose proof (pool_run_pushcount _ _ _ _ _ Hrun) as E.
  rewrite (u64_id _ Hc') in E.
  assert (Hne : pageout_pushcount (pu_pool s') <> pageout_pushcount_seen d).
  { rewrite Hseen, E. unfold u64.
    set (x := pageout_pushcount (pu_pool s)) in *.
    destruct (Z_lt_ge_dec (x + Z.of_nat k) (2 ^ 64)) as [Hlt | Hge].
    - rewrite Z.mod_small by lia. lia.
    - replace (x + Z.of_nat k) with (x + Z.of_nat k - 2 ^ 64 + 1 * 2 ^ 64)
        by lia.
      rewrite Z.mod_add by lia. rewrite Z.mod_small by lia. lia. }
  unfold pageout_deadman.
  apply Z.eqb_neq in Hsec. rewrite Hsec.
  destruct (pageout_pushing (pu_pool s')); cbn [negb]; [|reflexivity].
  apply Z.eqb_neq in Hne. rewrite Hne. reflexivity.
Qed.

(** X11 on a pool of two requests: one was queued, pushed and given
    back, and a second one is in flight. *)
Lemma deadman_sees_progress_witness :
  exists s',
    pool_run 12 10 (mkPusher (pageout_init 2) None) 1 s' /\
    pageout_pushing (pu_pool s') = true /\
    pageout_deadman false 90 0 (pu_pool s') (mkDeadman 89 0) =
    Return (mkDeadman 0 1).
Proof.
  pose (p0 := pageout_init 2).
  pose (p1 := snd (fst (queue_io_request 12 test_vnode 0 p0))).
  pose (p2 := snd (fst (queue_io_request 12 test_vnode 4096 p1))).
  destruct (pageout_take 10 p2) as [[a3 p3] |] eqn:E3;
    [| vm_compute in E3; discriminate E3].
  pose (p4 := pageout_done 0 a3 p3).
  destruct (pageout_take 10 p4) as [[a5 p5] |] eqn:E5;
    [| vm_compute in E3; injection E3 as <- <-;
       vm_compute in E5; discriminate E5].
  assert (Hrun : pool_run 12 10 (mkPusher p0 None) 1 (mkPusher p5 (Some a5))).
  { change 1%nat with (0 + 0 + 0 + 1 + 0)%nat.
    eapply (run_step 12 10 _ (mkPusher p4 None) _ (0 + 0 + 0 + 1));
      [| apply step_take; exact E5].
    eapply (run_step 12 10 _ (mkPusher p3 (Some a3)) (mkPusher p4 None)
              (0 + 0 + 0)); [| apply step_done].
    eapply (run_step 12 10 _ (mkPusher p2 None) (mkPusher p3 (Some a3))
              (0 + 0)); [| apply step_take; exact E3].
    eapply (run_step 12 10 _ (mkPusher p1 None) (mkPusher p2 None) 0);
      [| apply (step_queue 12 10 p1 None)].
    apply (run_step 12 10 _ (mkPusher p0 None) (mkPusher p1 None) 0);
      [apply run_stay | apply (step_queue 12 10 p0 None)]. }
  exists (mkPusher p5 (Some a5)). split; [exact Hrun|].
  assert (E3' := E3). vm_compute in E3'. injection E3' as Ea3 Ep3.
  assert (E5' := E5). subst p4. rewrite <- Ea3, <- Ep3 in E5'.
  vm_compute in E5'. injection E5' as Ea5 Ep5.
  assert (Hc : pageout_pushcount p5 = 1) by (rewrite <- Ep5; reflexivity).
  split; [rewrite <- Ep5; reflexivity|].
  apply (deadman_sees_progress 12 10 90 0 _ _ 1 (mkDeadman 89 0)) in Hrun.
  - cbn [pu_pool] in Hrun. rewrite Hc in Hrun. exact Hrun.
  - vm_compute. split; [discriminate | reflexivity].
  - cbn [pu_pool]. rewrite Hc. lia.
  - lia.
  - reflexivity.
  - discriminate.
Defined.

(** ** The per-page decider *)

Ltac ending_close :=
  try lia; try discriminate; try reflexivity; try contradiction;
  try assumption;
  try (repeat match goal with
              | H : _ \/ _ |- _ => destruct H
              | H : False |- _ => contradiction
              end; discriminate);
  try (left; reflexivity); try (right; reflexivity);
  try (left; left; reflexivity); try (right; left; reflexivity);
  try (right; right; reflexivity);
  try (right; split; [reflexivity | assumption]).

Lemma count_cons (f : ckp_event -> bool) (e : ckp_event)
    (l : list ckp_event) :
  count f (e :: l) = ((if f e then 1 else 0) + count f l)%nat.
Proof. unfold count. cbn. destruct (f e); reflexivity. Qed.

Ltac count_trace :=
  repeat (rewrite count_cons || rewrite count_app);
  rewrite ?count_pool_events by reflexivity; cbn.

Ltac neutral_case :=
  let e := fresh "e" in
  let He := fresh "He" in
  intros e He; destruct e; try discriminate He; try reflexivity;
  match goal with
  | ok : bool |- _ => destruct ok; try discriminate He; reflexivity
  end.

Section CheckpageMore.

Context {page : Type} {host : Host page}.
Variable PAGESHIFT : Z.

(** What the endings say about the result. *)
Lemma ending_result (hand : pageout_hand_t) (pl pl' : pool)
    (r : checkpage_result_t) (fin : list ckp_event) :
  ckp_ending PAGESHIFT hand pl r pl' fin ->
  count is_sync fin = 0%nat /\ count is_unload fin = 0%nat /\
  (count is_demote fin <= 1)%nat /\
  (count is_clrref fin <= 1)%nat /\
  (count is_clrref fin = 1%nat -> hand = POH_FRONT /\ r = CKP_NOT_FREED) /\
  (r = CKP_FREED <->
   count is_dispose fin = 1%nat \/ count is_queued fin = 1%nat) /\
  (r = CKP_INELIGIBLE ->
   fin = [CkDemote false; CkUnlock] /\ pl' = pl) /\
  (r = CKP_NOT_FREED ->
   pl' = pl /\ count is_dispose fin = 0%nat /\
   count is_queued fin = 0%nat /\
   (In (CkProbeIsref hand) fin \/
    (count is_queue fin = 1%nat /\ req_freelist pl = []))) /\
  (r <> CKP_FREED -> count is_hold fin = count is_rele fin).
Proof.
  intros H.
  assert (Hfull : forall vp0 off0,
             queue_io_request PAGESHIFT vp0 off0 pl = (0, pl, []) ->
             req_freelist pl = []).
  { intros vp0 off0 Hq.
    destruct (queue_io_request_cases PAGESHIFT vp0 off0 pl)
      as [[Hnil _] | (slot & rest & _ & Hq')]; [exact Hnil|].
    rewrite Hq in Hq'. discriminate. }
  destruct H as [Hh | Hh | | vp0 off0 Hq | vp0 off0 pl0 evs zid s Hq
                 | stats Hstats].
  - cbn. repeat split; intros; ending_close.
  - cbn. repeat split; intros; ending_close.
  - cbn. repeat split; intros; ending_close.
  - apply Hfull in Hq. cbn. repeat split; intros; ending_close.
  - assert (Hc : forall f, (forall e, f (CkPool e) = false) ->
                  count f ([CkVnHold vp0; CkUnlock; CkQueue vp0 off0 1] ++
                           map CkPool evs ++ [CkZoneStat zid s]) =
                  count f [CkVnHold vp0; CkUnlock; CkQueue vp0 off0 1;
                           CkZoneStat zid s]).
    { intros f Hf. rewrite !count_app, (count_pool_events f evs Hf).
      change [CkVnHold vp0; CkUnlock; CkQueue vp0 off0 1; CkZoneStat zid s]
        with ([CkVnHold vp0; CkUnlock; CkQueue vp0 off0 1] ++
              [CkZoneStat zid s]).
      rewrite count_app. lia. }
    rewrite !Hc by reflexivity. cbn.
    repeat split; intros; ending_close.
  - assert (Hc : forall f, (forall e, is_stat e = true -> f e = false) ->
                  count f stats = 0%nat).
    { intros f Hf. apply (count_where is_stat); assumption. }
    change (CkDispose :: stats) with ([CkDispose] ++ stats).
    rewrite !count_app.
    rewrite (Hc is_sync), (Hc is_unload), (Hc is_demote), (Hc is_clrref),
      (Hc is_dispose), (Hc is_queued), (Hc is_hold), (Hc is_rele);
      try (intros [] He; try discriminate He; reflexivity).
    cbn. repeat split; intros; ending_close.
Qed.

(** The counts of a trace that continues a lock and a sync. *)
Lemma count_continued (f : ckp_event -> bool) (flags : list syncflag)
    (attrs : Z) (mid fin : list ckp_event) :
  (forall e, neutral e = true -> f e = false) ->
  forallb neutral mid = true ->
  count f ([CkTrylock true; CkPagesync flags attrs] ++ mid ++ fin) =
  ((if f (CkTrylock true) then 1 else 0) +
   (if f (CkPagesync flags attrs) then 1 else 0) + count f fin)%nat.
Proof.
  intros F Hmid. rewrite !count_app.
  rewrite (count_where neutral f mid F Hmid).
  unfold count at 1. simpl.
  destruct (f (CkTrylock true)), (f (CkPagesync flags attrs)); reflexivity.
Qed.

(** X12.  What the result of [checkpage] stands for, the scanner
    counting on it.  [CKP_FREED] is returned exactly when the page was
    disposed of or a request for it was queued.  [CKP_NOT_FREED] means
    that the page was found referenced, or that it was dirty and no
    request was free; nothing was disposed of or queued and the pool is as
    it was.  [CKP_INELIGIBLE] leaves the pool as it was, with no vnode
    held, no reference bit cleared, nothing disposed of or queued.  The
    reference bit is cleared at most once, only under the front hand and
    only on a page that is kept; and unless the page is freed every vnode
    hold is released. *)
Theorem checkpage_result_meaning (fuel : nat) (zones : bool) (share : Z)
    (pp : page) (hand : pageout_hand_t) (pl : pool) (r : checkpage_result_t)
    (pp' : page) (pl' : pool) (tr : list ckp_event) :
  checkpage PAGESHIFT fuel zones share pp hand pl = Done (r, pp', pl', tr) ->
  (r = CKP_FREED <->
   count is_dispose tr = 1%nat \/ count is_queued tr = 1%nat) /\
  (r = CKP_NOT_FREED ->
   pl' = pl /\ count is_dispose tr = 0%nat /\ count is_queued tr = 0%nat /\
   (In (CkProbeIsref hand) tr \/
    (count is_queue tr = 1%nat /\ req_freelist pl = []))) /\
  (r = CKP_INELIGIBLE ->
   pl' = pl /\ count is_hold tr = 0%nat /\ count is_clrref tr = 0%nat /\
   count is_dispose tr = 0%nat /\ count is_queue tr = 0%nat) /\
  (count is_clrref tr <= 1)%nat /\
  (count is_clrref tr = 1%nat -> hand = POH_FRONT /\ r = CKP_NOT_FREED) /\
  (r <> CKP_FREED -> count is_hold tr = count is_rele tr).
Proof.
  intros Hck. apply checkpage_shape in Hck.
  destruct Hck as [(-> & -> & [-> | [-> | ->]]) | Hck].
  - cbn. repeat split; intros; ending_close.
  - cbn. repeat split; intros; ending_close.
  - cbn. repeat split; intros; ending_close.
  - destruct Hck as (flags & attrs & mid & fin & -> & Hmid & Hend).
    destruct (ending_result _ _ _ _ _ Hend)
      as (_ & _ & _ & Hclr & Hclr1 & Hfreed & Hinel & Hnot & Hhold).
    rewrite (count_continued is_dispose), (count_continued is_queued),
      (count_continued is_queue), (count_continued is_hold),
      (count_continued is_clrref), (count_continued is_rele);
      try exact Hmid; try neutral_case.
    cbn [is_dispose is_queued is_queue is_hold is_clrref is_rele Nat.add].
    split; [exact Hfreed|]. split.
    + intros Hr. destruct (Hnot Hr) as (H1 & H2 & H3 & H4).
      repeat split; try assumption.
      destruct H4 as [H4 | H4]; [left | right; exact H4].
      apply in_or_app. right. apply in_or_app. right. exact H4.
    + split.
      * intros Hr. destruct (Hinel Hr) as [-> ->].
        repeat split; reflexivity.
      * repeat split; try assumption; apply Hclr1; assumption.
Qed.

(** X13.  Which pages are looked at.  [checkpage] syncs the page's
    attributes at most once, and exactly when the page passed every test:
    not a kernel page, not locked, not free, not held by a lock or a
    copy-on-write count, not shared beyond [po_share], the lock taken, the
    tests passed again under the lock and, when zones are over their cap,
    the page in a zone that is over its cap.  The sync is made with the
    flags of the hand: the back hand never zeroes the bits.  A page that
    failed a test is [CKP_INELIGIBLE], and the lock, when it was taken, was
    given back at once. *)
Theorem checkpage_sync_gated (fuel : nat) (zones : bool) (share : Z)
    (pp : page) (hand : pageout_hand_t) (pl : pool) (r : checkpage_result_t)
    (pp' : page) (pl' : pool) (tr : list ckp_event) :
  checkpage PAGESHIFT fuel zones share pp hand pl = Done (r, pp', pl', tr) ->
  let candidate :=
    negb (skipped_unlocked share pp) && fst (page_trylock pp) &&
    negb (skipped_locked zones (snd (page_trylock pp))) in
  count is_sync tr = (if candidate then 1 else 0)%nat /\
  (forall fl a, In (CkPagesync fl a) tr ->
     fl = sync_flags hand /\
     a = fst (hat_pagesync (snd (page_trylock pp)) (sync_flags hand))) /\
  (candidate = false ->
   r = CKP_INELIGIBLE /\ pl' = pl /\
   count is_unlock tr = count is_locked_ok tr /\
   (tr = [] \/ tr = [CkTrylock false] \/ tr = [CkTrylock true; CkUnlock])).
Proof.
  unfold checkpage, skipped_unlocked, skipped_locked. cbv zeta.
  destruct (_ || _ || _ || _ || _ || _).
  { intros H. injection H as <- <- <- <-. cbn.
    repeat split; intros; ending_close. }
  destruct (page_trylock pp) as [ok pp1]. cbn [fst snd].
  destruct ok; cbn [negb andb].
  2:{ intros H. injection H as <- <- <- <-. cbn.
      repeat split; intros; ending_close. }
  destruct (PP_ISFREE pp1); cbn [orb negb].
  { intros H. injection H as <- <- <- <-. cbn.
    repeat split; intros; ending_close. }
  destruct (negb (p_lckcnt pp1 =? 0)); cbn [orb negb].
  { intros H. injection H as <- <- <- <-. cbn.
    repeat split; intros; ending_close. }
  destruct (negb (p_cowcnt pp1 =? 0)); cbn [orb negb].
  { intros H. injection H as <- <- <- <-. cbn.
    repeat split; intros; ending_close. }
  destruct (zones && _); cbn [orb negb].
  { intros H. injection H as <- <- <- <-. cbn.
    repeat split; intros; ending_close. }
  assert (Efl : (match hand with
                 | POH_FRONT => [HAT_SYNC_ZERORM]
                 | POH_BACK =>
                     [HAT_SYNC_DONTZERO; HAT_SYNC_STOPON_REF;
                      HAT_SYNC_STOPON_SHARED]
                 end) = sync_flags hand) by reflexivity.
  rewrite Efl.
  destruct (hat_pagesync pp1 (sync_flags hand)) as [ppattr pp2].
  intros H. apply recheck_shape in H.
  destruct H as (mid & fin & -> & Hmid & Hend).
  destruct (ending_result _ _ _ _ _ Hend) as (Hsync & _).
  rewrite (count_continued is_sync); try exact Hmid; try neutral_case.
  cbn [is_sync fst]. rewrite Hsync.
  split; [reflexivity|]. split; [|discriminate].
  intros fl a Hin. cbn [app] in Hin.
  destruct Hin as [Hin | [Hin | Hin]]; [discriminate | |].
  - injection Hin as <- <-. split; reflexivity.
  - exfalso. apply in_app_or in Hin. destruct Hin as [Hin | Hin].
    + rewrite forallb_forall in Hmid. apply Hmid in Hin. discriminate.
    + assert (Hpos : (1 <= count is_sync fin)%nat).
      { clear - Hin. unfold count. induction fin as [| e l IH].
        - contradiction.
        - destruct Hin as [-> | Hin]; cbn.
          + lia.
          + destruct (is_sync e); cbn; [lia | apply IH; exact Hin]. }
      lia.
Qed.

(** X14.  A referenced page is kept.  When the sync reports the
    reference bit, [checkpage] does nothing else to the page than to give
    it back: it returns [CKP_NOT_FREED] and leaves the pool as it was,
    without unloading, holding a vnode, queueing or disposing; the front
    hand clears the reference bit before it unlocks, the back hand unlocks
    and leaves the bit. *)
Theorem checkpage_keeps_referenced (fuel : nat) (zones : bool) (share : Z)
    (pp : page) (hand : pageout_hand_t) (pl : pool) (r : checkpage_result_t)
    (pp' : page) (pl' : pool) (tr : list ckp_event) (fl : list syncflag)
    (a : Z) :
  checkpage PAGESHIFT fuel zones share pp hand pl = Done (r, pp', pl', tr) ->
  In (CkPagesync fl a) tr ->
  has_attr a P_REF = true ->
  r = CKP_NOT_FREED /\ pl' = pl /\
  tr = [CkTrylock true; CkPagesync fl a; CkProbeIsref hand] ++
       match hand with
       | POH_FRONT => [CkClrref; CkUnlock]
       | POH_BACK => [CkUnlock]
       end /\
  count is_clrref tr = (match hand with POH_FRONT => 1 | POH_BACK => 0 end)%nat.
Proof.
  intros Hck Hin Href.
  assert (Htr : exists rest, tr = CkTrylock true :: CkPagesync fl a :: rest).
  { pose proof (checkpage_shape _ _ _ _ _ _ _ _ _ _ _ Hck) as Hs.
    destruct Hs as [(_ & _ & [-> | [-> | ->]]) | Hs].
    - contradiction.
    - destruct Hin as [Hin | []]. discriminate.
    - destruct Hin as [Hin | [Hin | []]]; discriminate.
    - destruct Hs as (flags & attrs & mid & fin & -> & Hmid & Hend).
      cbn [app] in Hin. destruct Hin as [Hin | [Hin | Hin]];
        [discriminate | |].
      + injection Hin as <- <-. eexists. reflexivity.
      + exfalso. apply in_app_or in Hin. destruct Hin as [Hin | Hin].
        * rewrite forallb_forall in Hmid. apply Hmid in Hin. discriminate.
        * destruct (ending_result _ _ _ _ _ Hend) as (Hsync & _).
          assert (Hpos : (1 <= count is_sync fin)%nat).
          { clear - Hin. unfold count. induction fin as [| e l IH].
            - contradiction.
            - destruct Hin as [-> | Hin]; cbn.
              + lia.
              + destruct (is_sync e); cbn; [lia | apply IH; exact Hin]. }
          lia. }
  destruct Htr as (rest & Htr).
  destruct (checkpage_referenced_kept PAGESHIFT _ _ _ _ _ _ _ _ _ _ _ _ _
              Hck Htr Href) as (Hr & Hpl & Hrest).
  subst tr rest. split; [exact Hr|]. split; [exact Hpl|].
  split; [reflexivity|]. destruct hand; reflexivity.
Qed.

(** On a small page a second arrival at [recheck], after an unload that
    found the page referenced or dirty, ends the call without another
    unload or a demotion. *)
Lemma recheck_last_pass (fuel : nat) (hand : pageout_hand_t)
    (isfs isexec : bool) (zid ppattr : Z) (pp : page) (pl : pool)
    (tr : list ckp_event) (r : checkpage_result_t) (pp' : page) (pl' : pool)
    (tr' : list ckp_event) :
  p_szc pp = 0 ->
  has_attr ppattr P_REF || (has_attr ppattr P_MOD && is_some (p_vnode pp))
    = true ->
  checkpage_recheck PAGESHIFT fuel hand isfs isexec zid ppattr pp pl tr
    = Done (r, pp', pl', tr') ->
  exists fin, tr' = tr ++ fin /\
    count is_unload fin = 0%nat /\ count is_demote fin = 0%nat.
Proof.
  intros Hszc Hcond. destruct fuel as [| fuel]; [discriminate|].
  cbn [checkpage_recheck].
  destruct (has_attr ppattr P_REF).
  - destruct hand; intros H; injection H as _ _ _ <-;
      rewrite <- app_assoc; eexists; (split; [reflexivity|]);
      split; reflexivity.
  - cbv zeta. rewrite Hszc. cbn [Z.eqb negb].
    unfold checkpage_dirty_or_free.
    cbn [orb] in Hcond. apply andb_true_iff in Hcond.
    destruct Hcond as [Hmod Hvp]. rewrite Hmod.
    destruct (p_vnode pp) as [vp|]; [|discriminate].
    destruct (queue_io_request PAGESHIFT vp (p_offset pp) pl)
      as [[rv pl1] evs].
    destruct (rv =? 0); intros H; injection H as _ _ _ <-;
      rewrite <- !app_assoc; eexists; (split; [reflexivity|]);
      count_trace; split; reflexivity.
Qed.

Lemma dirty_or_free_once (fuel : nat) (hand : pageout_hand_t)
    (isfs isexec : bool) (zid ppattr : Z) (pp : page) (pl : pool)
    (tr : list ckp_event) (r : checkpage_result_t) (pp' : page) (pl' : pool)
    (tr' : list ckp_event) :
  szc_stable -> p_szc pp = 0 ->
  checkpage_dirty_or_free PAGESHIFT
    (checkpage_recheck PAGESHIFT fuel hand isfs isexec zid)
    hand isfs isexec zid ppattr pp pl tr = Done (r, pp', pl', tr') ->
  exists fin, tr' = tr ++ fin /\
    (count is_unload fin <= 1)%nat /\ count is_demote fin = 0%nat.
Proof.
  intros [_ Hunload] Hszc. unfold checkpage_dirty_or_free.
  assert (Hfree :
    (let pp0 := hat_pageunload pp in
     let a := hat_page_getattr pp0 (Z.lor P_MOD P_REF) in
     let t := tr ++ [CkProbeFree hand; CkPageunload; CkGetattr a] in
     if has_attr a P_REF || (has_attr a P_MOD && is_some (p_vnode pp0))
     then checkpage_recheck PAGESHIFT fuel hand isfs isexec zid a pp0 pl t
     else Done (CKP_FREED, VN_DISPOSE pp0, pl,
                t ++ [CkDispose; CkCpuStat dfree] ++
                (if isfs then
                   [CkCpuStat (if isexec then execfree else fsfree);
                    CkZoneStat zid ZPO_FS]
                 else [CkCpuStat anonfree; CkZoneStat zid ZPO_ANON])))
    = Done (r, pp', pl', tr') ->
    exists fin, tr' = tr ++ fin /\
      (count is_unload fin <= 1)%nat /\ count is_demote fin = 0%nat).
  { cbv zeta.
    destruct (has_attr _ P_REF || (has_attr _ P_MOD && is_some _)) eqn:E.
    - intros H.
      apply recheck_last_pass in H; [| apply Hunload; exact Hszc | exact E].
      destruct H as (fin & -> & Hu & Hd).
      rewrite <- app_assoc. eexists. split; [reflexivity|].
      rewrite !count_app, Hu, Hd. cbn. split; [lia | reflexivity].
    - intros H. injection H as _ _ _ <-.
      rewrite <- !app_assoc. eexists. split; [reflexivity|].
      destruct isfs; cbn; split; (lia || reflexivity). }
  destruct (has_attr ppattr P_MOD); [|exact Hfree].
  destruct (p_vnode pp) as [vp|]; [|exact Hfree].
  destruct (queue_io_request PAGESHIFT vp (p_offset pp) pl)
    as [[rv pl1] evs].
  destruct (rv =? 0); intros H; injection H as _ _ _ <-;
    rewrite <- !app_assoc; eexists; (split; [reflexivity|]);
    count_trace; split; (lia || reflexivity).
Qed.

(** X15.  One visit tears the mappings down at most once.  On pages
    whose size a successful demotion and an unload leave small, as the code
    asserts, a call of [checkpage] demotes at most once and unloads the
    mappings at most once, however the bits turn out: the jump back to
    [recheck] is taken at most once. *)
Theorem checkpage_unloads_once (fuel : nat) (zones : bool) (share : Z)
    (pp : page) (hand : pageout_hand_t) (pl : pool) (r : checkpage_result_t)
    (pp' : page) (pl' : pool) (tr : list ckp_event) :
  szc_stable ->
  checkpage PAGESHIFT fuel zones share pp hand pl = Done (r, pp', pl', tr) ->
  (count is_unload tr <= 1)%nat /\ (count is_demote tr <= 1)%nat.
Proof.
  intros Hst. unfold checkpage.
  destruct (_ || _ || _ || _ || _ || _).
  { intros H. injection H as _ _ _ <-. cbn. lia. }
  destruct (page_trylock pp) as [ok pp1]. destruct ok; cbn [negb].
  2:{ intros H. injection H as _ _ _ <-. cbn. lia. }
  destruct (PP_ISFREE pp1).
  { intros H. injection H as _ _ _ <-. cbn. lia. }
  destruct (_ || _).
  { intros H. injection H as _ _ _ <-. cbn. lia. }
  destruct (zones && _).
  { intros H. injection H as _ _ _ <-. cbn. lia. }
  cbv zeta.
  destruct (hat_pagesync pp1 _) as [ppattr pp2].
  destruct fuel as [| fuel]; [discriminate|].
  cbn [checkpage_recheck].
  destruct (has_attr ppattr P_REF).
  { destruct hand; intros H; injection H as _ _ _ <-; cbn; lia. }
  cbv zeta. destruct (p_szc pp2 =? 0) eqn:Eszc; cbn [negb].
  - intros H. apply dirty_or_free_once in H;
      [| exact Hst | apply Z.eqb_eq; exact Eszc].
    destruct H as (fin & -> & Hu & Hd). rewrite !count_app, Hd. cbn. lia.
  - destruct (page_try_demote_pages pp2) as [ok pp3] eqn:Ed.
    destruct ok; cbn [negb].
    + intros H. apply dirty_or_free_once in H;
        [| exact Hst | destruct Hst as [Hdem _]; eapply Hdem; exact Ed].
      destruct H as (fin & -> & Hu & Hd). rewrite !count_app, Hd. cbn. lia.
    + intros H. injection H as _ _ _ <-. cbn. lia.
Qed.

End CheckpageMore.

(** X12 on a dirty page of a file: it is queued, so it counts as
    freed. *)
Lemma checkpage_result_meaning_witness :
  exists pp' pl' tr,
    checkpage 12 2 false MIN_PO_SHARE dirty_page POH_BACK
      (pageout_init 4) = Done (CKP_FREED, pp', pl', tr) /\
    (count is_dispose tr = 1%nat \/ count is_queued tr = 1%nat).
Proof.
  destruct (checkpage 12 2 false MIN_PO_SHARE dirty_page POH_BACK
              (pageout_init 4)) as [[[[r pp'] pl'] tr] | |] eqn:E;
    [| vm_compute in E; discriminate E ..].
  assert (Hr : r = CKP_FREED)
    by (vm_compute in E; injection E as <- _ _ _; reflexivity).
  subst r. exists pp', pl', tr. split; [reflexivity|].
  apply (checkpage_result_meaning (page := test_page) 12 _ _ _ _ _ _ _ _ _ _
           E). reflexivity.
Defined.

(** X13 on a page that is locked by someone else: never synced. *)
Lemma checkpage_sync_gated_witness :
  exists r pp' pl' tr,
    checkpage 12 2 false MIN_PO_SHARE (tp_set_lock true dirty_page) POH_FRONT
      (pageout_init 4) = Done (r, pp', pl', tr) /\
    count is_sync tr = 0%nat /\ r = CKP_INELIGIBLE.
Proof.
  destruct (checkpage 12 2 false MIN_PO_SHARE (tp_set_lock true dirty_page)
              POH_FRONT (pageout_init 4))
    as [[[[r pp'] pl'] tr] | |] eqn:E; [| vm_compute in E; discriminate E ..].
  exists r, pp', pl', tr. split; [reflexivity|].
  destruct (checkpage_sync_gated (page := test_page) 12 _ _ _ _ _ _ _ _ _ _ E)
    as (H1 & _ & H3).
  split; [exact H1 | apply H3; reflexivity].
Defined.

(** X14 on a referenced page under the front hand. *)
Lemma checkpage_keeps_referenced_witness :
  exists pp' pl' tr,
    checkpage 12 2 false MIN_PO_SHARE referenced_page POH_FRONT
      (pageout_init 4) = Done (CKP_NOT_FREED, pp', pl', tr) /\
    tr = [CkTrylock true; CkPagesync [HAT_SYNC_ZERORM] 2;
          CkProbeIsref POH_FRONT; CkClrref; CkUnlock].
Proof.
  destruct (checkpage 12 2 false MIN_PO_SHARE referenced_page POH_FRONT
              (pageout_init 4)) as [[[[r pp'] pl'] tr] | |] eqn:E;
    [| vm_compute in E; discriminate E ..].
  assert (Hin : In (CkPagesync [HAT_SYNC_ZERORM] 2) tr).
  { assert (E' := E). vm_compute in E'. injection E' as _ _ _ <-.
    right. left. reflexivity. }
  destruct (checkpage_keeps_referenced (page := test_page) 12 _ _ _ _ _ _ _
              _ _ _ _ _ E Hin eq_refl) as (-> & _ & Htr & _).
  exists pp', pl', tr. split; [reflexivity | exact Htr].
Defined.

(** X15 on the large dirty page of a file. *)
Lemma checkpage_unloads_once_witness :
  exists r pp' pl' tr,
    checkpage 12 2 false MIN_PO_SHARE large_dirty_page POH_FRONT
      (pageout_init 4) = Done (r, pp', pl', tr) /\
    (count is_unload tr <= 1)%nat /\ (count is_demote tr <= 1)%nat.
Proof.
  destruct (checkpage 12 2 false MIN_PO_SHARE large_dirty_page POH_FRONT
              (pageout_init 4)) as [[[[r pp'] pl'] tr] | |] eqn:E;
    [| vm_compute in E; discriminate E ..].
  exists r, pp', pl', tr. split; [reflexivity|].
  apply (checkpage_unloads_once (page := test_page) 12 _ _ _ _ _ _ _ _ _ _
           test_host_szc_stable E).
Defined.

(** ** The scanner *)

Section ScannerFacts.

Context {world pref page : Type} {host : Host page}
  {mem : Memory world pref page}.
Variable PAGESHIFT : Z.
Variable DISKRPM : Z.

Lemma kernel_steady_refl (k : kernel) : kernel_steady k k.
Proof. unfold kernel_steady. repeat split; try reflexivity. left. reflexivity. Qed.

(** A round of the loop body is a stop at the time budget or the two
    checks and the step of the hands. *)
Lemma scan_body_spec (ckfuel : nat) (rc inst start : Z)
    (v : scan_vars world pref) (c : loop_ctl (scan_vars world pref)) :
  scan_body PAGESHIFT ckfuel rc inst start v = Done c ->
  match c with
  | Continue v' => round_of PAGESHIFT ckfuel v v'
  | Break v' => budget_stop v v' \/ round_of PAGESHIFT ckfuel v v'
  end.
Proof.
  unfold scan_body.
  set (w0 := if Z.land (sv_pcount v) PAGES_POLL_MASK =? PAGES_POLL_MASK
             then _ else _).
  destruct w0 as [over w].
  destruct over.
  { intros H. injection H as <-. left.
    unfold budget_stop. cbn.
    destruct (zones_over (k_sched (sv_kernel v))); repeat split; reflexivity. }
  destruct (checkpage PAGESHIFT ckfuel _ _ (page_at w _) POH_FRONT _)
    as [[[[rvf ppf] plf] tr1] | |] eqn:Ef; try discriminate.
  destruct (checkpage PAGESHIFT ckfuel _ _ (page_at (put_page w _ ppf) _)
              POH_BACK plf)
    as [[[[rvb ppb] plb] tr2] | |] eqn:Eb; try discriminate.
  cbv zeta.
  assert (R : forall h' cnt k' w' extra,
             fronthand h' = page_next (fronthand (sv_hands v)) ->
             backhand h' = page_next (backhand (sv_hands v)) ->
             k_pool k' = plb ->
             kernel_steady (set_pool plb (sv_kernel v)) k' ->
             Forall (fun e : scan_event pref =>
                       match e with ScCheck _ _ _ _ => False | _ => True end)
               extra ->
             round_of PAGESHIFT ckfuel v
               (mkVars h' cnt (u64 (sv_pcount v + 1))
                  (if negb (is_ineligible rvf) || negb (is_ineligible rvb)
                   then u64 (sv_nscan_cnt v + 1) else sv_nscan_cnt v)
                  k' w'
                  ((sv_trace v ++
                    [ScCheck (fronthand (sv_hands v)) POH_FRONT rvf tr1;
                     ScCheck (backhand (sv_hands v)) POH_BACK rvb tr2])
                   ++ extra))).
  { intros h' cnt k' w' extra Hf Hb Hp Hk Hx.
    exists rvf, ppf, plf, tr1, rvb, ppb, tr2, extra, w. cbv zeta.
    cbn [sv_hands sv_pcount sv_nscan_cnt sv_kernel sv_trace].
    rewrite Hp. split; [exact Ef|]. split; [exact Eb|].
    split; [exact Hf|]. split; [exact Hb|].
    split; [reflexivity|]. split; [reflexivity|].
    split; [rewrite <- app_assoc; reflexivity|]. split; [exact Hx|].
    exact Hk. }
  assert (R0 : forall h' cnt k' w',
             fronthand h' = page_next (fronthand (sv_hands v)) ->
             backhand h' = page_next (backhand (sv_hands v)) ->
             k_pool k' = plb ->
             kernel_steady (set_pool plb (sv_kernel v)) k' ->
             round_of PAGESHIFT ckfuel v
               (mkVars h' cnt (u64 (sv_pcount v + 1))
                  (if negb (is_ineligible rvf) || negb (is_ineligible rvb)
                   then u64 (sv_nscan_cnt v + 1) else sv_nscan_cnt v)
                  k' w'
                  (sv_trace v ++
                   [ScCheck (fronthand (sv_hands v)) POH_FRONT rvf tr1;
                    ScCheck (backhand (sv_hands v)) POH_BACK rvb tr2]))).
  { intros h' cnt k' w' Hf Hb Hp Hk.
    rewrite <- (app_nil_r (sv_trace v ++ _)).
    apply R; try assumption. constructor. }
  destruct (same_page _ page_first).
  - destruct (rc =? 0); [discriminate|].
    set (b := u32 (iter (sv_hands v) + 1) mod rc =? 0).
    set (k1 := if b then _ else _).
    assert (Hp1 : k_pool k1 = plb) by (subst k1; destruct b; reflexivity).
    assert (Hs1 : k_sched k1 = k_sched (sv_kernel v))
      by (subst k1; destruct b; reflexivity).
    assert (Hst : kernel_steady (set_pool plb (sv_kernel v)) k1).
    { subst k1. destruct b; unfold kernel_steady; cbn;
        repeat split; try reflexivity; left; reflexivity. }
    destruct (memory_short k1 _).
    + match goal with
      | |- context [if ?c >? 1 then _ else _] => destruct (c >? 1)
      end.
      * destruct (po_share (k_sched k1) <? MAX_PO_SHARE) eqn:Ems.
        -- intros H. injection H as <-.
           apply R; try reflexivity; try exact Hp1.
           ++ destruct Hst as (H1 & H2 & H3 & H4 & _ & _).
              unfold kernel_steady.
              cbn [set_sched k_cal k_clock k_sched].
              split; [exact H1|]. split; [exact H2|]. split; [exact H3|].
              split; [exact H4|]. rewrite Hs1 in *.
              split; [reflexivity|]. right. zbool.
              split; [exact Ems | reflexivity].
           ++ repeat constructor.
        -- intros H. injection H as <-. right.
           rewrite <- (app_assoc _ [ScWrap] [ScGiveUp]).
           apply R; try reflexivity; try exact Hp1; try exact Hst.
           repeat constructor.
      * intros H. injection H as <-.
        apply R; try reflexivity; try exact Hp1; try exact Hst.
        repeat constructor.
    + intros H. injection H as <-.
      apply R; try reflexivity; try exact Hp1; try exact Hst.
      repeat constructor.
  - intros H. injection H as <-.
    apply R0; try reflexivity. unfold kernel_steady. cbn.
    repeat split; try reflexivity. left. reflexivity.
Qed.

(** The scan loop is a run of rounds. *)
Lemma scan_pages_scanned (ckfuel : nat) (tn : tunables)
    (rc inst limit start : Z) (fuel : nat) :
  forall v v' : scan_vars world pref,
    scan_pages PAGESHIFT fuel ckfuel tn rc inst limit start v = Done v' ->
    exists n, (n <= fuel)%nat /\ scanned PAGESHIFT ckfuel tn limit n v v'.
Proof.
  induction fuel as [| fuel IH]; intros v v'; cbn [scan_pages];
    destruct (scan_wanted tn limit v) eqn:Ew; try discriminate.
  - intros H. injection H as <-. exists 0%nat.
    split; [lia | apply scanned_stop].
  - destruct (scan_body PAGESHIFT ckfuel rc inst start v) as [[v1 | v1] | |]
      eqn:Eb; try discriminate; apply scan_body_spec in Eb.
    + intros H. apply IH in H. destruct H as (n & Hn & Hs).
      exists (S n). split; [lia|].
      eapply scanned_round; eassumption.
    + intros H. injection H as <-. destruct Eb as [Eb | Eb].
      * exists 0%nat. split; [lia|]. apply scanned_budget; assumption.
      * exists 1%nat. split; [lia|].
        eapply scanned_round; [exact Ew | exact Eb | apply scanned_stop].
  - intros H. injection H as <-. exists 0%nat.
    split; [lia | apply scanned_stop].
Qed.

Lemma visits_app (a b : list (scan_event pref)) :
  visits (a ++ b) = visits a ++ visits b.
Proof. unfold visits. apply flat_map_app. Qed.

Lemma page_calls_app (a b : list (scan_event pref)) :
  page_calls (a ++ b) = page_calls a ++ page_calls b.
Proof. unfold page_calls. apply flat_map_app. Qed.

Lemma no_checks (extra : list (scan_event pref)) :
  Forall (fun e => match e with ScCheck _ _ _ _ => False | _ => True end)
    extra ->
  visits extra = [] /\ page_calls extra = [].
Proof.
  induction 1 as [| e l He _ [IH1 IH2]]; [split; reflexivity|].
  destruct e; try contradiction; cbn; auto.
Qed.

Lemma no_checks_pool (evs : list pool_event) :
  visits (map (@ScPool pref) evs) = [] /\
  page_calls (map (@ScPool pref) evs) = [].
Proof. induction evs as [| e l [IH1 IH2]]; cbn; auto. Qed.

(** The hands move together, and the pages looked at are those under
    them. *)
Lemma scanned_hands (ckfuel : nat) (tn : tunables) (limit : Z) (n : nat)
    (v v' : scan_vars world pref) :
  scanned PAGESHIFT ckfuel tn limit n v v' ->
  fronthand (sv_hands v') = advance n (fronthand (sv_hands v)) /\
  backhand (sv_hands v') = advance n (backhand (sv_hands v)) /\
  visits (sv_trace v') =
    visits (sv_trace v) ++
    sweep n (fronthand (sv_hands v)) (backhand (sv_hands v)).
Proof.
  induction 1 as [v | v v' Hw Hb | n v v1 v2 Hw Hr Hs IH].
  - cbn. rewrite app_nil_r. auto.
  - destruct Hb as (Hh & _ & _ & Ht & _). rewrite Hh, Ht, visits_app. cbn.
    auto.
  - destruct Hr as (rvf & ppf & plf & tr1 & rvb & ppb & tr2 & extra & w &
                    _ & _ & Hf & Hbk & _ & _ & Ht & Hx & _).
    destruct IH as (IH1 & IH2 & IH3).
    rewrite Hf, Hbk in *. cbn [advance sweep].
    split; [exact IH1|]. split; [exact IH2|].
    rewrite IH3, Ht, !visits_app.
    destruct (no_checks extra Hx) as [-> _]. cbn.
    rewrite <- !app_assoc. reflexivity.
Qed.

(** The pages counted never exceed the limit of the wake-up nor the
    rounds made. *)
Lemma scanned_counts (ckfuel : nat) (tn : tunables) (limit : Z) (n : nat)
    (v v' : scan_vars world pref) :
  scanned PAGESHIFT ckfuel tn limit n v v' ->
  limit < 2 ^ 64 -> 0 <= sv_nscan_cnt v ->
  sv_nscan_cnt v <= sv_nscan_cnt v' <= sv_nscan_cnt v + Z.of_nat n /\
  sv_nscan_cnt v' <= Z.max limit (sv_nscan_cnt v) /\
  u64 (sv_pcount v') = u64 (sv_pcount v + Z.of_nat n).
Proof.
  intros Hs Hlim. induction Hs as [v | v v' Hw Hb | n v v1 v2 Hw Hr Hs IH];
    intros H0.
  - cbn [Z.of_nat]. rewrite !Z.add_0_r. repeat split; try reflexivity; lia.
  - destruct Hb as (_ & Hp & Hn & _). cbn [Z.of_nat].
    rewrite Hp, Hn, !Z.add_0_r. repeat split; try reflexivity; lia.
  - destruct Hr as (rvf & ppf & plf & tr1 & rvb & ppb & tr2 & extra & w &
                    _ & _ & _ & _ & Hp & Hn & _).
    unfold scan_wanted in Hw. apply andb_true_iff in Hw.
    destruct Hw as [Hw _]. zbool.
    assert (H1 : sv_nscan_cnt v <= sv_nscan_cnt v1 <= sv_nscan_cnt v + 1 /\
                 sv_nscan_cnt v1 <= limit).
    { rewrite Hn.
      destruct (negb (is_ineligible rvf) || negb (is_ineligible rvb));
        [rewrite u64_id by lia|]; lia. }
    destruct IH as (IH1 & IH2 & IH3); [lia|].
    split; [lia|]. split; [lia|].
    rewrite IH3, Hp. rewrite Nat2Z.inj_succ. unfold u64.
    rewrite Z.add_mod_idemp_l by lia. f_equal. lia.
Qed.

Lemma scanned_pcount (ckfuel : nat) (tn : tunables) (limit : Z) (n : nat)
    (v v' : scan_vars world pref) :
  scanned PAGESHIFT ckfuel tn limit n v v' ->
  u64 (sv_pcount v') = u64 (sv_pcount v + Z.of_nat n).
Proof.
  induction 1 as [v | v v' Hw Hb | n v v1 v2 Hw Hr Hs IH].
  - cbn [Z.of_nat]. rewrite Z.add_0_r. reflexivity.
  - destruct Hb as (_ & Hp & _). cbn [Z.of_nat].
    rewrite Hp, Z.add_0_r. reflexivity.
  - destruct Hr as (rvf & ppf & plf & tr1 & rvb & ppb & tr2 & extra & w &
                    _ & _ & _ & _ & Hp & _).
    rewrite IH, Hp. rewrite Nat2Z.inj_succ. unfold u64.
    rewrite Z.add_mod_idemp_l by lia. f_equal. lia.
Qed.

(** What a run leaves alone in the globals, and what it does to
    [po_share]. *)
Lemma scanned_kernel (ckfuel : nat) (tn : tunables) (limit : Z) (n : nat)
    (v v' : scan_vars world pref) :
  scanned PAGESHIFT ckfuel tn limit n v v' ->
  k_cal (sv_kernel v') = k_cal (sv_kernel v) /\
  cs_init (k_clock (sv_kernel v')) = cs_init (k_clock (sv_kernel v)) /\
  cs_paging (k_clock (sv_kernel v')) = cs_paging (k_clock (sv_kernel v)) /\
  n_page_scanners (cs_scan (k_clock (sv_kernel v')))
    = n_page_scanners (cs_scan (k_clock (sv_kernel v))) /\
  set_po_share 0 (k_sched (sv_kernel v'))
    = set_po_share 0 (k_sched (sv_kernel v)) /\
  (po_share_ladder (po_share (k_sched (sv_kernel v))) ->
   po_share_ladder (po_share (k_sched (sv_kernel v'))) /\
   po_share (k_sched (sv_kernel v)) <= po_share (k_sched (sv_kernel v'))).
Proof.
  induction 1 as [v | v v' Hw Hb | n v v1 v2 Hw Hr Hs IH].
  - repeat split; try reflexivity; try assumption; try lia.
  - destruct Hb as (_ & _ & _ & _ & _ & Hc & Hss & Hcal).
    rewrite Hc, Hss, Hcal.
    repeat split; try reflexivity; try assumption; try lia.
  - destruct Hr as (rvf & ppf & plf & tr1 & rvb & ppb & tr2 & extra & w &
                    _ & _ & _ & _ & _ & _ & _ & _ & Hk).
    destruct Hk as (K1 & K2 & K3 & K4 & K5 & K6).
    destruct IH as (I1 & I2 & I3 & I4 & I5 & I6).
    split; [congruence|]. split; [congruence|]. split; [congruence|].
    split; [congruence|]. split; [congruence|].
    intros Hl.
    assert (Hl1 : po_share_ladder (po_share (k_sched (sv_kernel v1))) /\
                  po_share (k_sched (sv_kernel v))
                  <= po_share (k_sched (sv_kernel v1))).
    { destruct K6 as [-> | [Hlt ->]]; [split; [exact Hl | lia]|].
      destruct Hl as (j & Hj & Ej). rewrite Ej in *.
      unfold MAX_PO_SHARE, MIN_PO_SHARE in *.
      rewrite Z.shiftl_mul_pow2 in * by lia. change (2 ^ 1) with 2.
      assert (Hj' : j < 24).
      { destruct (Z_lt_ge_dec j 24) as [? | Hge]; [assumption|].
        assert (2 ^ 24 <= 2 ^ j) by (apply Z.pow_le_mono_r; lia). lia. }
      assert (E2 : 8 * 2 ^ j * 2 = 8 * 2 ^ (j + 1))
        by (rewrite Z.pow_add_r by lia; change (2 ^ 1) with 2; lia).
      assert (2 ^ (j + 1) <= 2 ^ 24) by (apply Z.pow_le_mono_r; lia).
      assert (0 < 2 ^ j) by (apply Z.pow_pos_nonneg; lia).
      change (2 ^ 24) with 16777216 in *.
      rewrite u64_id by lia.
      split; [exists (j + 1); split; [lia | exact E2] | lia]. }
    destruct Hl1 as [Hl1 Hle]. destruct (I6 Hl1) as [Hl2 Hle2].
    split; [exact Hl2 | lia].
Qed.

(** What the reset leaves: the hands as they were, or at their place on
    the clock face. *)
Lemma scanner_reset_spec (T inst : Z) (h h0 : hands pref) (k k0 : kernel) :
  scanner_reset T inst h k = Done (Rescan (h0, k0)) ->
  let sc := cs_scan (k_clock k) in
  let hsp := handspreadpages (cs_paging (k_clock k)) in
  (k_cal k0 = k_cal k /\ k_sched k0 = k_sched k /\ k_pool k0 = k_pool k /\
   cs_init (k_clock k0) = cs_init (k_clock k) /\
   cs_paging (k_clock k0) = cs_paging (k_clock k) /\
   n_page_scanners (cs_scan (k_clock k0)) = n_page_scanners sc /\
   pageout_timeouts k0 = pageout_timeouts k /\ iter h0 = iter h) /\
  (if nth (Z.to_nat inst) (reset_hands sc) false then
     n_page_scanners sc <> 0 /\ inst < n_page_scanners sc /\
     backhand h0 =
       page_nextn page_first (u64 (T / n_page_scanners sc * inst)) /\
     fronthand h0 =
       page_nextn (backhand h0) (if hsp >=? T then u64 (T - 1) else hsp) /\
     k0 = set_clock (set_reset_hand inst false (k_clock k)) k
   else h0 = h /\ k0 = k).
Proof.
  unfold scanner_reset. cbv zeta.
  destruct (nth (Z.to_nat inst) (reset_hands (cs_scan (k_clock k))) false).
  - destruct (n_page_scanners (cs_scan (k_clock k)) =? 0) eqn:En;
      [discriminate|].
    destruct (inst >=? n_page_scanners (cs_scan (k_clock k))) eqn:Ei.
    + destruct (inst =? 0); discriminate.
    + intros H. injection H as <- <-. zbool. cbn.
      repeat split; try reflexivity; try assumption; try lia.
      destruct (handspreadpages (cs_paging (k_clock k)) >=? T); reflexivity.
  - intros H. injection H as <- <-. repeat split; reflexivity.
Qed.

(** What the sampling leaves alone. *)
Lemma scanner_sample_spec (tn : tunables) (T inst : Z) (clkfuel : nat)
    (pcount elapsed : Z) (k k' : kernel) :
  scanner_sample PAGESHIFT DISKRPM tn T inst clkfuel pcount elapsed k
    = Done (Some k') ->
  k_sched k' = k_sched k /\ k_pool k' = k_pool k /\
  pageout_timeouts k' = pageout_timeouts k /\
  (PAGE_SCAN_STARTUP tn (k_cal k) = false ->
   pageout_new_spread (k_cal k) <> 0 -> k' = k).
Proof.
  unfold scanner_sample. cbv zeta.
  destruct (PAGE_SCAN_STARTUP tn (k_cal k)).
  - destruct (negb (inst =? 0)); [discriminate|].
    intros H. injection H as <-. cbn.
    repeat split; try reflexivity. discriminate.
  - destruct (pageout_new_spread (k_cal k) =? 0) eqn:Es.
    + destruct (negb (inst =? 0)); [discriminate|].
      destruct (pageout_sample_etime (k_cal k) =? 0); [discriminate|].
      destruct (setupclock _ _ _ _ _ _ _) as [st | |] eqn:Ec;
        try discriminate.
      intros H. injection H as <-. cbn.
      repeat split; try reflexivity.
      zbool. intros _ Hne. contradiction.
    + intros H. injection H as <-. repeat split; reflexivity.
Qed.

(** A wake-up that goes back to the wait, taken apart: the reset, the run
    of the loop, the account of [nscan] and the sampling. *)
Lemma cycle_spec (tn : tunables) (dop rc T inst : Z)
    (fuel ckfuel clkfuel : nat) (h h' : hands pref) (k k' : kernel)
    (w w' : world) (tr : list (scan_event pref)) :
  pageout_scanner_cycle PAGESHIFT DISKRPM tn dop rc T inst fuel ckfuel
    clkfuel h k w = Done (Rescan (h', k', w', tr)) ->
  dop <> 0 ->
  exists h0 k0 n v elapsed,
    scanner_reset T inst h k = Done (Rescan (h0, k0)) /\
    (n <= fuel)%nat /\
    scanned PAGESHIFT ckfuel tn
      (if PAGE_SCAN_STARTUP tn (k_cal k0) then T else desscan (k_sched k0))
      n (mkVars h0 0 0 0 k0 (snd (gethrtime w)) []) v /\
    h' = sv_hands v /\
    scanner_sample PAGESHIFT DISKRPM tn T inst clkfuel (sv_pcount v) elapsed
      (set_sched
         (set_nscan (u64 (nscan (k_sched (sv_kernel v)) + sv_nscan_cnt v))
            (k_sched (sv_kernel v))) (sv_kernel v)) = Done (Some k') /\
    tr = sv_trace v ++ map ScPool (cv_signal_pageout (k_pool k')).
Proof.
  intros Hc Hd. revert Hc. unfold pageout_scanner_cycle.
  apply Z.eqb_neq in Hd. rewrite Hd.
  destruct (scanner_reset T inst h k) as [[[h0 k0] | [h0 k0] |] | |] eqn:Er;
    try discriminate.
  cbv zeta. destruct (gethrtime w) as [start w1] eqn:Eg.
  destruct (scan_pages _ _ _ _ _ _ _ _ _) as [v | |] eqn:Es;
    try discriminate.
  apply scan_pages_scanned in Es. destruct Es as (n & Hn & Hs).
  destruct (gethrtime (sv_world v)) as [stop w2].
  destruct (scanner_sample _ _ _ _ _ _ _ _ _) as [[k1 |] | |] eqn:Ea;
    try discriminate.
  intros H. injection H as <- <- <- <-.
  exists h0, k0, n, v, (s64 (stop - start)).
  repeat split; try reflexivity; assumption.
Qed.

Lemma sweep_length (n : nat) :
  forall f b : pref, length (sweep n f b) = (2 * n)%nat.
Proof.
  induction n as [| n IH]; intros f b; [reflexivity|].
  cbn [sweep length]. rewrite IH. lia.
Qed.

(** The pages a wake-up looked at. *)
Lemma cycle_visits (k' : kernel) (v : scan_vars world pref)
    (l : list (pref * pageout_hand_t)) :
  visits (sv_trace v) = l ->
  visits (sv_trace v ++ map ScPool (cv_signal_pageout (k_pool k'))) = l.
Proof.
  intros <-. rewrite visits_app.
  destruct (no_checks_pool (cv_signal_pageout (k_pool k'))) as [-> _].
  apply app_nil_r.
Qed.

(** X16.  The two hands sweep together.  In a wake-up that goes back
    to the wait the loop made some number [n] of rounds, no more than its
    budget; the pages given to [checkpage] are, in order, the page under
    the front hand and the page under the back hand of each round, from
    the hands the wake-up started with (those of the last wake-up, or the
    reset ones), one page further in every round; and the hands are left
    [n] pages further, for the next wake-up. *)
Theorem scanner_sweeps_in_step (tn : tunables) (dop rc T inst : Z)
    (fuel ckfuel clkfuel : nat) (h h' : hands pref) (k k' : kernel)
    (w w' : world) (tr : list (scan_event pref)) :
  dop <> 0 ->
  pageout_scanner_cycle PAGESHIFT DISKRPM tn dop rc T inst fuel ckfuel
    clkfuel h k w = Done (Rescan (h', k', w', tr)) ->
  exists h0 k0 n,
    scanner_reset T inst h k = Done (Rescan (h0, k0)) /\
    (n <= fuel)%nat /\
    visits tr = sweep n (fronthand h0) (backhand h0) /\
    fronthand h' = advance n (fronthand h0) /\
    backhand h' = advance n (backhand h0) /\
    length (visits tr) = (2 * n)%nat.
Proof.
  intros Hd Hc.
  destruct (cycle_spec _ _ _ _ _ _ _ _ _ _ _ _ _ _ _ Hc Hd)
    as (h0 & k0 & n & v & el & Hr & Hn & Hs & -> & _ & ->).
  destruct (scanned_hands _ _ _ _ _ _ Hs) as (Hf & Hb & Hv).
  cbn [sv_hands sv_trace fronthand backhand visits flat_map app] in Hf, Hb, Hv.
  exists h0, k0, n.
  pose proof (cycle_visits k' v _ Hv) as Ev.
  repeat split; try assumption.
  rewrite Ev. apply sweep_length.
Qed.

Lemma advance_nextn (n : nat) :
  page_ring -> forall (p : pref) (d : Z),
    advance n (page_nextn p d) = page_nextn (advance n p) d.
Proof.
  intros Hring. induction n as [| n IH]; intros p d; [reflexivity|].
  cbn [advance]. rewrite <- Hring. apply IH.
Qed.

(** X17.  The hands keep their distance.  On a page array where a hand
    [d] pages ahead of another stays [d] pages ahead when both step, a
    wake-up that goes back to the wait leaves the front hand as far ahead
    of the back hand as it found it; and a wake-up that found the reset
    flag of the instance set leaves it [handspreadpages] ahead, or
    [total_pages - 1] when [handspreadpages] is not below [total_pages],
    the back hand having started [inst] times
    [total_pages / n_page_scanners] pages after the first page. *)
Theorem scanner_keeps_spread (tn : tunables) (dop rc T inst : Z)
    (fuel ckfuel clkfuel : nat) (h h' : hands pref) (k k' : kernel)
    (w w' : world) (tr : list (scan_event pref)) :
  page_ring ->
  pageout_scanner_cycle PAGESHIFT DISKRPM tn dop rc T inst fuel ckfuel
    clkfuel h k w = Done (Rescan (h', k', w', tr)) ->
  let sc := cs_scan (k_clock k) in
  let hsp := handspreadpages (cs_paging (k_clock k)) in
  if negb (dop =? 0) && nth (Z.to_nat inst) (reset_hands sc) false then
    fronthand h' =
      page_nextn (backhand h') (if hsp >=? T then u64 (T - 1) else hsp) /\
    exists n,
      backhand h' =
        advance n
          (page_nextn page_first (u64 (T / n_page_scanners sc * inst)))
  else
    forall d, fronthand h = page_nextn (backhand h) d ->
              fronthand h' = page_nextn (backhand h') d.
Proof.
  intros Hring Hc sc hsp.
  destruct (dop =? 0) eqn:Hd; cbn [negb andb].
  - revert Hc. unfold pageout_scanner_cycle. rewrite Hd.
    intros H. injection H as <- _ _ _. auto.
  - apply Z.eqb_neq in Hd.
    destruct (cycle_spec _ _ _ _ _ _ _ _ _ _ _ _ _ _ _ Hc Hd)
      as (h0 & k0 & n & v & el & Hr & Hn & Hs & -> & _ & ->).
    destruct (scanned_hands _ _ _ _ _ _ Hs) as (Hf & Hb & _).
    cbn [sv_hands fronthand backhand] in Hf, Hb.
    destruct (scanner_reset_spec _ _ _ _ _ _ Hr) as [_ Hpos].
    cbv zeta in Hpos. fold sc hsp in Hpos.
    destruct (nth (Z.to_nat inst) (reset_hands sc) false).
    + destruct Hpos as (_ & _ & Hb0 & Hf0 & _).
      split.
      * rewrite Hf, Hb, Hf0. apply advance_nextn. exact Hring.
      * exists n. rewrite Hb, Hb0. reflexivity.
    + destruct Hpos as [-> _]. intros d Hd0.
      rewrite Hf, Hb, Hd0. apply advance_nextn. exact Hring.
Qed.

(** X18.  The page budget of a wake-up.  The limit is [total_pages]
    while the sampling goes on and [desscan] after it.  A wake-up that goes
    back to the wait adds to [nscan] the number of pages it counted, which
    is at most the number of rounds it made and at most the limit: with a
    limit of zero nothing is counted.  It made two calls of [checkpage] a
    round. *)
Theorem scanner_page_budget (tn : tunables) (dop rc T inst : Z)
    (fuel ckfuel clkfuel : nat) (h h' : hands pref) (k k' : kernel)
    (w w' : world) (tr : list (scan_event pref)) :
  dop <> 0 ->
  let limit :=
    if PAGE_SCAN_STARTUP tn (k_cal k) then T else desscan (k_sched k) in
  limit < 2 ^ 64 ->
  pageout_scanner_cycle PAGESHIFT DISKRPM tn dop rc T inst fuel ckfuel
    clkfuel h k w = Done (Rescan (h', k', w', tr)) ->
  exists (n : nat) (cnt : Z),
    length (visits tr) = (2 * n)%nat /\ (n <= fuel)%nat /\
    0 <= cnt <= Z.of_nat n /\ cnt <= Z.max limit 0 /\
    nscan (k_sched k') = u64 (nscan (k_sched k) + cnt).
Proof.
  intros Hd limit Hlim Hc.
  destruct (cycle_spec _ _ _ _ _ _ _ _ _ _ _ _ _ _ _ Hc Hd)
    as (h0 & k0 & n & v & el & Hr & Hn & Hs & -> & Ha & ->).
  destruct (scanner_reset_spec _ _ _ _ _ _ Hr)
    as [(Ecal & Ess & _) _].
  rewrite Ecal, Ess in Hs. fold limit in Hs.
  destruct (scanned_hands _ _ _ _ _ _ Hs) as (_ & _ & Hv).
  cbn [sv_trace visits flat_map app] in Hv.
  destruct (scanned_counts _ _ _ _ _ _ Hs Hlim) as (Hc1 & Hc2 & _);
    [cbn; lia|].
  cbn [sv_nscan_cnt] in Hc1, Hc2.
  destruct (scanned_kernel _ _ _ _ _ _ Hs) as (_ & _ & _ & _ & K5 & _).
  cbn [sv_kernel] in K5.
  destruct (scanner_sample_spec _ _ _ _ _ _ _ _ Ha) as (Hss & _).
  exists n, (sv_nscan_cnt v).
  split; [rewrite (cycle_visits k' v _ Hv); apply sweep_length|].
  split; [exact Hn|]. split; [lia|]. split; [lia|].
  rewrite Hss. cbn [k_sched set_sched set_nscan nscan].
  apply (f_equal nscan) in K5. cbn [set_po_share nscan] in K5.
  rewrite K5, Ess. reflexivity.
Qed.

(** X19.  The scanner and [po_share].  A wake-up raises [po_share] only
    by doubling it while it is below [MAX_PO_SHARE]: a value of the form
    [MIN_PO_SHARE * 2 ^ j] with [j <= 24] stays of that form, is never
    lowered by the scanner and never passes [MAX_PO_SHARE].  The other
    values that [schedpaging] publishes, [desscan], [pageout_nsec] and
    [zones_over], are left as they were. *)
Theorem scanner_po_share_ladder (tn : tunables) (dop rc T inst : Z)
    (fuel ckfuel clkfuel : nat) (h h' : hands pref) (k k' : kernel)
    (w w' : world) (tr : list (scan_event pref)) :
  po_share_ladder (po_share (k_sched k)) ->
  pageout_scanner_cycle PAGESHIFT DISKRPM tn dop rc T inst fuel ckfuel
    clkfuel h k w = Done (Rescan (h', k', w', tr)) ->
  po_share_ladder (po_share (k_sched k')) /\
  po_share (k_sched k) <= po_share (k_sched k') <= MAX_PO_SHARE /\
  desscan (k_sched k') = desscan (k_sched k) /\
  pageout_nsec (k_sched k') = pageout_nsec (k_sched k) /\
  zones_over (k_sched k') = zones_over (k_sched k).
Proof.
  intros Hl Hc.
  destruct (dop =? 0) eqn:Hd.
  - revert Hc. unfold pageout_scanner_cycle. rewrite Hd.
    intros H. injection H as _ <- _ _.
    pose proof (po_share_ladder_range _ Hl).
    repeat split; try reflexivity; try assumption; lia.
  - apply Z.eqb_neq in Hd.
    destruct (cycle_spec _ _ _ _ _ _ _ _ _ _ _ _ _ _ _ Hc Hd)
      as (h0 & k0 & n & v & el & Hr & Hn & Hs & -> & Ha & ->).
    destruct (scanner_reset_spec _ _ _ _ _ _ Hr) as [(_ & Ess & _) _].
    destruct (scanned_kernel _ _ _ _ _ _ Hs) as (_ & _ & _ & _ & K5 & K6).
    cbn [sv_kernel] in K5, K6. rewrite Ess in K5, K6.
    destruct (K6 Hl) as [Hl' Hle].
    destruct (scanner_sample_spec _ _ _ _ _ _ _ _ Ha) as (Hss & _).
    rewrite Hss. cbn [k_sched set_sched set_nscan po_share desscan
                      pageout_nsec zones_over].
    pose proof (po_share_ladder_range _ Hl').
    split; [exact Hl'|]. split; [lia|].
    pose proof (f_equal desscan K5) as E1.
    pose proof (f_equal pageout_nsec K5) as E2.
    pose proof (f_equal zones_over K5) as E3.
    cbn in E1, E2, E3. auto.
Qed.

Lemma pool_grown_refl (pl : pool) : pool_grown PAGESHIFT pl pl.
Proof.
  exists []. cbn [app length]. rewrite Nat.add_0_r.
  repeat split; try reflexivity. constructor.
Qed.

Lemma pool_grown_trans (pl pl1 pl2 : pool) :
  pool_grown PAGESHIFT pl pl1 -> pool_grown PAGESHIFT pl1 pl2 ->
  pool_grown PAGESHIFT pl pl2.
Proof.
  intros (a1 & P1 & L1 & F1 & B1 & C1 & S1) (a2 & P2 & L2 & F2 & B2 & C2 & S2).
  exists (a2 ++ a1). rewrite P2, P1, app_assoc, length_app.
  split; [reflexivity|]. split; [lia|].
  split; [apply Forall_app; split; assumption|].
  repeat split; congruence.
Qed.

(** A call of [checkpage] gives back the lock it took and leaves the pool
    as it was or with one request more. *)
Lemma checkpage_effect (fuel : nat) (zones : bool) (share : Z) (pp : page)
    (hand : pageout_hand_t) (pl : pool) (r : checkpage_result_t) (pp' : page)
    (pl' : pool) (tr : list ckp_event) :
  checkpage PAGESHIFT fuel zones share pp hand pl = Done (r, pp', pl', tr) ->
  locks_held tr = 0 /\ pool_grown PAGESHIFT pl pl'.
Proof.
  intros Hck. apply checkpage_shape in Hck.
  destruct Hck as [(_ & -> & [-> | [-> | ->]]) | Hck];
    try (split; [reflexivity | apply pool_grown_refl]).
  destruct Hck as (flags & attrs & mid & fin & -> & Hmid & Hend).
  split.
  - destruct (ending_facts _ _ _ _ _ _ Hend) as (Hl & Hud & _).
    unfold locks_held.
    rewrite (count_continued is_locked_ok), (count_continued is_unlock),
      (count_continued is_dispose); try exact Hmid; try neutral_case.
    cbn [is_locked_ok is_unlock is_dispose]. rewrite Hl.
    destruct Hud as [[-> ->] | (-> & -> & _)]; reflexivity.
  - destruct Hend as [Hh | Hh | | vp0 off0 Hq | vp0 off0 pl0 evs zid s Hq
                      | stats Hstats]; try apply pool_grown_refl.
    destruct (queue_io_request_cases PAGESHIFT vp0 off0 pl)
      as [[_ Hq'] | (slot & rest & Hf & Hq')]; rewrite Hq in Hq';
      [discriminate|].
    injection Hq' as -> _.
    exists [mkReq (Some vp0) off0 (PAGESIZE PAGESHIFT) [B_ASYNC; B_FREE]
              (Some kcred)].
    cbn [push_list req_freelist pageout_pushing pageout_pushcount pushes
         app length].
    rewrite Hf. cbn [length].
    split; [reflexivity|]. split; [lia|].
    split; [|repeat split; reflexivity].
    constructor; [|constructor]. cbn. repeat split. discriminate.
Qed.

Lemma locks_held_app (a b : list ckp_event) :
  locks_held (a ++ b) = locks_held a + locks_held b.
Proof. unfold locks_held. rewrite !count_app. lia. Qed.

(** A run gives every lock back and only queues requests. *)
Lemma scanned_pool (ckfuel : nat) (tn : tunables) (limit : Z) (n : nat)
    (v v' : scan_vars world pref) :
  scanned PAGESHIFT ckfuel tn limit n v v' ->
  locks_held (page_calls (sv_trace v')) = locks_held (page_calls (sv_trace v))
  /\ pool_grown PAGESHIFT (k_pool (sv_kernel v)) (k_pool (sv_kernel v')).
Proof.
  induction 1 as [v | v v' Hw Hb | n v v1 v2 Hw Hr Hs IH].
  - split; [reflexivity | apply pool_grown_refl].
  - destruct Hb as (_ & _ & _ & Ht & Hp & _). rewrite Ht, Hp.
    rewrite page_calls_app, locks_held_app. cbn.
    split; [unfold locks_held; cbn; lia | apply pool_grown_refl].
  - destruct Hr as (rvf & ppf & plf & tr1 & rvb & ppb & tr2 & extra & w &
                    Hf & Hbk & _ & _ & _ & _ & Ht & Hx & _).
    cbv zeta in Hf, Hbk.
    apply checkpage_effect in Hf. apply checkpage_effect in Hbk.
    destruct Hf as [Lf Gf]. destruct Hbk as [Lb Gb].
    destruct IH as [IH1 IH2]. split.
    + rewrite IH1, Ht, !page_calls_app.
      destruct (no_checks extra Hx) as [_ ->].
      cbn [page_calls flat_map]. rewrite !app_nil_r.
      rewrite !locks_held_app. lia.
    + eapply pool_grown_trans; [|exact IH2].
      eapply pool_grown_trans; eassumption.
Qed.

(** X20.  The scanner, the page locks and the pool.  Over a whole
    wake-up every page lock that a call of [checkpage] took was given
    back: none is held while the scanner waits.  To the pool the wake-up
    only adds: the pending list is the old one with requests of one page,
    [B_ASYNC | B_FREE] and [kcred] in front, the freelist is shorter by
    their number, so that no request is lost; what the pageout thread
    keeps, [pageout_pushing], [pageout_pushcount] and [pushes], is left
    alone. *)
Theorem scanner_locks_and_pool (tn : tunables) (dop rc T inst : Z)
    (fuel ckfuel clkfuel : nat) (h h' : hands pref) (k k' : kernel)
    (w w' : world) (tr : list (scan_event pref)) :
  pageout_scanner_cycle PAGESHIFT DISKRPM tn dop rc T inst fuel ckfuel
    clkfuel h k w = Done (Rescan (h', k', w', tr)) ->
  locks_held (page_calls tr) = 0 /\
  pool_grown PAGESHIFT (k_pool k) (k_pool k') /\
  (length (push_list (k_pool k')) + length (req_freelist (k_pool k')))%nat
  = (length (push_list (k_pool k)) + length (req_freelist (k_pool k)))%nat.
Proof.
  intros Hc.
  assert (H : locks_held (page_calls tr) = 0 /\
              pool_grown PAGESHIFT (k_pool k) (k_pool k')).
  { destruct (dop =? 0) eqn:Hd.
    - revert Hc. unfold pageout_scanner_cycle. rewrite Hd.
      intros H. injection H as _ <- _ <-.
      destruct (no_checks_pool (cv_signal_pageout (k_pool k))) as [_ ->].
      split; [reflexivity | apply pool_grown_refl].
    - apply Z.eqb_neq in Hd.
      destruct (cycle_spec _ _ _ _ _ _ _ _ _ _ _ _ _ _ _ Hc Hd)
        as (h0 & k0 & n & v & el & Hr & Hn & Hs & -> & Ha & ->).
      destruct (scanner_reset_spec _ _ _ _ _ _ Hr) as [(_ & _ & Ep & _) _].
      destruct (scanned_pool _ _ _ _ _ _ Hs) as [Hl Hg].
      cbn [sv_trace sv_kernel page_calls flat_map] in Hl, Hg.
      destruct (scanner_sample_spec _ _ _ _ _ _ _ _ Ha) as (_ & Hp & _).
      cbn [k_pool set_sched] in Hp. rewrite Hp, <- Ep.
      split; [|exact Hg].
      rewrite page_calls_app.
      destruct (no_checks_pool (cv_signal_pageout (k_pool (sv_kernel v))))
        as [_ ->].
      rewrite app_nil_r. exact Hl. }
  destruct H as [Hl Hg]. split; [exact Hl|]. split; [exact Hg|].
  destruct Hg as (added & P & L & _). rewrite P, length_app. lia.
Qed.

(** X21.  A scanner with nothing to do.  With [dopageout] at zero a
    wake-up does nothing but signal the pageout thread again.  Otherwise,
    with the reset flag of the instance clear and the calibration done,
    when [desscan] is zero, or no zone is over its cap and memory is not
    short, the wake-up returns whatever its loop budget, has looked at no
    page, leaves the hands, the pool and the thresholds as they were, and
    leaves [nscan] at its value. *)
Theorem scanner_idle (tn : tunables) (dop rc T inst : Z)
    (fuel ckfuel clkfuel : nat) (h : hands pref) (k : kernel) (w : world) :
  (dop = 0 ->
   pageout_scanner_cycle PAGESHIFT DISKRPM tn dop rc T inst fuel ckfuel
     clkfuel h k w =
   Done (Rescan (h, k, w, map ScPool (cv_signal_pageout (k_pool k))))) /\
  (dop <> 0 ->
   nth (Z.to_nat inst) (reset_hands (cs_scan (k_clock k))) false = false ->
   PAGE_SCAN_STARTUP tn (k_cal k) = false ->
   pageout_new_spread (k_cal k) <> 0 ->
   desscan (k_sched k) <= 0 \/
   (zones_over (k_sched k) = false /\
    memory_short k (snd (gethrtime w)) = false) ->
   pageout_scanner_cycle PAGESHIFT DISKRPM tn dop rc T inst fuel ckfuel
     clkfuel h k w =
   Done (Rescan (h,
                 set_sched (set_nscan (u64 (nscan (k_sched k)))
                              (k_sched k)) k,
                 snd (gethrtime (snd (gethrtime w))),
                 map ScPool (cv_signal_pageout (k_pool k))))).
Proof.
  split.
  - intros ->. reflexivity.
  - intros Hd Hl Hst Hsp Hidle. unfold pageout_scanner_cycle.
    apply Z.eqb_neq in Hd. rewrite Hd.
    unfold scanner_reset. cbv zeta. rewrite Hl, Hst.
    destruct (gethrtime w) as [start w1]. cbn [snd] in *.
    assert (Ew : scan_wanted tn (desscan (k_sched k))
                   (mkVars h 0 0 0 k w1 []) = false).
    { unfold scan_wanted. cbn [sv_nscan_cnt sv_kernel sv_world].
      rewrite Hst. destruct Hidle as [Hz | [Hz Hm]].
      - assert (E : (0 <? desscan (k_sched k)) = false)
          by (apply Z.ltb_ge; lia).
        rewrite E. reflexivity.
      - rewrite Hz, Hm. apply andb_false_r. }
    assert (Es : scan_pages PAGESHIFT fuel ckfuel tn rc inst
                   (desscan (k_sched k)) start (mkVars h 0 0 0 k w1 [])
                 = Done (mkVars h 0 0 0 k w1 []))
      by (destruct fuel; cbn [scan_pages]; rewrite Ew; reflexivity).
    rewrite Es. cbn [sv_kernel sv_world sv_nscan_cnt sv_hands sv_trace
                     sv_pcount].
    destruct (gethrtime w1) as [stop w2]. cbn [snd].
    unfold scanner_sample. cbn [k_cal set_sched]. rewrite Hst.
    apply Z.eqb_neq in Hsp. rewrite Hsp. rewrite Z.add_0_r. reflexivity.
Qed.

(** The way to the exit of the thread. *)
Lemma scanner_exits (tn : tunables) (dop rc T inst : Z)
    (fuel ckfuel clkfuel : nat) (h : hands pref) (k : kernel) (w : world) :
  dop <> 0 ->
  nth (Z.to_nat inst) (reset_hands (cs_scan (k_clock k))) false = true ->
  0 < n_page_scanners (cs_scan (k_clock k)) <= inst ->
  pageout_scanner_cycle PAGESHIFT DISKRPM tn dop rc T inst fuel ckfuel
    clkfuel h k w =
  Done (LwpExit (h, set_clock (set_reset_hand inst false (k_clock k)) k,
                 w, [])).
Proof.
  intros Hd Hf Hn. unfold pageout_scanner_cycle, scanner_reset.
  apply Z.eqb_neq in Hd. rewrite Hd. cbv zeta. rewrite Hf.
  set (n := n_page_scanners (cs_scan (k_clock k))) in *.
  assert (E1 : (n =? 0) = false) by (apply Z.eqb_neq; lia).
  assert (E2 : (inst >=? n) = true)
    by (rewrite Z.geb_leb; apply Z.leb_le; lia).
  assert (E3 : (inst =? 0) = false) by (apply Z.eqb_neq; lia).
  rewrite E1, E2, E3. reflexivity.
Qed.

(** A wake-up does not end in the exit of the thread when the reset flag
    is clear or the instance is wanted. *)
Lemma scanner_stays (tn : tunables) (dop rc T inst : Z)
    (fuel ckfuel clkfuel : nat) (h : hands pref) (k : kernel) (w : world)
    (x : hands pref * kernel * world * list (scan_event pref)) :
  pageout_scanner_cycle PAGESHIFT DISKRPM tn dop rc T inst fuel ckfuel
    clkfuel h k w = Done (LwpExit x) ->
  dop <> 0 /\
  nth (Z.to_nat inst) (reset_hands (cs_scan (k_clock k))) false = true /\
  n_page_scanners (cs_scan (k_clock k)) <> 0 /\
  n_page_scanners (cs_scan (k_clock k)) <= inst.
Proof.
  unfold pageout_scanner_cycle.
  destruct (dop =? 0) eqn:Hd; [discriminate|]. apply Z.eqb_neq in Hd.
  unfold scanner_reset. cbv zeta.
  destruct (nth (Z.to_nat inst) (reset_hands (cs_scan (k_clock k))) false).
  - destruct (n_page_scanners (cs_scan (k_clock k)) =? 0) eqn:E1;
      [discriminate|].
    destruct (inst >=? n_page_scanners (cs_scan (k_clock k))) eqn:E2.
    + intros _. zbool. repeat split; try assumption; lia.
    + destruct (gethrtime w) as [start w1].
      destruct (scan_pages _ _ _ _ _ _ _ _ _) as [v | |]; try discriminate.
      destruct (gethrtime (sv_world v)) as [stop w2].
      destruct (scanner_sample _ _ _ _ _ _ _ _ _) as [[k1 |] | |];
        discriminate.
  - destruct (gethrtime w) as [start w1].
    destruct (scan_pages _ _ _ _ _ _ _ _ _) as [v | |]; try discriminate.
    destruct (gethrtime (sv_world v)) as [stop w2].
    destruct (scanner_sample _ _ _ _ _ _ _ _ _) as [[k1 |] | |];
      discriminate.
Qed.

(** X22.  The end of a scanner thread.  A wake-up ends in the exit of
    the thread exactly when pageout is enabled, the reset flag of the
    instance is set and the instance number is not below
    [n_page_scanners]; the thread has then cleared its flag and looked at
    no page.  Instance 0 never exits, and no thread exits while its reset
    flag is clear. *)
Theorem scanner_exit_iff (tn : tunables) (dop rc T inst : Z)
    (fuel ckfuel clkfuel : nat) (h : hands pref) (k : kernel) (w : world) :
  0 <= inst -> 0 <= n_page_scanners (cs_scan (k_clock k)) ->
  let n := n_page_scanners (cs_scan (k_clock k)) in
  let flag := nth (Z.to_nat inst) (reset_hands (cs_scan (k_clock k))) false in
  ((exists x,
      pageout_scanner_cycle PAGESHIFT DISKRPM tn dop rc T inst fuel ckfuel
        clkfuel h k w = Done (LwpExit x)) <->
   dop <> 0 /\ flag = true /\ 0 < n <= inst) /\
  (dop <> 0 -> flag = true -> 0 < n <= inst ->
   pageout_scanner_cycle PAGESHIFT DISKRPM tn dop rc T inst fuel ckfuel
     clkfuel h k w =
   Done (LwpExit (h, set_clock (set_reset_hand inst false (k_clock k)) k,
                  w, []))).
Proof.
  intros Hi Hn0 n flag. split; [split|].
  - intros [x Hx]. apply scanner_stays in Hx.
    destruct Hx as (Hd & Hf & Hne & Hle). fold n in Hne, Hle.
    repeat split; try assumption; lia.
  - intros (Hd & Hf & Hn). eexists. apply scanner_exits; assumption.
  - intros Hd Hf Hn. apply scanner_exits; assumption.
Qed.

(** X23.  The sampling.  While the sampling goes on, a wake-up that
    goes back to the wait was made by instance 0, counts one more sample
    and adds the rounds it made to the pages sampled; the thresholds are
    left alone.  The first wake-up after the last sample, the spread being
    still zero, sets [pageout_rate] to the pages sampled times [NANOSEC]
    over the time sampled, in signed 64-bit arithmetic, and
    [pageout_new_spread] to a tenth of it, and has [setupclock] compute the
    thresholds from that spread; the quotient is the exact one when the
    product fits.  Once the spread is set no wake-up changes the sampling
    or the thresholds again, and the sampling, once over, stays over. *)
Theorem scanner_calibration (tn : tunables) (dop rc T inst : Z)
    (fuel ckfuel clkfuel : nat) (h h' : hands pref) (k k' : kernel)
    (w w' : world) (tr : list (scan_event pref)) :
  dop <> 0 ->
  pageout_scanner_cycle PAGESHIFT DISKRPM tn dop rc T inst fuel ckfuel
    clkfuel h k w = Done (Rescan (h', k', w', tr)) ->
  let cal := k_cal k in
  let cal' := k_cal k' in
  (PAGE_SCAN_STARTUP tn cal = true ->
   inst = 0 /\
   pageout_sample_cnt cal' = u32 (pageout_sample_cnt cal + 1) /\
   (exists n : nat,
      length (visits tr) = (2 * n)%nat /\
      pageout_sample_pages cal' =
        u64 (pageout_sample_pages cal + Z.of_nat n)) /\
   pageout_rate cal' = pageout_rate cal /\
   pageout_new_spread cal' = pageout_new_spread cal /\
   cs_paging (k_clock k') = cs_paging (k_clock k)) /\
  (PAGE_SCAN_STARTUP tn cal = false -> pageout_new_spread cal = 0 ->
   inst = 0 /\ pageout_sample_etime cal <> 0 /\
   pageout_sample_cnt cal' = pageout_sample_cnt cal /\
   pageout_sample_pages cal' = pageout_sample_pages cal /\
   pageout_sample_etime cal' = pageout_sample_etime cal /\
   pageout_rate cal' =
     s64 (Z.quot (s64 (s64 (pageout_sample_pages cal) * NANOSEC))
            (pageout_sample_etime cal)) /\
   pageout_new_spread cal' = u64 (Z.quot (pageout_rate cal') 10) /\
   cs_paging (k_clock k') =
     setupclock_thresholds PAGESHIFT DISKRPM tn T (pageout_new_spread cal')
       (effective_clockinit (k_clock k)) /\
   (0 <= pageout_sample_pages cal ->
    pageout_sample_pages cal * NANOSEC < 2 ^ 63 ->
    0 < pageout_sample_etime cal ->
    pageout_rate cal' =
      pageout_sample_pages cal * NANOSEC / pageout_sample_etime cal /\
    pageout_new_spread cal' = pageout_rate cal' / 10)) /\
  (PAGE_SCAN_STARTUP tn cal = false -> pageout_new_spread cal <> 0 ->
   cal' = cal /\ cs_paging (k_clock k') = cs_paging (k_clock k) /\
   cs_init (k_clock k') = cs_init (k_clock k)) /\
  (PAGE_SCAN_STARTUP tn cal = false -> PAGE_SCAN_STARTUP tn cal' = false).
Proof.
  intros Hd Hc cal cal'.
  destruct (cycle_spec _ _ _ _ _ _ _ _ _ _ _ _ _ _ _ Hc Hd)
    as (h0 & k0 & n & v & el & Hr & Hn & Hs & -> & Ha & ->).
  destruct (scanner_reset_spec _ _ _ _ _ _ Hr)
    as [(Ecal & Ess & _ & Eci & Epg & _) _].
  destruct (scanned_kernel _ _ _ _ _ _ Hs) as (K1 & K2 & K3 & _).
  cbn [sv_kernel] in K1, K2, K3.
  destruct (scanned_hands _ _ _ _ _ _ Hs) as (_ & _ & Hv).
  cbn [sv_trace visits flat_map app] in Hv.
  pose proof (cycle_visits k' v _ Hv) as Hvis.
  assert (Hpc : u64 (sv_pcount v) = u64 (Z.of_nat n))
    by (apply (scanned_pcount _ _ _ _ _ _ Hs)).
  set (kl := set_sched _ (sv_kernel v)) in Ha.
  assert (Ekl : k_cal kl = cal) by (subst kl cal; cbn; congruence).
  assert (Eci' : cs_init (k_clock kl) = cs_init (k_clock k))
    by (subst kl; cbn; congruence).
  assert (Epg' : cs_paging (k_clock kl) = cs_paging (k_clock k))
    by (subst kl; cbn; congruence).
  revert Ha. unfold scanner_sample. cbv zeta. rewrite Ekl.
  destruct (PAGE_SCAN_STARTUP tn cal) eqn:Est.
  - destruct (inst =? 0) eqn:Ei; cbn [negb]; [|discriminate].
    intros H. injection H as <-. subst cal'.
    cbn [k_cal set_cal k_clock pageout_sample_cnt pageout_sample_pages
         pageout_rate pageout_new_spread].
    split; [|repeat split; intros; discriminate].
    intros _. zbool. split; [exact Ei|]. split; [reflexivity|].
    split; [|repeat split; try reflexivity; exact Epg'].
    exists n. split; [rewrite Hvis; apply sweep_length|].
    unfold u64 in *. rewrite <- Z.add_mod_idemp_r by lia.
    rewrite Hpc. rewrite Z.add_mod_idemp_r by lia. reflexivity.
  - destruct (pageout_new_spread cal =? 0) eqn:Esp.
    + destruct (inst =? 0) eqn:Ei; cbn [negb]; [|discriminate].
      destruct (pageout_sample_etime cal =? 0) eqn:Eet; [discriminate|].
      destruct (setupclock _ _ _ _ _ _ _) as [st | |] eqn:Ec;
        try discriminate.
      intros H. injection H as <-. subst cal'.
      cbn [k_cal set_cal set_clock k_clock pageout_sample_cnt
           pageout_sample_pages pageout_sample_etime pageout_rate
           pageout_new_spread].
      zbool.
      destruct (setupclock_done _ _ _ _ _ _ _ _ Ec) as (_ & _ & Ep & _).
      assert (Eeff : effective_clockinit (k_clock kl)
                     = effective_clockinit (k_clock k))
        by (unfold effective_clockinit; rewrite Eci', Epg'; reflexivity).
      rewrite Eeff in Ep.
      split; [intros; discriminate|]. split.
      * intros _ _.
        split; [exact Ei|]. split; [exact Eet|].
        split; [reflexivity|]. split; [reflexivity|]. split; [reflexivity|].
        split; [reflexivity|]. split; [reflexivity|]. split; [exact Ep|].
        intros Hp0 Hprod Het.
        assert (Hn1 : 1 <= NANOSEC) by (unfold NANOSEC; lia).
        assert (Hp63 : pageout_sample_pages cal < 2 ^ 63) by nia.
        rewrite (s64_id (pageout_sample_pages cal)) by lia.
        rewrite (s64_id (_ * NANOSEC)) by nia.
        rewrite Z.quot_div_nonneg by nia.
        assert (Hq : 0 <= pageout_sample_pages cal * NANOSEC
                          / pageout_sample_etime cal
                     <= pageout_sample_pages cal * NANOSEC).
        { split; [apply Z.div_pos; nia|].
          apply Z.div_le_upper_bound; nia. }
        rewrite (s64_id (_ / _)) by lia.
        split; [reflexivity|].
        rewrite Z.quot_div_nonneg by lia.
        apply u64_id. split; [apply Z.div_pos; lia|].
        assert (pageout_sample_pages cal * NANOSEC
                  / pageout_sample_etime cal / 10
                <= pageout_sample_pages cal * NANOSEC
                     / pageout_sample_etime cal)
          by (apply Z.div_le_upper_bound; lia).
        lia.
      * split; [intros _ Hne; contradiction|].
        intros _. unfold PAGE_SCAN_STARTUP in *. exact Est.
    + intros H. injection H as <-. subst cal'.
      split; [intros; discriminate|].
      split; [intros _ H0; zbool; contradiction|].
      split; [intros _ _; repeat split; assumption|].
      intros _. rewrite Ekl. exact Est.
Qed.

(** The scanner pool a tick leaves is the one its resize left. *)
Lemma schedpaging_resize (tn : tunables) (inp : sched_input)
    (cal : calibration) (pg : paging) (pl : pool) (ss ss' : schedstate)
    (sc sc' : scanners) (ev : list sched_event) :
  schedpaging tn inp cal pg pl ss sc = Done (ss', sc', ev) ->
  exists ev4, sched_resize inp cal pg sc = Done (sc', ev4).
Proof.
  unfold schedpaging.
  destruct (sched_resize inp cal pg sc) as [[sc0 ev4] | |];
    try discriminate.
  destruct ((freemem inp <? u64 (lotsfree pg + needfree inp)) ||
            PAGE_SCAN_STARTUP tn cal);
    [| destruct (zone_num_over_cap inp >? 0)];
    intros H; injection H as _ <- _; eexists; reflexivity.
Qed.

(** X24.  From the scheduler to the scanners: the excess scanners
    terminate on their own.  After a tick that resized the pool, on a
    kernel with its 16 reset flags, the next wake-up of a scanner instance
    whose number is not below the new [n_page_scanners] ends in the exit
    of the thread, before it looks at any page, its reset flag cleared;
    the next wake-up of an instance below that number does not end the
    thread. *)
Theorem surplus_scanners_exit (tn : tunables) (inp : sched_input)
    (cal : calibration) (pg : paging) (pl : pool) (ss ss' : schedstate)
    (sc sc' : scanners) (ev : list sched_event)
    (dop rc T inst : Z) (fuel ckfuel clkfuel : nat) (h : hands pref)
    (k : kernel) (w : world) :
  resize_due cal sc = true ->
  0 < handspreadpages pg -> 0 <= total_pages inp ->
  0 <= des_page_scanners sc < 2 ^ 32 ->
  length (reset_hands sc) = 16%nat ->
  schedpaging tn inp cal pg pl ss sc = Done (ss', sc', ev) ->
  cs_scan (k_clock k) = sc' ->
  dop <> 0 -> 0 <= inst < MAX_PSCAN_THREADS ->
  if inst <? n_page_scanners sc' then
    forall x,
      pageout_scanner_cycle PAGESHIFT DISKRPM tn dop rc T inst fuel ckfuel
        clkfuel h k w <> Done (LwpExit x)
  else
    pageout_scanner_cycle PAGESHIFT DISKRPM tn dop rc T inst fuel ckfuel
      clkfuel h k w =
    Done (LwpExit (h, set_clock (set_reset_hand inst false (k_clock k)) k,
                   w, [])).
Proof.
  intros Hdue Hh HT Hdes Hlen Hs Hk Hd Hi.
  destruct (schedpaging_resize _ _ _ _ _ _ _ _ _ _ Hs) as (ev4 & Hr).
  rewrite (sched_resize_spec inp cal pg sc Hdue Hh HT Hdes) in Hr.
  unfold MAX_PSCAN_THREADS in *. cbv zeta in Hr.
  change (Z.to_nat 16) with 16%nat in Hr.
  destruct (set_all_hands 16 0 (reset_hands sc)) as [_ Hnth].
  set (hs := fold_left _ (seq 0 16) (reset_hands sc)) in *.
  injection Hr as <- _.
  assert (Hflag : nth (Z.to_nat inst) (reset_hands (cs_scan (k_clock k)))
                    false = true).
  { rewrite Hk. cbn [reset_hands]. subst hs. rewrite Hnth by lia.
    assert (Nat.ltb (Z.to_nat inst) (0 + 16) = true) as ->
      by (apply Nat.ltb_lt; lia).
    reflexivity. }
  cbn [n_page_scanners].
  set (n' := Z.max 1 (Z.min (Z.min (des_page_scanners sc)
                               (total_pages inp / handspreadpages pg)) 16))
    in *.
  assert (Hn : n_page_scanners (cs_scan (k_clock k)) = n')
    by (rewrite Hk; reflexivity).
  destruct (inst <? n') eqn:El; zbool.
  - intros x Hx. apply scanner_stays in Hx.
    destruct Hx as (_ & _ & _ & Hle). lia.
  - apply scanner_exits; [exact Hd | exact Hflag | lia].
Qed.

End ScannerFacts.

(** ** The scanner on the ring of six test pages *)

Lemma ring_memory_ring (n : Z) : page_ring (mem := ring_memory n).
Proof.
  intros p d. cbn [page_next page_nextn ring_memory].
  destruct (Z.eq_dec n 0) as [-> | Hn].
  - rewrite !Z.mod_0_r. lia.
  - rewrite !Z.add_mod_idemp_l by exact Hn. f_equal. lia.
Qed.

(** X16 on the first wake-up of a kernel that has not sampled yet. *)
Lemma scanner_sweeps_in_step_witness :
  exists h' k' w' tr h0 k0 n,
    pageout_scanner_cycle (mem := ring_memory 6) 12 7200 default_tunables
      1 64 6 0 100 2 10 (mkHands 0 0 0) (six_kernel true unsampled 0) six_world
      = Done (Rescan (h', k', w', tr)) /\
    scanner_reset (mem := ring_memory 6) 6 0 (mkHands 0 0 0)
      (six_kernel true unsampled 0) = Done (Rescan (h0, k0)) /\
    visits tr = sweep (mem := ring_memory 6) n (fronthand h0) (backhand h0) /\
    length (visits tr) = (2 * n)%nat.
Proof.
  destruct (pageout_scanner_cycle (mem := ring_memory 6) 12 7200 default_tunables
      1 64 6 0 100 2 10 (mkHands 0 0 0) (six_kernel true unsampled 0) six_world)
    as [[[[[h' k'] w'] tr] | x |] | |] eqn:E;
    [| vm_compute in E; discriminate E ..].
  destruct (scanner_sweeps_in_step (mem := ring_memory 6) 12 7200
              default_tunables 1 64 6 0 100 2 10 (mkHands 0 0 0) h'
              (six_kernel true unsampled 0) k' six_world w' tr
              ltac:(discriminate) E)
    as (h0 & k0 & n & Hr & _ & Hv & _ & _ & Hl).
  exists h', k', w', tr, h0, k0, n. repeat split; assumption.
Defined.

(** X17 on the same wake-up: the front hand is left two pages ahead. *)
Lemma scanner_keeps_spread_witness :
  exists h' k' w' tr,
    pageout_scanner_cycle (mem := ring_memory 6) 12 7200 default_tunables
      1 64 6 0 100 2 10 (mkHands 0 0 0) (six_kernel true unsampled 0) six_world
      = Done (Rescan (h', k', w', tr)) /\
    fronthand h' = (backhand h' + 2) mod 6.
Proof.
  destruct (pageout_scanner_cycle (mem := ring_memory 6) 12 7200 default_tunables
      1 64 6 0 100 2 10 (mkHands 0 0 0) (six_kernel true unsampled 0) six_world)
    as [[[[[h' k'] w'] tr] | x |] | |] eqn:E;
    [| vm_compute in E; discriminate E ..].
  exists h', k', w', tr. split; [reflexivity|].
  pose proof (scanner_keeps_spread (mem := ring_memory 6) 12 7200
                default_tunables 1 64 6 0 100 2 10 (mkHands 0 0 0) h'
                (six_kernel true unsampled 0) k' six_world w' tr
                (ring_memory_ring 6) E) as H.
  cbv zeta in H.
  change (negb (1 =? 0) &&
          nth (Z.to_nat 0)
            (reset_hands (cs_scan (k_clock (six_kernel true unsampled 0))))
            false) with true in H.
  cbv iota in H. destruct H as [H _]. exact H.
Defined.

(** X18 on a wake-up of the calibrated kernel with [desscan] at 4. *)
Lemma scanner_page_budget_witness :
  exists h' k' w' tr (n : nat) (cnt : Z),
    pageout_scanner_cycle (mem := ring_memory 6) 12 7200 default_tunables
      1 64 6 0 100 2 10 (mkHands 0 0 0) (six_kernel true calibrated 4) six_world
      = Done (Rescan (h', k', w', tr)) /\
    length (visits tr) = (2 * n)%nat /\ 0 <= cnt <= 4 /\
    nscan (k_sched k') = u64 (0 + cnt).
Proof.
  destruct (pageout_scanner_cycle (mem := ring_memory 6) 12 7200 default_tunables
      1 64 6 0 100 2 10 (mkHands 0 0 0) (six_kernel true calibrated 4) six_world)
    as [[[[[h' k'] w'] tr] | x |] | |] eqn:E;
    [| vm_compute in E; discriminate E ..].
  destruct (scanner_page_budget (mem := ring_memory 6) 12 7200
              default_tunables 1 64 6 0 100 2 10 (mkHands 0 0 0) h'
              (six_kernel true calibrated 4) k' six_world w' tr
              ltac:(discriminate) ltac:(reflexivity) E)
    as (n & cnt & Hl & _ & Hc & Hm & Hn).
  exists h', k', w', tr, n, cnt.
  change (Z.max (if PAGE_SCAN_STARTUP default_tunables
                      (k_cal (six_kernel true calibrated 4))
                 then 6
                 else desscan (k_sched (six_kernel true calibrated 4))) 0)
    with 4 in Hm.
  repeat split; try assumption; lia.
Defined.

(** X19 on the same wake-up. *)
Lemma scanner_po_share_ladder_witness :
  exists h' k' w' tr,
    pageout_scanner_cycle (mem := ring_memory 6) 12 7200 default_tunables
      1 64 6 0 100 2 10 (mkHands 0 0 0) (six_kernel true calibrated 4) six_world
      = Done (Rescan (h', k', w', tr)) /\
    MIN_PO_SHARE <= po_share (k_sched k') <= MAX_PO_SHARE /\
    desscan (k_sched k') = 4.
Proof.
  destruct (pageout_scanner_cycle (mem := ring_memory 6) 12 7200 default_tunables
      1 64 6 0 100 2 10 (mkHands 0 0 0) (six_kernel true calibrated 4) six_world)
    as [[[[[h' k'] w'] tr] | x |] | |] eqn:E;
    [| vm_compute in E; discriminate E ..].
  exists h', k', w', tr. split; [reflexivity|].
  destruct (scanner_po_share_ladder (mem := ring_memory 6) 12 7200
              default_tunables 1 64 6 0 100 2 10 (mkHands 0 0 0) h'
              (six_kernel true calibrated 4) k' six_world w' tr)
    as (_ & H2 & H3 & _).
  - exists 0. split; [lia | reflexivity].
  - exact E.
  - split; [exact H2 | exact H3].
Defined.

(** X20 on the first wake-up: every lock is given back and the pool
    of four still has four requests. *)
Lemma scanner_locks_and_pool_witness :
  exists h' k' w' tr,
    pageout_scanner_cycle (mem := ring_memory 6) 12 7200 default_tunables
      1 64 6 0 100 2 10 (mkHands 0 0 0) (six_kernel true unsampled 0) six_world
      = Done (Rescan (h', k', w', tr)) /\
    locks_held (page_calls tr) = 0 /\
    (length (push_list (k_pool k')) + length (req_freelist (k_pool k')))%nat
    = 4%nat.
Proof.
  destruct (pageout_scanner_cycle (mem := ring_memory 6) 12 7200 default_tunables
      1 64 6 0 100 2 10 (mkHands 0 0 0) (six_kernel true unsampled 0) six_world)
    as [[[[[h' k'] w'] tr] | x |] | |] eqn:E;
    [| vm_compute in E; discriminate E ..].
  exists h', k', w', tr. split; [reflexivity|].
  destruct (scanner_locks_and_pool (mem := ring_memory 6) 12 7200
              default_tunables 1 64 6 0 100 2 10 (mkHands 0 0 0) h'
              (six_kernel true unsampled 0) k' six_world w' tr E)
    as (H1 & _ & H3).
  split; [exact H1 | exact H3].
Defined.

(** X21 on the calibrated kernel with [desscan] at zero and no loop
    budget. *)
Lemma scanner_idle_witness :
  exists k' w',
    pageout_scanner_cycle (mem := ring_memory 6) 12 7200 default_tunables 1
      64 6 0 0 0 0 (mkHands 3 1 0) (six_kernel false calibrated 0) six_world
    = Done (Rescan (mkHands 3 1 0, k', w', [])) /\
    k_pool k' = pageout_init 4.
Proof.
  destruct (scanner_idle (mem := ring_memory 6) 12 7200 default_tunables 1
              64 6 0 0 0 0 (mkHands 3 1 0) (six_kernel false calibrated 0)
              six_world) as [_ H].
  specialize (H ltac:(discriminate) eq_refl eq_refl ltac:(discriminate)
                (or_introl (Z.le_refl 0))).
  do 2 eexists. split; [exact H | reflexivity].
Defined.

(** X22 on instance 1 of a pool cut down to one scanner. *)
Lemma scanner_exit_iff_witness :
  let k := set_clock
             (set_reset_hand 1 true (k_clock (six_kernel false calibrated 4)))
             (six_kernel false calibrated 4) in
  exists k',
    pageout_scanner_cycle (mem := ring_memory 6) 12 7200 default_tunables
      1 64 6 1 100 2 10 (mkHands 0 0 0) k six_world = Done (LwpExit (mkHands 0 0 0, k', six_world, [])) /\
    nth 1 (reset_hands (cs_scan (k_clock k'))) true = false.
Proof.
  intros k.
  destruct (scanner_exit_iff (mem := ring_memory 6) 12 7200 default_tunables
              1 64 6 1 100 2 10 (mkHands 0 0 0) k six_world)
    as [_ H].
  - lia.
  - cbn. lia.
  - specialize (H ltac:(discriminate) eq_refl
                  ltac:(split; [reflexivity | discriminate])).
    eexists. split; [exact H | reflexivity].
Defined.

(** X23 on the spec's scenario S2: ten million pages sampled in five
    seconds give a rate of 2,000,000 pages a second and a spread of
    200,000 pages. *)
Lemma scanner_calibration_witness :
  exists h' k' w' tr,
    pageout_scanner_cycle (mem := ring_memory 6) 12 7200 default_tunables
      1 64 6 0 100 2 10 (mkHands 0 0 0) (six_kernel false sampled 4) six_world
      = Done (Rescan (h', k', w', tr)) /\
    pageout_rate (k_cal k') = 2000000 /\
    pageout_new_spread (k_cal k') = 200000.
Proof.
  destruct (pageout_scanner_cycle (mem := ring_memory 6) 12 7200 default_tunables
      1 64 6 0 100 2 10 (mkHands 0 0 0) (six_kernel false sampled 4) six_world)
    as [[[[[h' k'] w'] tr] | x |] | |] eqn:E;
    [| vm_compute in E; discriminate E ..].
  exists h', k', w', tr. split; [reflexivity|].
  destruct (scanner_calibration (mem := ring_memory 6) 12 7200
              default_tunables 1 64 6 0 100 2 10 (mkHands 0 0 0) h'
              (six_kernel false sampled 4) k' six_world w' tr
              ltac:(discriminate) E) as (_ & H & _).
  destruct (H eq_refl eq_refl) as (_ & _ & _ & _ & _ & _ & _ & _ & Hx).
  destruct Hx as [Hr Hs]; [cbn; lia | reflexivity | cbn; lia |].
  rewrite Hs, Hr. split; reflexivity.
Defined.

(** X24: the spec's thresholds, a pool of three scanners cut to one;
    instance 2 exits at its next wake-up. *)
Lemma surplus_scanners_exit_witness :
  exists ss' sc' ev k',
    schedpaging default_tunables (s3_input 2000 0) calibrated s3_paging
      (pageout_init async_list_size) s3_sched
      (mkScanners 262144 1 3 (repeat false 16)) = Done (ss', sc', ev) /\
    n_page_scanners sc' = 1 /\
    pageout_scanner_cycle (mem := ring_memory 6) 12 7200 default_tunables 1
      64 6 2 100 2 10 (mkHands 0 0 0)
      (mkKernel (mkClock clockinit0 s3_paging sc') calibrated ss'
         (pageout_init 4) 0) six_world
    = Done (LwpExit (mkHands 0 0 0, k', six_world, [])).
Proof.
  destruct (schedpaging default_tunables (s3_input 2000 0) calibrated
              s3_paging (pageout_init async_list_size) s3_sched
              (mkScanners 262144 1 3 (repeat false 16)))
    as [[[ss' sc'] ev] | |] eqn:E; [| vm_compute in E; discriminate E ..].
  assert (Hn : n_page_scanners sc' = 1)
    by (vm_compute in E; injection E as _ <- _; reflexivity).
  pose proof (surplus_scanners_exit (mem := ring_memory 6) 12 7200
                default_tunables (s3_input 2000 0) calibrated s3_paging
                (pageout_init async_list_size) s3_sched ss'
                (mkScanners 262144 1 3 (repeat false 16)) sc' ev
                1 64 6 2 100 2 10 (mkHands 0 0 0)
                (mkKernel (mkClock clockinit0 s3_paging sc') calibrated ss'
                   (pageout_init 4) 0) six_world) as H.
  specialize (H eq_refl eq_refl ltac:(discriminate)
                ltac:(split; [discriminate | reflexivity]) eq_refl E eq_refl
                ltac:(discriminate)
                ltac:(split; [discriminate | reflexivity])).
  rewrite Hn in H. change (2 <? 1) with false in H. cbv iota in H.
  exists ss', sc', ev. eexists. split; [reflexivity|].
  split; [exact Hn | exact H].
Defined.
